(** * The repository store of bytebase: [backend/store/repository.go]

    A shallow embedding of [RepositoryService] (create, find, patch and
    delete of rows of table [repo]) together with the part of
    [database/sql] the service drives: transactions, row cursors and
    statement results.  The service functions are translated from the Go
    source line by line.  A Go return [(value, error)] of the service is a
    pair of options, [nil] being [None]; a call of [database/sql], which
    gives exactly one of a result and an error, returns a sum.  Go's
    [int] and [int64] are [Z]: the store does no arithmetic on them.  The
    world records, next to the table and the transaction, the calls made
    on the driver, the warnings logged and the errors [FormatError] was
    called on, so that the properties can speak about them. *)

From Stdlib Require Import ZArith List String Ascii Bool Lia DecimalString.
From Equations Require Import Equations.
Import ListNotations.
Open Scope string_scope.
Open Scope Z_scope.

(** ** Errors *)

(** Error codes of package [bytebase]; the store only ever builds
    [ENOTFOUND] itself. *)
Inductive ErrorCode := ECONFLICT | EINTERNAL | EINVALID | ENOTFOUND.

(** A Go [error] value: either one that comes from [database/sql] or the
    driver, or a [&bytebase.Error{Code, Message}]. *)
Inductive error :=
| DriverError (msg : string)
| BytebaseError (Code : ErrorCode) (Message : string).

Definition ErrTxDone : error :=
  DriverError "sql: transaction has already been committed or rolled back".
Definition errRowsClosed : error := DriverError "sql: Rows are closed".
Definition errNoNext : error :=
  DriverError "sql: Scan called without calling Next".
Definition errScan : error := DriverError "sql: Scan error".
Definition errPrepare : error := DriverError "SQL logic error".

(** [fmt.Sprintf("%d", z)]. *)
Definition Sprintf_d (z : Z) : string := NilZero.string_of_int (Z.to_int z).

(** ** The API structs *)

(** [api.Repository], field by field in the order the store scans it. *)
Record Repository := mkRepository {
  ID : Z;
  CreatorId : Z;
  CreatedTs : Z;
  UpdaterId : Z;
  UpdatedTs : Z;
  VCSId : Z;
  ProjectId : Z;
  Name : string;
  FullPath : string;
  WebURL : string;
  BaseDirectory : string;
  BranchFilter : string;
  ExternalId : string;
  WebhookId : string
}.

(** [api.RepositoryCreate]; the fields are those the INSERT binds.  They
    carry a [c] prefix because a Rocq record cannot share projection names
    with [Repository]. *)
Record RepositoryCreate := mkRepositoryCreate {
  cCreatorId : Z;
  cVCSId : Z;
  cProjectId : Z;
  cName : string;
  cFullPath : string;
  cWebURL : string;
  cBaseDirectory : string;
  cBranchFilter : string;
  cExternalId : string;
  cWebhookId : string
}.

(** [api.RepositoryFind]: [ID *int]. *)
Record RepositoryFind := mkRepositoryFind {
  fID : option Z
}.

(** [api.RepositoryPatch]: [BaseDirectory] and [BranchFilter] are [*string]. *)
Record RepositoryPatch := mkRepositoryPatch {
  pID : Z;
  pUpdaterId : Z;
  pBaseDirectory : option string;
  pBranchFilter : option string
}.

(** [api.RepositoryDelete]. *)
Record RepositoryDelete := mkRepositoryDelete {
  dID : Z
}.

(** ** Values, columns and rows of table [repo] *)

(** What a placeholder is bound to and what a column holds. *)
Inductive value :=
| VInt (z : Z)
| VText (s : string).

Definition value_eqb (a b : value) : bool :=
  match a, b with
  | VInt x, VInt y => Z.eqb x y
  | VText x, VText y => String.eqb x y
  | _, _ => false
  end.

(** The value of a column of a stored row, by column name. *)
Definition column (c : string) (r : Repository) : option value :=
  if String.eqb c "id" then Some (VInt (ID r))
  else if String.eqb c "creator_id" then Some (VInt (CreatorId r))
  else if String.eqb c "created_ts" then Some (VInt (CreatedTs r))
  else if String.eqb c "updater_id" then Some (VInt (UpdaterId r))
  else if String.eqb c "updated_ts" then Some (VInt (UpdatedTs r))
  else if String.eqb c "vcs_id" then Some (VInt (VCSId r))
  else if String.eqb c "project_id" then Some (VInt (ProjectId r))
  else if String.eqb c "name" then Some (VText (Name r))
  else if String.eqb c "full_path" then Some (VText (FullPath r))
  else if String.eqb c "web_url" then Some (VText (WebURL r))
  else if String.eqb c "base_directory" then Some (VText (BaseDirectory r))
  else if String.eqb c "branch_filter" then Some (VText (BranchFilter r))
  else if String.eqb c "external_id" then Some (VText (ExternalId r))
  else if String.eqb c "webhook_id" then Some (VText (WebhookId r))
  else None.

(** Storing a value in a column of a row; [None] when the column does not
    exist or the value has the wrong type for it. *)
Definition set_column (c : string) (v : value) (r : Repository)
  : option Repository :=
  let '(mkRepository id cr crt up upt vcs prj nm fp url bd bf ext wh) := r in
  match v with
  | VInt z =>
      if String.eqb c "id" then Some (mkRepository z cr crt up upt vcs prj nm fp url bd bf ext wh)
      else if String.eqb c "creator_id" then Some (mkRepository id z crt up upt vcs prj nm fp url bd bf ext wh)
      else if String.eqb c "created_ts" then Some (mkRepository id cr z up upt vcs prj nm fp url bd bf ext wh)
      else if String.eqb c "updater_id" then Some (mkRepository id cr crt z upt vcs prj nm fp url bd bf ext wh)
      else if String.eqb c "updated_ts" then Some (mkRepository id cr crt up z vcs prj nm fp url bd bf ext wh)
      else if String.eqb c "vcs_id" then Some (mkRepository id cr crt up upt z prj nm fp url bd bf ext wh)
      else if String.eqb c "project_id" then Some (mkRepository id cr crt up upt vcs z nm fp url bd bf ext wh)
      else None
  | VText s =>
      if String.eqb c "name" then Some (mkRepository id cr crt up upt vcs prj s fp url bd bf ext wh)
      else if String.eqb c "full_path" then Some (mkRepository id cr crt up upt vcs prj nm s url bd bf ext wh)
      else if String.eqb c "web_url" then Some (mkRepository id cr crt up upt vcs prj nm fp s bd bf ext wh)
      else if String.eqb c "base_directory" then Some (mkRepository id cr crt up upt vcs prj nm fp url s bf ext wh)
      else if String.eqb c "branch_filter" then Some (mkRepository id cr crt up upt vcs prj nm fp url bd s ext wh)
      else if String.eqb c "external_id" then Some (mkRepository id cr crt up upt vcs prj nm fp url bd bf s wh)
      else if String.eqb c "webhook_id" then Some (mkRepository id cr crt up upt vcs prj nm fp url bd bf ext s)
      else None
  end.

(** The columns a SELECT or RETURNING list asks for, in that order. *)
Fixpoint project (cols : list string) (r : Repository) : option (list value) :=
  match cols with
  | [] => Some []
  | c :: cols' =>
      match column c r, project cols' r with
      | Some v, Some vs => Some (v :: vs)
      | _, _ => None
      end
  end.

(** [Scan] of one result row into the fourteen destinations the store
    passes, in their order and with their Go types. *)
Definition decode (vals : list value) : option Repository :=
  match vals with
  | [VInt id; VInt cr; VInt crt; VInt up; VInt upt; VInt vcs; VInt prj;
     VText nm; VText fp; VText url; VText bd; VText bf; VText ext; VText wh] =>
      Some (mkRepository id cr crt up upt vcs prj nm fp url bd bf ext wh)
  | _ => None
  end.

(** The zero value of [api.Repository] ([var repository api.Repository]). *)
Definition zeroRepository : Repository :=
  mkRepository 0 0 0 0 0 0 0 EmptyString EmptyString EmptyString
    EmptyString EmptyString EmptyString EmptyString.

(** ** Statements *)

(** The four statements of the store.  The clause lists are the Go slices
    the code joins into the text ([strings.Join]); the column lists are
    those of the literal text. *)
Inductive Stmt :=
| InsertReturning (cols : list string) (returning : list string)
| SelectWhere (cols : list string) (where_ : list string)
| UpdateReturning (set : list string) (where_ : list string)
    (returning : list string)
| DeleteWhere (where_ : list string).

(** [strings.Join(elems, sep)]. *)
Definition strings_Join (elems : list string) (sep : string) : string :=
  String.concat sep elems.

(** The text sent to the driver (white space normalised). *)
Definition sql_text (s : Stmt) : string :=
  match s with
  | InsertReturning cols returning =>
      "INSERT INTO repo (" ++ strings_Join cols ", " ++ ") VALUES ("
        ++ strings_Join (map (fun _ => "?") cols) ", " ++ ") RETURNING "
        ++ strings_Join returning ", "
  | SelectWhere cols where_ =>
      "SELECT " ++ strings_Join cols ", " ++ " FROM repo WHERE "
        ++ strings_Join where_ " AND "
  | UpdateReturning set where_ returning =>
      "UPDATE repo SET " ++ strings_Join set ", " ++ " WHERE "
        ++ strings_Join where_ " AND " ++ " RETURNING "
        ++ strings_Join returning ", "
  | DeleteWhere where_ =>
      "DELETE FROM repo WHERE " ++ strings_Join where_ " AND "
  end.

(** The column list every SELECT and RETURNING of the store uses. *)
Definition repo_columns : list string :=
  ["id"; "creator_id"; "created_ts"; "updater_id"; "updated_ts"; "vcs_id";
   "project_id"; "name"; "full_path"; "web_url"; "base_directory";
   "branch_filter"; "external_id"; "webhook_id"].

(** The column list of the INSERT. *)
Definition insert_columns : list string :=
  ["creator_id"; "updater_id"; "vcs_id"; "project_id"; "name"; "full_path";
   "web_url"; "base_directory"; "branch_filter"; "external_id"; "webhook_id"].

(** ** Binding placeholders *)

(** [placeholder_column "c = ?" = Some "c"]: the column of a fragment that
    compares or assigns one placeholder. *)
Definition placeholder_column (frag : string) : option string :=
  let n := String.length frag in
  if (4 <=? n)%nat && String.eqb (substring (n - 4) 4 frag) " = ?"
  then Some (substring 0 (n - 4) frag)
  else None.

(** A bound condition of a WHERE clause. *)
Inductive cond :=
| CTrue
| CEq (c : string) (v : value).

(** Placeholders are bound left to right; the result keeps the arguments
    not yet consumed. *)
Fixpoint bind_set (frags : list string) (args : list value)
  : option (list (string * value) * list value) :=
  match frags with
  | [] => Some ([], args)
  | frag :: frags' =>
      match placeholder_column frag, args with
      | Some c, v :: args' =>
          match bind_set frags' args' with
          | Some (asg, rest) => Some ((c, v) :: asg, rest)
          | None => None
          end
      | _, _ => None
      end
  end.

Fixpoint bind_where (frags : list string) (args : list value)
  : option (list cond * list value) :=
  match frags with
  | [] => Some ([], args)
  | frag :: frags' =>
      if String.eqb frag "1 = 1" then
        match bind_where frags' args with
        | Some (cs, rest) => Some (CTrue :: cs, rest)
        | None => None
        end
      else
        match placeholder_column frag, args with
        | Some c, v :: args' =>
            match bind_where frags' args' with
            | Some (cs, rest) => Some (CEq c v :: cs, rest)
            | None => None
            end
        | _, _ => None
        end
  end.

(** ** Executing a statement on the table *)

(** Table [repo]: its rows in storage order and the last id the engine
    handed out. *)
Record Table := mkTable {
  rows : list Repository;
  seq : Z
}.

Definition holds1 (c : cond) (r : Repository) : bool :=
  match c with
  | CTrue => true
  | CEq col v =>
      match column col r with
      | Some x => value_eqb x v
      | None => false
      end
  end.

(** A row satisfies a WHERE clause when it satisfies every conjunct. *)
Definition holds (cs : list cond) (r : Repository) : bool :=
  forallb (fun c => holds1 c r) cs.

Fixpoint assign (asg : list (string * value)) (r : Repository)
  : option Repository :=
  match asg with
  | [] => Some r
  | (c, v) :: asg' =>
      match set_column c v r with
      | Some r' => assign asg' r'
      | None => None
      end
  end.

(** The assignments applied to a row; a row they do not fit is left as it
    is (a statement whose assignments do not fit is refused before it
    runs, see [exec_stmt]). *)
Definition update_row (asg : list (string * value)) (r : Repository)
  : Repository :=
  match assign asg r with
  | Some r' => r'
  | None => r
  end.

Definition valid_cond (c : cond) : bool :=
  match c with
  | CTrue => true
  | CEq col _ => match column col zeroRepository with Some _ => true | None => false end
  end.

Definition valid_assign (asg : list (string * value)) : bool :=
  match assign asg zeroRepository with Some _ => true | None => false end.

Definition valid_columns (cols : list string) : bool :=
  match project cols zeroRepository with Some _ => true | None => false end.

(** The result rows of a statement: every row projected on the columns
    asked for. *)
Definition project_all (cols : list string) (rs : list Repository)
  : list (list value) :=
  flat_map (fun r => match project cols r with
                     | Some vals => [vals]
                     | None => []
                     end) rs.

(** Modelled from the spec: the column defaults of table [repo], whose
    schema is not in the source tree.  "ID is unique and assigned by the
    store on creation" and the created and updated timestamps are "server
    assigned": a new row takes the next id of the sequence and the engine's
    clock for both timestamps. *)
Definition default_row (t : Table) (now : Z) : Repository :=
  mkRepository (seq t + 1) 0 now 0 now 0 0 EmptyString EmptyString
    EmptyString EmptyString EmptyString EmptyString EmptyString.

(** What a statement does to the table: the new table, the rows it
    returns and the number of rows it changed.  [None] when the statement
    does not prepare (unknown column, wrong number or type of
    arguments). *)
Definition exec_stmt (now : Z) (s : Stmt) (args : list value) (t : Table)
  : option (Table * list (list value) * Z) :=
  match s with
  | InsertReturning cols returning =>
      if negb (Nat.eqb (List.length cols) (List.length args)) then None
      else if negb (valid_columns returning) then None
      else
        match assign (combine cols args) (default_row t now) with
        | Some row =>
            Some (mkTable (rows t ++ [row]) (seq t + 1),
                  project_all returning [row], 1)
        | None => None
        end
  | SelectWhere cols where_ =>
      match bind_where where_ args with
      | Some (cs, []) =>
          if forallb valid_cond cs && valid_columns cols
          then Some (t, project_all cols (filter (holds cs) (rows t)), 0)
          else None
      | _ => None
      end
  | UpdateReturning set where_ returning =>
      match bind_set set args with
      | Some (asg, rest) =>
          match bind_where where_ rest with
          | Some (cs, []) =>
              if valid_assign asg && forallb valid_cond cs
                 && valid_columns returning
              then
                Some (mkTable
                        (map (fun r => if holds cs r then update_row asg r
                                       else r) (rows t))
                        (seq t),
                      project_all returning
                        (map (update_row asg) (filter (holds cs) (rows t))),
                      Z.of_nat (List.length (filter (holds cs) (rows t))))
              else None
          | _ => None
          end
      | None => None
      end
  | DeleteWhere where_ =>
      match bind_where where_ args with
      | Some (cs, []) =>
          if forallb valid_cond cs
          then Some (mkTable (filter (fun r => negb (holds cs r)) (rows t))
                             (seq t),
                     [],
                     Z.of_nat (List.length (filter (holds cs) (rows t))))
          else None
      | _ => None
      end
  end.

(** ** The world the service runs in *)

(** What the driver does wrong during one call of the service: the error,
    if any, of each kind of driver call.  [step_err] is an error the
    engine meets while it runs a query (a constraint violation, a busy
    database): the cursor then yields no row and carries the error. *)
Record Faults := mkFaults {
  begin_err : option error;
  query_err : option error;
  step_err : option error;
  affected_err : option error;
  commit_err : option error
}.

Definition no_faults : Faults := mkFaults None None None None None.

(** The transaction of the connection. *)
Inductive TxState :=
| NoTx
| TxActive (work : Table)
| TxCommitted
| TxRolledBack.

(** The calls the service makes on [database/sql], as a trace. *)
Inductive Call :=
| CallBegin
| CallQuery (s : Stmt) (args : list value)
| CallExec (s : Stmt) (args : list value)
| CallCommit
| CallRollback.

Record World := mkWorld {
  repo : Table;               (* the durable contents of table repo *)
  clock : Z;                  (* the engine's current time *)
  tx : TxState;
  faults : Faults;
  calls : list Call;          (* driver calls, oldest first *)
  warnings : list string;     (* what the logger got at level Warn *)
  classified : list error     (* the arguments of FormatError, oldest first *)
}.

Definition set_tx (t : TxState) (w : World) : World :=
  mkWorld (repo w) (clock w) t (faults w) (calls w) (warnings w) (classified w).
Definition set_repo (r : Table) (w : World) : World :=
  mkWorld r (clock w) (tx w) (faults w) (calls w) (warnings w) (classified w).
Definition record_call (c : Call) (w : World) : World :=
  mkWorld (repo w) (clock w) (tx w) (faults w) (calls w ++ [c]) (warnings w)
          (classified w).

Definition record_warning (msg : string) (w : World) : World :=
  mkWorld (repo w) (clock w) (tx w) (faults w) (calls w) (warnings w ++ [msg])
          (classified w).
Definition record_classified (err : error) (w : World) : World :=
  mkWorld (repo w) (clock w) (tx w) (faults w) (calls w) (warnings w)
          (classified w ++ [err]).

(** A world at rest: the table, the clock and the faults of the next call. *)
Definition idle (t : Table) (now : Z) (f : Faults) : World :=
  mkWorld t now NoTx f [] [] [].

(** A computation of the service: a state transformer over the world. *)
Definition M (A : Type) : Type := World -> A * World.

Definition ret {A} (a : A) : M A := fun w => (a, w).
Definition bind {A B} (m : M A) (k : A -> M B) : M B :=
  fun w => let (a, w') := m w in k a w'.

Notation "x <- m ;; k" := (bind m (fun x => k))
  (at level 61, m at next level, right associativity).
Notation "' p <- m ;; k" := (bind m (fun x => let 'p := x in k))
  (at level 61, p pattern, m at next level, right associativity).

(** Go's [(v, err)] with [nil] as [None]. *)
Definition GoResult (A : Type) : Type := (option A * option error)%type.

(** ** [database/sql] *)

(** [sql.Rows]: the rows still to come, the error the driver will report
    once they are used up ([None] for a plain end of rows), the row [Next]
    made current, whether the cursor is closed, and the error [Err]
    reports. *)
Record Rows := mkRows {
  pending : list (list value);
  fail : option error;
  lastcols : option (list value);
  closed : bool;
  lasterr : option error
}.

(** [rows.Next()]: makes the next row current, or closes the cursor and
    keeps the driver's error. *)
Definition Next (rs : Rows) : bool * Rows :=
  if closed rs then (false, rs)
  else
    match pending rs with
    | vals :: rest => (true, mkRows rest (fail rs) (Some vals) false None)
    | [] => (false, mkRows [] (fail rs) None true (fail rs))
    end.

(** [rows.Scan(&dest...)]: on a closed cursor the error the cursor
    carries, or [errRowsClosed]; without a current row [errNoNext];
    otherwise the current row decoded into the destination. *)
Definition Scan (rs : Rows) (dest : Repository) : Repository * option error :=
  if closed rs then
    (dest, Some (match lasterr rs with Some e => e | None => errRowsClosed end))
  else
    match lastcols rs with
    | None => (dest, Some errNoNext)
    | Some vals =>
        match decode vals with
        | Some r => (r, None)
        | None => (dest, Some errScan)
        end
    end.

(** [rows.Err()]. *)
Definition Err (rs : Rows) : option error := lasterr rs.

(** [sql.Result] of [ExecContext]. *)
Record Result := mkResult {
  changes : Z;
  changes_err : option error
}.

(** [result.RowsAffected()]: the count, or zero with the driver's error. *)
Definition RowsAffected (res : Result) : Z * option error :=
  match changes_err res with
  | Some e => (0, Some e)
  | None => (changes res, None)
  end.

(** [s.db.BeginTx(ctx, nil)]: opens a transaction on a snapshot of the
    table. *)
Definition BeginTx : M (option error) :=
  fun w =>
    let w := record_call CallBegin w in
    match begin_err (faults w) with
    | Some e => (Some e, w)
    | None => (None, set_tx (TxActive (repo w)) w)
    end.

(** [tx.Commit()]: makes the work of the transaction durable.  Once Commit
    returns the transaction is over whatever the result: when the engine
    refuses the commit the driver rolls the transaction back. *)
Definition Commit : M (option error) :=
  fun w =>
    let w := record_call CallCommit w in
    match tx w with
    | TxActive work =>
        match commit_err (faults w) with
        | Some e => (Some e, set_tx TxRolledBack w)
        | None => (None, set_repo work (set_tx TxCommitted w))
        end
    | _ => (Some ErrTxDone, w)
    end.

(** [tx.Rollback()]: drops the work of the transaction; on a transaction
    that is over it does nothing and returns [ErrTxDone]. *)
Definition Rollback : M (option error) :=
  fun w =>
    let w := record_call CallRollback w in
    match tx w with
    | TxActive _ => (None, set_tx TxRolledBack w)
    | _ => (Some ErrTxDone, w)
    end.

(** [tx.QueryContext(ctx, text, args...)]: the cursor or the error,
    never both and never neither. *)
Definition QueryContext (s : Stmt) (args : list value) : M (error + Rows) :=
  fun w =>
    let w := record_call (CallQuery s args) w in
    match tx w with
    | TxActive work =>
        match query_err (faults w) with
        | Some e => (inl e, w)
        | None =>
            match exec_stmt (clock w) s args work with
            | None => (inl errPrepare, w)
            | Some (work', out, _) =>
                match step_err (faults w) with
                | Some e => (inr (mkRows [] (Some e) None false None), w)
                | None =>
                    (inr (mkRows out None None false None),
                     set_tx (TxActive work') w)
                end
            end
        end
    | _ => (inl ErrTxDone, w)
    end.

(** [tx.ExecContext(ctx, text, args...)]: runs the statement to its end
    and gives its result or the error. *)
Definition ExecContext (s : Stmt) (args : list value) : M (error + Result) :=
  fun w =>
    let w := record_call (CallExec s args) w in
    match tx w with
    | TxActive work =>
        match query_err (faults w) with
        | Some e => (inl e, w)
        | None =>
            match exec_stmt (clock w) s args work with
            | None => (inl errPrepare, w)
            | Some (work', _, n) =>
                match step_err (faults w) with
                | Some e => (inl e, w)
                | None =>
                    (inr (mkResult n (affected_err (faults w))),
                     set_tx (TxActive work') w)
                end
            end
        end
    | _ => (inl ErrTxDone, w)
    end.

(** [s.l.Warn(msg)]. *)
Definition Warn (msg : string) : M unit :=
  fun w => (tt, record_warning msg w).

(** ** The store: [repository.go] *)

(** The deferred [row.Close()] of the row functions is left out: a cursor
    is not used after its function has returned. *)

Definition inspect {A} (a : A) : {b : A | a = b} := exist _ a eq_refl.

(** The loop of [findRepositoryList] (lines 223 to 245):
    [for rows.Next() { Scan; append }].  It stops at the first row that
    does not scan and hands that error to its caller, which returns it
    through [FormatError] as line 241 does. *)
Equations? collect (rs : Rows) (acc : list Repository)
  : list Repository * option error * Rows
  by wf (List.length (pending rs)) lt :=
  collect rs acc with inspect (Next rs) := {
    | exist _ (true, rs') _ with Scan rs' zeroRepository := {
        | (_, Some err) := (acc, Some err, rs');
        | (repository, None) := collect rs' (acc ++ [repository]) };
    | exist _ (false, rs') _ := (acc, None, rs') }.
Proof.
  match goal with H : Next rs = (true, rs') |- _ => revert H end.
  unfold Next. destruct (closed rs); [discriminate |].
  destruct (pending rs) as [| vals rest]; [discriminate |].
  intros H. injection H as <-. simpl. lia.
Qed.

Section Store.

(** [FormatError] of the store package maps a driver error to the error
    the service returns; its body is not in the source tree, so
    the mapping is a parameter.  [Sprintf_v] is [fmt]'s rendering of a
    [*api.RepositoryFind] under the verb percent-v. *)
Variable classify : error -> error.
Variable Sprintf_v : RepositoryFind -> string.

(** A call of [FormatError]: the mapping, and a record of the call. *)
Definition FormatError (err : error) : M error :=
  fun w => (classify err, record_classified err w).

(** [defer d] in front of [body]: [d] runs when [body] has returned. *)
Definition defer {A B} (d : M B) (body : M A) : M A :=
  r <- body ;; _ <- d ;; ret r.

(** Lines 128 to 187. *)
Definition createRepository (create : RepositoryCreate)
  : M (GoResult Repository) :=
  res <- QueryContext (InsertReturning insert_columns repo_columns)
           [VInt (cCreatorId create);
            VInt (cCreatorId create);
            VInt (cVCSId create);
            VInt (cProjectId create);
            VText (cName create);
            VText (cFullPath create);
            VText (cWebURL create);
            VText (cBaseDirectory create);
            VText (cBranchFilter create);
            VText (cExternalId create);
            VText (cWebhookId create)] ;;
  match res with
  | inl err => e <- FormatError err ;; ret (None, Some e)
  | inr row =>
      let '(_, row) := Next row in
      let '(repository, err) := Scan row zeroRepository in
      match err with
      | Some err => e <- FormatError err ;; ret (None, Some e)
      | None => ret (Some repository, None)
      end
  end.

(** Lines 190 to 194: the WHERE clause and its arguments. *)
Definition find_clause (find : RepositoryFind) : list string * list value :=
  let '(where_, args) := (["1 = 1"], @nil value) in
  match fID find with
  | Some v => ((where_ ++ ["id = ?"])%list, (args ++ [VInt v])%list)
  | None => (where_, args)
  end.

(** Lines 189 to 251. *)
Definition findRepositoryList (find : RepositoryFind)
  : M (GoResult (list Repository)) :=
  let '(where_, args) := find_clause find in
  res <- QueryContext (SelectWhere repo_columns where_) args ;;
  match res with
  | inl err => e <- FormatError err ;; ret (None, Some e)
  | inr rows =>
      let '(list, scan_err, rows) := collect rows [] in
      match scan_err with
      | Some err => e <- FormatError err ;; ret (None, Some e)
      | None =>
          match Err rows with
          | Some err => e <- FormatError err ;; ret (None, Some e)
          | None => ret (Some list, None)
          end
      end
  end.

(** Lines 255 to 264: the SET clause and the arguments of the UPDATE. *)
Definition patch_clause (patch : RepositoryPatch) : list string * list value :=
  let '(set, args) := (["updater_id = ?"], [VInt (pUpdaterId patch)]) in
  let '(set, args) :=
    match pBaseDirectory patch with
    | Some v => ((set ++ ["base_directory = ?"])%list, (args ++ [VText v])%list)
    | None => (set, args)
    end in
  let '(set, args) :=
    match pBranchFilter patch with
    | Some v => ((set ++ ["branch_filter = ?"])%list, (args ++ [VText v])%list)
    | None => (set, args)
    end in
  (set, (args ++ [VInt (pID patch)])%list).

(** Lines 254 to 305. *)
Definition patchRepository (patch : RepositoryPatch)
  : M (GoResult Repository) :=
  let '(set, args) := patch_clause patch in
  res <- QueryContext (UpdateReturning set ["id = ?"] repo_columns) args ;;
  match res with
  | inl err => e <- FormatError err ;; ret (None, Some e)
  | inr row =>
      let '(more, row) := Next row in
      if more then
        let '(repository, err) := Scan row zeroRepository in
        match err with
        | Some err => e <- FormatError err ;; ret (None, Some e)
        | None => ret (Some repository, None)
        end
      else
        ret (None,
             Some (BytebaseError ENOTFOUND
                     ("repository ID not found: " ++ Sprintf_d (pID patch))))
  end.

(** Lines 308 to 321. *)
Definition deleteRepository (delete : RepositoryDelete) : M (option error) :=
  res <- ExecContext (DeleteWhere ["id = ?"]) [VInt (dID delete)] ;;
  match res with
  | inl err => e <- FormatError err ;; ret (Some e)
  | inr result =>
      let '(rows, _) := RowsAffected result in
      if rows =? 0 then
        ret (Some (BytebaseError ENOTFOUND
                     ("repository ID not found: " ++ Sprintf_d (dID delete))))
      else ret None
  end.

(** Lines 29 to 46. *)
Definition CreateRepository (create : RepositoryCreate)
  : M (GoResult Repository) :=
  err <- BeginTx ;;
  match err with
  | Some err => e <- FormatError err ;; ret (None, Some e)
  | None =>
      defer Rollback
        ('(repository, err) <- createRepository create ;;
         match err with
         | Some err => ret (None, Some err)
         | None =>
             err <- Commit ;;
             match err with
             | Some err => e <- FormatError err ;; ret (None, Some e)
             | None => ret (repository, None)
             end
         end)
  end.

(** Lines 49 to 62. *)
Definition FindRepositoryList (find : RepositoryFind)
  : M (GoResult (list Repository)) :=
  err <- BeginTx ;;
  match err with
  | Some err => e <- FormatError err ;; ret (None, Some e)
  | None =>
      defer Rollback
        ('(list, err) <- findRepositoryList find ;;
         match err with
         | Some err => ret (Some [], Some err)
         | None => ret (list, None)
         end)
  end.

(** [len(list)] of a slice that may be nil, and [list[0]]. *)
Definition len {A} (l : option (list A)) : Z :=
  match l with
  | Some l => Z.of_nat (List.length l)
  | None => 0
  end.
Definition index0 {A} (l : option (list A)) : option A :=
  match l with
  | Some (x :: _) => Some x
  | _ => None
  end.

(** Lines 67 to 83. *)
Definition FindRepository (find : RepositoryFind) : M (GoResult Repository) :=
  err <- BeginTx ;;
  match err with
  | Some err => e <- FormatError err ;; ret (None, Some e)
  | None =>
      defer Rollback
        ('(list, err) <- findRepositoryList find ;;
         match err with
         | Some err => ret (None, Some err)
         | None =>
             if len list =? 0 then
               ret (None,
                    Some (BytebaseError ENOTFOUND
                            ("repository not found: " ++ Sprintf_v find)))
             else
               _ <- (if 1 <? len list then
                       Warn ("found mulitple repositories: "
                               ++ Sprintf_d (len list) ++ ", expect 1")
                     else ret tt) ;;
               ret (index0 list, None)
         end)
  end.

(** Lines 87 to 104. *)
Definition PatchRepository (patch : RepositoryPatch)
  : M (GoResult Repository) :=
  err <- BeginTx ;;
  match err with
  | Some err => e <- FormatError err ;; ret (None, Some e)
  | None =>
      defer Rollback
        ('(repository, err) <- patchRepository patch ;;
         match err with
         | Some err => e <- FormatError err ;; ret (None, Some e)
         | None =>
             err <- Commit ;;
             match err with
             | Some err => e <- FormatError err ;; ret (None, Some e)
             | None => ret (repository, None)
             end
         end)
  end.

(** Lines 108 to 125. *)
Definition DeleteRepository (delete : RepositoryDelete) : M (option error) :=
  err <- BeginTx ;;
  match err with
  | Some err => e <- FormatError err ;; ret (Some e)
  | None =>
      defer Rollback
        (err <- deleteRepository delete ;;
         match err with
         | Some err => e <- FormatError err ;; ret (Some e)
         | None =>
             err <- Commit ;;
             match err with
             | Some err => e <- FormatError err ;; ret (Some e)
             | None => ret None
             end
         end)
  end.

End Store.

(** * The vocabulary of the properties *)

(** A stored row as the result row of [repo_columns]. *)
Definition encode (r : Repository) : list value :=
  [VInt (ID r); VInt (CreatorId r); VInt (CreatedTs r); VInt (UpdaterId r);
   VInt (UpdatedTs r); VInt (VCSId r); VInt (ProjectId r); VText (Name r);
   VText (FullPath r); VText (WebURL r); VText (BaseDirectory r);
   VText (BranchFilter r); VText (ExternalId r); VText (WebhookId r)].

(** The row predicate of [WHERE id = ?] bound to [id]. *)
Definition has_id (id : Z) (r : Repository) : bool := ID r =? id.

(** The rows a find asks for. *)
Definition matches (find : RepositoryFind) (r : Repository) : bool :=
  match fID find with
  | Some v => has_id v r
  | None => true
  end.

(** The row a patch leaves behind. *)
Definition patched (patch : RepositoryPatch) (r : Repository) : Repository :=
  mkRepository (ID r) (CreatorId r) (CreatedTs r) (pUpdaterId patch)
    (UpdatedTs r) (VCSId r) (ProjectId r) (Name r) (FullPath r) (WebURL r)
    (match pBaseDirectory patch with Some v => v | None => BaseDirectory r end)
    (match pBranchFilter patch with Some v => v | None => BranchFilter r end)
    (ExternalId r) (WebhookId r).

(** The arguments [createRepository] binds, in the order of
    [insert_columns]. *)
Definition create_args (create : RepositoryCreate) : list value :=
  [VInt (cCreatorId create); VInt (cCreatorId create); VInt (cVCSId create);
   VInt (cProjectId create); VText (cName create); VText (cFullPath create);
   VText (cWebURL create); VText (cBaseDirectory create);
   VText (cBranchFilter create); VText (cExternalId create);
   VText (cWebhookId create)].

(** The row an INSERT of [create] stores in table [t] at time [now]. *)
Definition created (create : RepositoryCreate) (t : Table) (now : Z)
  : Repository :=
  mkRepository (seq t + 1) (cCreatorId create) now (cCreatorId create) now
    (cVCSId create) (cProjectId create) (cName create) (cFullPath create)
    (cWebURL create) (cBaseDirectory create) (cBranchFilter create)
    (cExternalId create) (cWebhookId create).

(** The statements of the four row functions. *)
Definition create_stmt : Stmt := InsertReturning insert_columns repo_columns.

Definition find_stmt (find : RepositoryFind) : Stmt :=
  SelectWhere repo_columns (fst (find_clause find)).

Definition patch_stmt (patch : RepositoryPatch) : Stmt :=
  UpdateReturning (fst (patch_clause patch)) ["id = ?"] repo_columns.

Definition delete_stmt : Stmt := DeleteWhere ["id = ?"].

(** The table an INSERT of [create] leaves behind. *)
Definition created_table (create : RepositoryCreate) (t : Table) (now : Z)
  : Table :=
  mkTable (rows t ++ [created create t now]) (seq t + 1).

(** The table a patch leaves behind. *)
Definition patched_table (patch : RepositoryPatch) (t : Table) : Table :=
  mkTable (map (fun r => if has_id (pID patch) r then patched patch r else r)
               (rows t)) (seq t).

(** The table a delete leaves behind. *)
Definition deleted_table (id : Z) (t : Table) : Table :=
  mkTable (filter (fun r => negb (has_id id r)) (rows t)) (seq t).

(** The error [patchRepository] and [PatchRepository] build for an id
    without a row; [deleteRepository] builds the same. *)
Definition id_not_found (id : Z) : error :=
  BytebaseError ENOTFOUND ("repository ID not found: " ++ Sprintf_d id).

(** The error [FindRepository] builds when the list is empty; [Sprintf_v]
    renders the predicate. *)
Definition find_not_found (Sprintf_v : RepositoryFind -> string)
    (find : RepositoryFind) : error :=
  BytebaseError ENOTFOUND ("repository not found: " ++ Sprintf_v find).

(** The warning [FindRepository] logs when the list has [n] rows, [n]
    above one. *)
Definition multiple_warning (n : Z) : string :=
  "found mulitple repositories: " ++ Sprintf_d n ++ ", expect 1".

(** The world once [BeginTx] has opened the transaction. *)
Definition begun (w : World) : World :=
  set_tx (TxActive (repo w)) (record_call CallBegin w).

(** A call that sends a statement to the engine. *)
Definition is_statement (c : Call) : bool :=
  match c with
  | CallQuery _ _ | CallExec _ _ => true
  | _ => false
  end.

(** What the spec asks of the transaction of one call of a service
    function, from world [w] to world [w'], where [row_err] is the error
    of its row function (run right after [BeginTx]), [out_err] the error
    the call returns and [commits] says whether the function has a
    [Commit] at all.  When [BeginTx] fails no transaction exists and the
    call fails.  Otherwise the transaction is over, committed or rolled
    back; the driver saw [BeginTx], one statement, [Commit] only if the
    row function succeeded, and the deferred [Rollback] last; an error of
    the row function leaves the transaction rolled back; the transaction
    is committed exactly when the function commits and the call succeeds;
    and a rolled back transaction leaves the table as it was. *)
Definition tx_discipline (commits : bool) (w : World)
    (row_err out_err : option error) (w' : World) : Prop :=
  match begin_err (faults w) with
  | Some _ =>
      tx w' = tx w
      /\ calls w' = (calls w ++ [CallBegin])%list
      /\ repo w' = repo w
      /\ out_err <> None
  | None =>
      (tx w' = TxCommitted \/ tx w' = TxRolledBack)
      /\ (exists c,
            is_statement c = true
            /\ calls w'
               = (calls w
                  ++ CallBegin :: c
                  :: match commits, row_err with
                     | true, None => [CallCommit; CallRollback]
                     | _, _ => [CallRollback]
                     end)%list)
      /\ (row_err <> None -> tx w' = TxRolledBack /\ out_err <> None)
      /\ (tx w' = TxCommitted <-> commits = true /\ out_err = None)
      /\ (tx w' = TxRolledBack -> repo w' = repo w)
  end.

(** The errors [FormatError] was called on during a call that took the
    world from [w] to [w']. *)
Definition newly_classified (w w' : World) : list error :=
  skipn (List.length (classified w)) (classified w').

(** What the spec says of a call that meets the storage error
    [e0]: [FormatError] is called once, on [e0], and the call returns its
    result. *)
Definition classified_exactly_once (classify : error -> error) (e0 : error)
    (out_err : option error) (w w' : World) : Prop :=
  out_err = Some (classify e0) /\ newly_classified w w' = [e0].

(** The first error of a call up to the end of its statement: of
    [BeginTx], of the statement call, or met while the statement runs. *)
Definition statement_fault (f : Faults) : option error :=
  match begin_err f with
  | Some e => Some e
  | None =>
      match query_err f with
      | Some e => Some e
      | None => step_err f
      end
  end.

(** ** Sample data *)

(** Modelled from the spec: [FormatError], "a single error-classification
    function that maps low-level driver errors (e.g., constraint
    violations) to domain error kinds".  Its body is not in the source
    tree; the examples below use this instance, which turns a uniqueness
    violation into a conflict and leaves every other error as it is. *)
Definition sample_classify (err : error) : error :=
  match err with
  | DriverError msg =>
      if prefix "UNIQUE constraint failed" msg
      then BytebaseError ECONFLICT msg
      else err
  | BytebaseError _ _ => err
  end.

(** A rendering of the predicate for the examples. *)
Definition sample_Sprintf_v (find : RepositoryFind) : string :=
  match fID find with
  | Some v => "&{ID:" ++ Sprintf_d v ++ "}"
  | None => "&{ID:<nil>}"
  end.

(** The scenario of the spec: one repository, created by principal 1. *)
Definition sample_create : RepositoryCreate :=
  mkRepositoryCreate 1 10 5 "repo-a" "org/repo-a" "https://git/org/repo-a"
    "/" "main" "123" "wh1".

(** The row that create stores in an empty table at time 1000. *)
Definition sample_row : Repository :=
  mkRepository 1 1 1000 1 1000 10 5 "repo-a" "org/repo-a"
    "https://git/org/repo-a" "/" "main" "123" "wh1".

Definition sample_table : Table := mkTable [sample_row] 1.

(** The patch of the scenario: a new branch filter, by principal 2. *)
Definition sample_patch : RepositoryPatch :=
  mkRepositoryPatch 1 2 None (Some "release").

(** A table in which the id 1 is stored twice. *)
Definition twin_row : Repository :=
  mkRepository 1 3 1002 3 1002 10 5 "repo-b" "org/repo-b"
    "https://git/org/repo-b" "/" "main" "124" "wh2".

Definition twin_table : Table := mkTable [sample_row; twin_row] 2.

(** The sample table inside an open transaction. *)
Definition sample_open (f : Faults) : World := begun (idle sample_table 1001 f).

(** A driver error that no classification changes. *)
Definition locked : error := DriverError "database is locked".

(** The sample table at rest, when the statement call is going to fail,
    when the engine is going to fail while it runs the statement, and when
    the driver is not going to report the affected rows. *)
Definition locked_statement : World :=
  idle sample_table 1001 (mkFaults None (Some locked) None None None).
Definition locked_step : World :=
  idle sample_table 1001 (mkFaults None None (Some locked) None None).
Definition locked_count : World :=
  idle sample_table 1001 (mkFaults None None None (Some locked) None).

(** The same when the commit is going to fail. *)
Definition locked_commit : World :=
  idle sample_table 1001 (mkFaults None None None None (Some locked)).

(** * More vocabulary: what the store keeps and how its calls compose *)

(** No id is stored twice, and no stored id is above the last id the
    engine has handed out. *)
Definition well_keyed (t : Table) : Prop :=
  NoDup (map ID (rows t)) /\ Forall (fun r => ID r <= seq t) (rows t).

(** [r'] is [r] in every column a patch does not write. *)
Definition same_unpatched_columns (r r' : Repository) : Prop :=
  ID r' = ID r /\ CreatorId r' = CreatorId r /\ CreatedTs r' = CreatedTs r
  /\ UpdatedTs r' = UpdatedTs r /\ VCSId r' = VCSId r
  /\ ProjectId r' = ProjectId r /\ Name r' = Name r
  /\ FullPath r' = FullPath r /\ WebURL r' = WebURL r
  /\ ExternalId r' = ExternalId r /\ WebhookId r' = WebhookId r.

(** The world at rest at time [now] with the table a call has left in
    [w], when no driver call is going to fail. *)
Definition then_at (w : World) (now : Z) : World :=
  idle (repo w) now no_faults.

(** The number of placeholders in a statement text. *)
Fixpoint count_placeholders (s : string) : nat :=
  match s with
  | EmptyString => 0
  | String c s' =>
      ((if Ascii.eqb c "?" then 1 else 0) + count_placeholders s')%nat
  end.

(** Which optional fields a patch supplies. *)
Definition patch_shape (patch : RepositoryPatch) : bool * bool :=
  (match pBaseDirectory patch with Some _ => true | None => false end,
   match pBranchFilter patch with Some _ => true | None => false end).

(** * The inbox view of the frontend: the script of the component in
    [frontend/src/plugins/task/DatabaseRequestTemplate.ts], lines 159 to
    300

    The component's state, the hash of the current route and the actions
    it dispatches to the store are one record; a handler is a function on
    it.  A JavaScript string is the [string] of its code units; an index
    is a number, here a [Z]. *)

Module Inbox.

(** [Inbox] and its [activity], of [../types], with the fields the
    component reads. *)
Record Activity := mkActivity {
  actionType : string
}.

Record Inbox := mkInbox {
  id : string;
  status : string;
  activity : Activity
}.

Definition ISSUE_TAB : Z := 0.
Definition MEMBER_TAB : Z := 1.

Record TabItem := mkTabItem {
  name : string;
  hash : string
}.

Definition tabItemList : list TabItem :=
  [mkTabItem "Issue" "issue"; mkTabItem "Member" "member"].

Record LocalState := mkLocalState {
  selectedIndex : Z;
  readList : list Inbox;
  unreadList : list Inbox
}.

(** What the component sends to the store with [store.dispatch]. *)
Inductive Action :=
| FetchInboxListByUser (userId : string)
| PatchInbox (inboxId : string) (newStatus : string)
| FetchInboxSummaryByUser (userId : string).

Record Component := mkComponent {
  state : LocalState;
  routeHash : string;          (* router.currentRoute.value.hash *)
  dispatched : list Action     (* oldest first *)
}.

Definition set_selectedIndex (i : Z) (c : Component) : Component :=
  mkComponent
    (mkLocalState i (readList (state c)) (unreadList (state c)))
    (routeHash c) (dispatched c).
Definition set_readList (l : list Inbox) (c : Component) : Component :=
  mkComponent
    (mkLocalState (selectedIndex (state c)) l (unreadList (state c)))
    (routeHash c) (dispatched c).
Definition set_unreadList (l : list Inbox) (c : Component) : Component :=
  mkComponent
    (mkLocalState (selectedIndex (state c)) (readList (state c)) l)
    (routeHash c) (dispatched c).
Definition set_routeHash (h : string) (c : Component) : Component :=
  mkComponent (state c) h (dispatched c).
Definition dispatch (a : Action) (c : Component) : Component :=
  mkComponent (state c) (routeHash c) (dispatched c ++ [a]).

(** [tabItemList[index]]: [None] is [undefined]. *)
Definition tab_at (index : Z) : option TabItem :=
  if index <? 0 then None else nth_error tabItemList (Z.to_nat index).

(** [s.slice(1)]. *)
Definition slice1 (s : string) : string :=
  match s with
  | EmptyString => EmptyString
  | String _ s' => s'
  end.

(** Lines 214 to 220.  The flag says that the call threw: reading [hash]
    of [undefined] is a TypeError, and it is raised after the index was
    stored. *)
Definition selectTab (index : Z) (c : Component) : Component * bool :=
  let c := set_selectedIndex index c in
  match tab_at index with
  | Some tab => (set_routeHash ("#" ++ hash tab) c, false)
  | None => (c, true)
  end.

(** The loop of lines 203 to 208, with [left] iterations to go from index
    [i]. *)
Fixpoint selectTabLoop (left : nat) (i : Z) (c : Component)
  : Component * bool :=
  match left with
  | O => (c, false)
  | S left' =>
      match tab_at i with
      | Some tab =>
          if String.eqb (hash tab) (slice1 (routeHash c))
          then selectTab i c
          else selectTabLoop left' (i + 1) c
      | None => (c, true)
      end
  end.

(** Lines 201 to 212. *)
Definition selectTabOnHash (c : Component) : Component * bool :=
  match routeHash c with
  | String _ _ => selectTabLoop (List.length tabItemList) 0 c
  | EmptyString => selectTab ISSUE_TAB c
  end.

(** Lines 226 to 244, up to the dispatch: nothing is asked of the store
    for the unknown user. *)
Definition prepareInboxList (UNKNOWN_ID userId : string) (c : Component)
  : Component :=
  if negb (String.eqb userId UNKNOWN_ID)
  then dispatch (FetchInboxListByUser userId) c
  else c.

(** Lines 231 to 242: what runs when the store has answered with [list]. *)
Definition inboxListFetched (list : list Inbox) (c : Component) : Component :=
  let c := set_readList [] c in
  let c := set_unreadList [] c in
  fold_left
    (fun c item =>
       if String.eqb (status item) "READ"
       then set_readList (readList (state c) ++ [item]) c
       else if String.eqb (status item) "UNREAD"
            then set_unreadList (unreadList (state c) ++ [item]) c
            else c)
    list c.

(** Lines 252 to 264. *)
Definition effectiveInboxList (c : Component) (inboxList : list Inbox)
  : list Inbox :=
  filter
    (fun inbox =>
       if ((selectedIndex (state c) =? ISSUE_TAB)
           && prefix "bb.member." (actionType (activity inbox)))
          || ((selectedIndex (state c) =? MEMBER_TAB)
              && negb (prefix "bb.member." (actionType (activity inbox))))
       then false
       else true)
    inboxList.

(** Lines 266 to 288.  [markAllAsRead] sends one patch per unread item,
    empties the unread list and leaves one callback per item behind; the
    callbacks share the counter [count]. *)
Definition markAllAsRead (c : Component) : Component * Z :=
  let count := Z.of_nat (List.length (unreadList (state c))) in
  let c' :=
    fold_left (fun c item => dispatch (PatchInbox (id item) "READ") c)
              (unreadList (state c)) c in
  (set_unreadList [] c', count).

(** Lines 276 to 285: the callback of [item], run when its patch has
    been answered. *)
Definition inboxPatched (userId : string) (item : Inbox)
    (cc : Component * Z) : Component * Z :=
  let '(c, count) := cc in
  let count := count - 1 in
  let c :=
    if count =? 0 then dispatch (FetchInboxSummaryByUser userId) c else c in
  (set_readList (readList (state c) ++ [item]) c, count).

(** The callbacks of the items [answered], run in that order. *)
Definition inboxesPatched (userId : string) (answered : list Inbox)
    (cc : Component * Z) : Component * Z :=
  fold_left (fun cc item => inboxPatched userId item cc) answered cc.

(** The tabs and the route agree: the selected tab exists and the hash of
    the route is its hash behind a number sign. *)
Definition tab_matches_route (c : Component) : Prop :=
  exists tab,
    tab_at (selectedIndex (state c)) = Some tab
    /\ routeHash c = "#" ++ hash tab.

(** The summary fetches among dispatched actions. *)
Definition is_summary_fetch (a : Action) : bool :=
  match a with
  | FetchInboxSummaryByUser _ => true
  | _ => false
  end.

(** The statuses the component sorts by, and the action types of the
    member tab. *)
Definition is_read (item : Inbox) : bool := String.eqb (status item) "READ".
Definition is_unread (item : Inbox) : bool :=
  String.eqb (status item) "UNREAD".
Definition is_member (item : Inbox) : bool :=
  prefix "bb.member." (actionType (activity item)).

(** One turn of the loop of [inboxListFetched]. *)
Definition sort_step (c : Component) (item : Inbox) : Component :=
  if is_read item
  then set_readList (readList (state c) ++ [item]) c
  else if is_unread item
       then set_unreadList (unreadList (state c) ++ [item]) c
       else c.

End Inbox.

(** * The database request template of the frontend:
    [frontend/src/plugins/task/DatabaseRequestTemplate.ts], lines 12 to 85

    A JavaScript value that a field can hold is a [jsval]; a string is the
    [string] of its code units, each below 256. *)

Module DatabaseRequestTemplate.

(** A JavaScript string is a sequence of UTF-16 code units, the numbers
    below 65536.  Nothing here computes with a code unit, so the bound is
    not carried. *)
Definition code_unit := N.
Definition jsstring := list code_unit.

(** The string a literal of the source denotes: the literals of the
    template are ASCII, one code unit a character. *)
Definition lit (s : string) : jsstring :=
  map N_of_ascii (list_ascii_of_string s).

Inductive jsval :=
| JUndefined
| JNull
| JBoolean (b : bool)
| JNumber (z : Z)
| JString (s : jsstring).

(** [isEmpty] of lodash on these values: a string is empty when it has no
    code unit; [undefined], [null], a boolean and a number hold nothing
    and are empty. *)
Definition isEmpty (value : jsval) : bool :=
  match value with
  | JString s => Nat.eqb (List.length s) 0
  | _ => true
  end.

(** What [trim] strips, the WhiteSpace and LineTerminator code points of
    ECMAScript, all of one code unit: tab, line feed, vertical tab, form
    feed, carriage return, space, no-break space, U+1680, U+2000 to
    U+200A, the line and paragraph separators U+2028 and U+2029, U+202F,
    U+205F, U+3000 and the byte order mark U+FEFF. *)
Definition is_white_space (c : code_unit) : bool :=
  ((9 <=? c) && (c <=? 13)
   || (c =? 32) || (c =? 160) || (c =? 5760)
   || (8192 <=? c) && (c <=? 8202)
   || (c =? 8232) || (c =? 8233) || (c =? 8239) || (c =? 8287)
   || (c =? 12288) || (c =? 65279))%N%bool.

(** [s.trimStart()], [s.trimEnd()] and [s.trim()]. *)
Fixpoint trimStart (s : jsstring) : jsstring :=
  match s with
  | [] => []
  | c :: s' => if is_white_space c then trimStart s' else s
  end.

Fixpoint trimEnd (s : jsstring) : jsstring :=
  match s with
  | [] => []
  | c :: s' =>
      match trimEnd s' with
      | [] => if is_white_space c then [] else [c]
      | rest => c :: rest
      end
  end.

Definition trim (s : jsstring) : jsstring := trimEnd (trimStart s).

(** [DatabaseFieldPayload] of [../types], with the fields the template
    reads and writes; a field that is not set is [JUndefined]. *)
Record DatabaseFieldPayload := mkDatabaseFieldPayload {
  isNew : bool;
  name : jsval;
  id : jsval;
  readOnly : bool
}.

(** What the payload of a task holds under a field id. *)
Inductive PayloadValue :=
| PEnvironment (environmentId : jsval)
| PDatabase (database : DatabaseFieldPayload).

(** The payload object: its own properties, latest first. *)
Definition Payload := list (string * PayloadValue).

(** [payload[key] = value] and [payload[key]]. *)
Definition payload_set (key : string) (value : PayloadValue) (p : Payload)
  : Payload :=
  (key, value) :: filter (fun kv => negb (String.eqb (fst kv) key)) p.

Fixpoint payload_get (key : string) (p : Payload) : option PayloadValue :=
  match p with
  | [] => None
  | (k, v) :: p' => if String.eqb k key then Some v else payload_get key p'
  end.

Record Environment := mkEnvironment {
  environmentId : jsval
}.

Record TemplateContext := mkTemplateContext {
  environmentList : list Environment;
  currentUserId : jsval
}.

Record Stage := mkStage {
  stageId : string;
  stageName : string;
  stageType : string;
  stageStatus : string
}.

Record TaskNew := mkTaskNew {
  taskName : string;
  taskType : string;
  description : string;
  stageList : list Stage;
  creatorId : jsval;
  subscriberIdList : list jsval;
  payload : Payload
}.

Section Template.

(** [TaskBuiltinFieldId.ENVIRONMENT] and [TaskBuiltinFieldId.DATABASE],
    whose values are declared outside the source tree. *)
Variable ENVIRONMENT : string.
Variable DATABASE : string.

(** [list[list.length - 1]]. *)
Definition last_of {A} (l : list A) : option A :=
  let i := Z.of_nat (List.length l) - 1 in
  if i <? 0 then None else nth_error l (Z.to_nat i).

(** Lines 14 to 45. *)
Definition buildTask (ctx : TemplateContext) : TaskNew :=
  let payload : Payload := [] in
  let payload :=
    if 0 <? Z.of_nat (List.length (environmentList ctx)) then
      match last_of (environmentList ctx) with
      | Some env => payload_set ENVIRONMENT (PEnvironment (environmentId env))
                      payload
      | None => payload
      end
    else payload in
  let payload :=
    payload_set DATABASE
      (PDatabase (mkDatabaseFieldPayload true (JString []) JUndefined true))
      payload in
  mkTaskNew "Request new database" "bytebase.database.request"
    "Estimated QPS: 10"
    [mkStage "1" "Request database" "SIMPLE" "PENDING"]
    (currentUserId ctx) [] payload.

(** The [isEmpty] of the three fields of [fieldList], lines 54 to 56, 65
    to 70 and 80 to 82. *)
Definition environment_isEmpty (value : jsval) : bool := isEmpty value.

Definition database_isEmpty (value : DatabaseFieldPayload) : bool :=
  if isNew value then isEmpty (name value) else isEmpty (id value).

(** [value?.trim()] of a string that may be [undefined] or [null], here
    [None]. *)
Definition output_isEmpty (value : option jsstring) : bool :=
  isEmpty (match value with
           | Some s => JString (trim s)
           | None => JUndefined
           end).

End Template.

(** Every code unit of a string is white space. *)
Fixpoint all_white_space (s : jsstring) : bool :=
  match s with
  | [] => true
  | c :: s' => is_white_space c && all_white_space s'
  end.

End DatabaseRequestTemplate.

(** ** More sample data *)

(** The sample table with a second repository, of id 2. *)
Definition second_row : Repository :=
  mkRepository 2 3 1002 3 1002 10 6 "repo-b" "org/repo-b"
    "https://git/org/repo-b" "/" "main" "124" "wh2".

Definition two_row_table : Table := mkTable [sample_row; second_row] 2.

(** A patch of the second repository. *)
Definition second_patch : RepositoryPatch :=
  mkRepositoryPatch 2 4 (Some "src") None.

(** An inbox of three items, one of a status the view does not know. *)
Definition issue_item : Inbox.Inbox :=
  Inbox.mkInbox "11" "UNREAD" (Inbox.mkActivity "bb.issue.create").
Definition member_item : Inbox.Inbox :=
  Inbox.mkInbox "12" "READ" (Inbox.mkActivity "bb.member.join").
Definition stale_item : Inbox.Inbox :=
  Inbox.mkInbox "13" "ARCHIVED" (Inbox.mkActivity "bb.issue.comment").

Definition sample_inbox : list Inbox.Inbox :=
  [issue_item; member_item; stale_item].

(** The view on the issue tab, with two unread items and one read. *)
Definition sample_view : Inbox.Component :=
  Inbox.mkComponent
    (Inbox.mkLocalState 0 [member_item] [issue_item; stale_item])
    "#issue" [].

(** A context of two environments. *)
Definition sample_context : DatabaseRequestTemplate.TemplateContext :=
  DatabaseRequestTemplate.mkTemplateContext
    [DatabaseRequestTemplate.mkEnvironment
       (DatabaseRequestTemplate.JString
          (DatabaseRequestTemplate.lit "dev"));
     DatabaseRequestTemplate.mkEnvironment
       (DatabaseRequestTemplate.JString
          (DatabaseRequestTemplate.lit "prod"))]
    (DatabaseRequestTemplate.JString (DatabaseRequestTemplate.lit "100")).

Definition at_rest : World := idle two_row_table 1003 no_faults.

(** An output of a space, an em space (U+2003), a line separator (U+2028)
    and a byte order mark (U+FEFF). *)
Definition blank_output : DatabaseRequestTemplate.jsstring :=
  [32; 8195; 8232; 65279]%N.

(** * Properties *)

(** ** Lists *)

Lemma filter_ext_bool {A} (f g : A -> bool) l :
  (forall x, f x = g x) -> filter f l = filter g l.
Proof.
  intros E. induction l as [| x l IH]; simpl; [reflexivity |].
  rewrite E, IH. reflexivity.
Qed.

Lemma find_filter {A} (f : A -> bool) l :
  find f l = hd_error (filter f l).
Proof.
  induction l as [| x l IH]; simpl; [reflexivity |].
  destruct (f x); [reflexivity | exact IH].
Qed.

Lemma filter_nil_none {A} (f : A -> bool) l :
  (forall x, In x l -> f x = false) -> filter f l = [].
Proof.
  intros H. induction l as [| x l IH]; simpl; [reflexivity |].
  rewrite (H x (or_introl eq_refl)). apply IH. intros y Hy.
  apply H. right. exact Hy.
Qed.

Lemma map_if_none {A} (f : A -> bool) (g : A -> A) l :
  filter f l = [] -> map (fun x => if f x then g x else x) l = l.
Proof.
  induction l as [| x l IH]; simpl; [reflexivity |].
  destruct (f x); [discriminate |]. intros H. rewrite (IH H). reflexivity.
Qed.

Lemma skipn_length_app {A} (l r : list A) :
  skipn (List.length l) (l ++ r) = r.
Proof. induction l as [| x l IH]; [reflexivity | exact IH]. Qed.

(** ** The engine on the statements of the store *)

Lemma project_repo_columns r : project repo_columns r = Some (encode r).
Proof. reflexivity. Qed.

Lemma decode_encode r : decode (encode r) = Some r.
Proof. destruct r; reflexivity. Qed.

Lemma project_all_repo_columns l :
  project_all repo_columns l = map encode l.
Proof.
  induction l as [| r l IH]; [reflexivity |].
  change (project_all repo_columns (r :: l))
    with (match project repo_columns r with
          | Some vals => [vals]
          | None => []
          end ++ project_all repo_columns l)%list.
  rewrite project_repo_columns, IH. reflexivity.
Qed.

Lemma table_eta t : mkTable (rows t) (seq t) = t.
Proof. destruct t; reflexivity. Qed.

Lemma holds_id id r : holds [CEq "id" (VInt id)] r = has_id id r.
Proof. unfold holds, has_id. cbn. apply andb_true_r. Qed.

Lemma holds_true_id id r : holds [CTrue; CEq "id" (VInt id)] r = has_id id r.
Proof. unfold holds, has_id. cbn. apply andb_true_r. Qed.

(** The UPDATE of [patchRepository] rewrites exactly the rows with the
    patch's id and returns them as they are afterwards. *)
Lemma exec_update now patch t :
  exec_stmt now
    (UpdateReturning (fst (patch_clause patch)) ["id = ?"] repo_columns)
    (snd (patch_clause patch)) t
  = Some (mkTable (map (fun r => if has_id (pID patch) r then patched patch r
                                 else r) (rows t)) (seq t),
          map encode (map (patched patch) (filter (has_id (pID patch)) (rows t))),
          Z.of_nat (List.length (filter (has_id (pID patch)) (rows t)))).
Proof.
  destruct patch as [id up [bd |] [bf |]]; cbn -[holds update_row project_all];
    rewrite project_all_repo_columns;
    rewrite (filter_ext_bool _ (has_id id) _ (holds_id id));
    match goal with
    | |- context [map (update_row ?asg)] =>
        match goal with
        | |- context [map (patched ?p)] =>
            assert (E1 : forall r, update_row asg r = patched p r)
              by (intros []; reflexivity);
            assert (E2 : forall r,
                       (if holds [CEq "id" (VInt id)] r then update_row asg r
                        else r)
                       = (if has_id id r then patched p r else r))
              by (intros r; rewrite holds_id, E1; reflexivity);
            rewrite (map_ext _ _ E1), (map_ext _ _ E2); reflexivity
        end
    end.
Qed.

(** The SELECT of [findRepositoryList] leaves the table alone and returns
    the rows the predicate holds for, in storage order. *)
Lemma exec_select now find t :
  exec_stmt now (SelectWhere repo_columns (fst (find_clause find)))
    (snd (find_clause find)) t
  = Some (t, map encode (filter (matches find) (rows t)), 0).
Proof.
  destruct find as [[v |]]; cbn -[holds project_all];
    rewrite project_all_repo_columns.
  - rewrite (filter_ext_bool _ (has_id v) _ (holds_true_id v)). reflexivity.
  - rewrite (filter_ext_bool (holds [CTrue]) (fun _ => true) _
               (fun _ => eq_refl)).
    reflexivity.
Qed.

(** The DELETE of [deleteRepository] removes the rows with the id and
    counts them. *)
Lemma exec_delete now id t :
  exec_stmt now (DeleteWhere ["id = ?"]) [VInt id] t
  = Some (mkTable (filter (fun r => negb (has_id id r)) (rows t)) (seq t),
          [],
          Z.of_nat (List.length (filter (has_id id) (rows t)))).
Proof.
  cbn -[holds].
  rewrite (filter_ext_bool _ (has_id id) _ (holds_id id)).
  rewrite (filter_ext_bool (fun r => negb (holds [CEq "id" (VInt id)] r))
             (fun r => negb (has_id id r)) _
             (fun r => f_equal negb (holds_id id r))).
  reflexivity.
Qed.

Lemma exec_insert now create t :
  exec_stmt now (InsertReturning insert_columns repo_columns)
    (create_args create) t
  = Some (mkTable (rows t ++ [created create t now]) (seq t + 1),
          [encode (created create t now)], 1).
Proof. reflexivity. Qed.

(** The loop over a cursor that holds the rows [l] collects exactly [l],
    in order, and leaves the cursor closed with the driver's error. *)
Lemma collect_encoded l : forall f lc le acc,
  collect (mkRows (map encode l) f lc false le) acc
  = ((acc ++ l)%list, None, mkRows [] f None true f).
Proof.
  induction l as [| r l IH]; intros f lc le acc.
  - simp collect. cbn. rewrite app_nil_r. reflexivity.
  - simp collect. cbn.
    rewrite IH, <- app_assoc. destruct r; reflexivity.
Qed.

(** ** The row functions, run on a world with an open transaction *)

Section Runs.

Variable classify : error -> error.

Lemma patchRepository_run patch w work :
  tx w = TxActive work ->
  patchRepository classify patch w =
    let w1 := record_call (CallQuery (patch_stmt patch)
                                     (snd (patch_clause patch))) w in
    match query_err (faults w) with
    | Some e => ((None, Some (classify e)), record_classified e w1)
    | None =>
        match step_err (faults w) with
        | Some e => ((None, Some (id_not_found (pID patch))), w1)
        | None =>
            let w2 := set_tx (TxActive (patched_table patch work)) w1 in
            match filter (has_id (pID patch)) (rows work) with
            | [] => ((None, Some (id_not_found (pID patch))), w2)
            | r :: _ => ((Some (patched patch r), None), w2)
            end
        end
    end.
Proof.
  intros Htx. unfold patchRepository, patch_stmt.
  rewrite (surjective_pairing (patch_clause patch)).
  unfold bind, QueryContext. cbn [tx record_call faults clock].
  rewrite Htx. destruct (query_err (faults w)) as [e |]; [reflexivity |].
  rewrite exec_update.
  destruct (step_err (faults w)) as [e |]; [reflexivity |].
  destruct (filter (has_id (pID patch)) (rows work)) as [| r l];
    [reflexivity |].
  cbn. destruct patch as [id up bd bf], r; reflexivity.
Qed.

Lemma createRepository_run create w work :
  tx w = TxActive work ->
  createRepository classify create w =
    let w1 := record_call (CallQuery create_stmt (create_args create)) w in
    match query_err (faults w) with
    | Some e => ((None, Some (classify e)), record_classified e w1)
    | None =>
        match step_err (faults w) with
        | Some e => ((None, Some (classify e)), record_classified e w1)
        | None =>
            ((Some (created create work (clock w)), None),
             set_tx (TxActive (created_table create work (clock w))) w1)
        end
    end.
Proof.
  intros Htx. unfold createRepository, create_stmt.
  unfold bind, QueryContext. cbn [tx record_call faults clock].
  rewrite Htx. destruct (query_err (faults w)) as [e |]; [reflexivity |].
  change [VInt (cCreatorId create); VInt (cCreatorId create);
          VInt (cVCSId create); VInt (cProjectId create);
          VText (cName create); VText (cFullPath create);
          VText (cWebURL create); VText (cBaseDirectory create);
          VText (cBranchFilter create); VText (cExternalId create);
          VText (cWebhookId create)] with (create_args create).
  rewrite exec_insert.
  destruct (step_err (faults w)) as [e |]; reflexivity.
Qed.

Lemma findRepositoryList_run find w work :
  tx w = TxActive work ->
  findRepositoryList classify find w =
    let w1 := record_call (CallQuery (find_stmt find)
                                     (snd (find_clause find))) w in
    match query_err (faults w) with
    | Some e => ((None, Some (classify e)), record_classified e w1)
    | None =>
        match step_err (faults w) with
        | Some e => ((None, Some (classify e)), record_classified e w1)
        | None =>
            ((Some (filter (matches find) (rows work)), None),
             set_tx (TxActive work) w1)
        end
    end.
Proof.
  intros Htx. unfold findRepositoryList, find_stmt.
  rewrite (surjective_pairing (find_clause find)).
  unfold bind, QueryContext. cbn [tx record_call faults clock].
  rewrite Htx. destruct (query_err (faults w)) as [e |]; [reflexivity |].
  rewrite exec_select.
  destruct (step_err (faults w)) as [e |].
  - simp collect. reflexivity.
  - rewrite collect_encoded. reflexivity.
Qed.

Lemma deleteRepository_run delete w work :
  tx w = TxActive work ->
  deleteRepository classify delete w =
    let w1 := record_call (CallExec delete_stmt [VInt (dID delete)]) w in
    match query_err (faults w) with
    | Some e => (Some (classify e), record_classified e w1)
    | None =>
        match step_err (faults w) with
        | Some e => (Some (classify e), record_classified e w1)
        | None =>
            let w2 := set_tx (TxActive (deleted_table (dID delete) work)) w1 in
            match affected_err (faults w) with
            | Some _ => (Some (id_not_found (dID delete)), w2)
            | None =>
                if Z.of_nat (List.length
                               (filter (has_id (dID delete)) (rows work))) =? 0
                then (Some (id_not_found (dID delete)), w2)
                else (None, w2)
            end
        end
    end.
Proof.
  intros Htx. unfold deleteRepository, delete_stmt.
  unfold bind, ExecContext. cbn [tx record_call faults clock].
  rewrite Htx. destruct (query_err (faults w)) as [e |]; [reflexivity |].
  rewrite exec_delete.
  destruct (step_err (faults w)) as [e |]; [reflexivity |].
  unfold RowsAffected. cbn [changes changes_err].
  destruct (affected_err (faults w)) as [e |]; [reflexivity |].
  destruct (_ =? 0); reflexivity.
Qed.

End Runs.

(** ** The service functions *)

Section Service.

Variable classify : error -> error.
Variable Sprintf_v : RepositoryFind -> string.

Lemma tx_begun w : tx (begun w) = TxActive (repo w).
Proof. reflexivity. Qed.

Lemma BeginTx_ok w :
  begin_err (faults w) = None -> BeginTx w = (None, begun w).
Proof. intros H. unfold BeginTx. cbn [faults record_call]. rewrite H. reflexivity. Qed.

Lemma BeginTx_fails w e :
  begin_err (faults w) = Some e ->
  BeginTx w = (Some e, record_call CallBegin w).
Proof. intros H. unfold BeginTx. cbn [faults record_call]. rewrite H. reflexivity. Qed.

Ltac finish_run :=
  unfold ret, FormatError; cbv beta iota;
  repeat match goal with
         | |- context [Rollback ?x] => destruct (Rollback x)
         end;
  reflexivity.

(** Each service function without its [defer]: the deferred [Rollback]
    runs last on every path that has passed it. *)
Lemma CreateRepository_run create w :
  CreateRepository classify create w =
    match begin_err (faults w) with
    | Some e =>
        ((None, Some (classify e)),
         record_classified e (record_call CallBegin w))
    | None =>
        let '((repository, err), w1) :=
          createRepository classify create (begun w) in
        match err with
        | Some err => ((None, Some err), snd (Rollback w1))
        | None =>
            match Commit w1 with
            | (Some e, w2) =>
                ((None, Some (classify e)),
                 snd (Rollback (record_classified e w2)))
            | (None, w2) => ((repository, None), snd (Rollback w2))
            end
        end
    end.
Proof.
  unfold CreateRepository, defer, bind.
  destruct (begin_err (faults w)) as [e |] eqn:Hb.
  - rewrite (BeginTx_fails _ _ Hb). reflexivity.
  - rewrite (BeginTx_ok _ Hb).
    destruct (createRepository classify create (begun w))
      as [[repository [err |]] w1]; [finish_run |].
    destruct (Commit w1) as [[e |] w2]; finish_run.
Qed.

Lemma FindRepositoryList_run find w :
  FindRepositoryList classify find w =
    match begin_err (faults w) with
    | Some e =>
        ((None, Some (classify e)),
         record_classified e (record_call CallBegin w))
    | None =>
        let '((l, err), w1) := findRepositoryList classify find (begun w) in
        match err with
        | Some err => ((Some [], Some err), snd (Rollback w1))
        | None => ((l, None), snd (Rollback w1))
        end
    end.
Proof.
  unfold FindRepositoryList, defer, bind.
  destruct (begin_err (faults w)) as [e |] eqn:Hb.
  - rewrite (BeginTx_fails _ _ Hb). reflexivity.
  - rewrite (BeginTx_ok _ Hb).
    destruct (findRepositoryList classify find (begun w))
      as [[l [err |]] w1]; finish_run.
Qed.

Lemma FindRepository_run find w :
  FindRepository classify Sprintf_v find w =
    match begin_err (faults w) with
    | Some e =>
        ((None, Some (classify e)),
         record_classified e (record_call CallBegin w))
    | None =>
        let '((l, err), w1) := findRepositoryList classify find (begun w) in
        match err with
        | Some err => ((None, Some err), snd (Rollback w1))
        | None =>
            match l with
            | None | Some [] =>
                ((None, Some (find_not_found Sprintf_v find)), snd (Rollback w1))
            | Some [r] => ((Some r, None), snd (Rollback w1))
            | Some (r :: _) =>
                ((Some r, None),
                 snd (Rollback (record_warning (multiple_warning (len l)) w1)))
            end
        end
    end.
Proof.
  unfold FindRepository, defer, bind.
  destruct (begin_err (faults w)) as [e |] eqn:Hb.
  - rewrite (BeginTx_fails _ _ Hb). reflexivity.
  - rewrite (BeginTx_ok _ Hb).
    destruct (findRepositoryList classify find (begun w))
      as [[l [err |]] w1]; [finish_run |].
    destruct l as [ [ | r [ | r' rest ] ] | ].
    + change (len (Some (@nil Repository)) =? 0) with true. finish_run.
    + change (len (Some [r]) =? 0) with false.
      change (1 <? len (Some [r])) with false. finish_run.
    + assert (Hlen : (1 <? len (Some (r :: r' :: rest))) = true).
      { apply Z.ltb_lt. unfold len. simpl List.length. lia. }
      assert (Hlen0 : (len (Some (r :: r' :: rest)) =? 0) = false).
      { apply Z.eqb_neq. unfold len. simpl List.length. lia. }
      rewrite Hlen0, Hlen. unfold Warn, multiple_warning. finish_run.
    + change (len (@None (list Repository)) =? 0) with true. finish_run.
Qed.

Lemma PatchRepository_run patch w :
  PatchRepository classify patch w =
    match begin_err (faults w) with
    | Some e =>
        ((None, Some (classify e)),
         record_classified e (record_call CallBegin w))
    | None =>
        let '((repository, err), w1) :=
          patchRepository classify patch (begun w) in
        match err with
        | Some err =>
            ((None, Some (classify err)),
             snd (Rollback (record_classified err w1)))
        | None =>
            match Commit w1 with
            | (Some e, w2) =>
                ((None, Some (classify e)),
                 snd (Rollback (record_classified e w2)))
            | (None, w2) => ((repository, None), snd (Rollback w2))
            end
        end
    end.
Proof.
  unfold PatchRepository, defer, bind.
  destruct (begin_err (faults w)) as [e |] eqn:Hb.
  - rewrite (BeginTx_fails _ _ Hb). reflexivity.
  - rewrite (BeginTx_ok _ Hb).
    destruct (patchRepository classify patch (begun w))
      as [[repository [err |]] w1]; [finish_run |].
    destruct (Commit w1) as [[e |] w2]; finish_run.
Qed.

Lemma DeleteRepository_run delete w :
  DeleteRepository classify delete w =
    match begin_err (faults w) with
    | Some e =>
        (Some (classify e), record_classified e (record_call CallBegin w))
    | None =>
        let '(err, w1) := deleteRepository classify delete (begun w) in
        match err with
        | Some err =>
            (Some (classify err), snd (Rollback (record_classified err w1)))
        | None =>
            match Commit w1 with
            | (Some e, w2) =>
                (Some (classify e), snd (Rollback (record_classified e w2)))
            | (None, w2) => (None, snd (Rollback w2))
            end
        end
    end.
Proof.
  unfold DeleteRepository, defer, bind.
  destruct (begin_err (faults w)) as [e |] eqn:Hb.
  - rewrite (BeginTx_fails _ _ Hb). reflexivity.
  - rewrite (BeginTx_ok _ Hb).
    destruct (deleteRepository classify delete (begun w)) as [[err |] w1];
      [finish_run |].
    destruct (Commit w1) as [[e |] w2]; finish_run.
Qed.

(** What [Rollback] and [Commit] do to each part of the world. *)
Lemma Rollback_world w :
  snd (Rollback w) =
    mkWorld (repo w) (clock w)
      (match tx w with TxActive _ => TxRolledBack | t => t end)
      (faults w) (calls w ++ [CallRollback]) (warnings w) (classified w).
Proof. unfold Rollback, record_call. cbn [tx]. destruct (tx w); reflexivity. Qed.

Lemma Commit_active w work :
  tx w = TxActive work ->
  Commit w =
    match commit_err (faults w) with
    | Some e => (Some e, set_tx TxRolledBack (record_call CallCommit w))
    | None =>
        (None, set_repo work (set_tx TxCommitted (record_call CallCommit w)))
    end.
Proof. intros H. unfold Commit. cbn [tx record_call faults]. rewrite H. reflexivity. Qed.

(** C4: a create that succeeds has stored exactly one new row, whose
    creator id and updater id are both the creator id of the request; the
    entity it returns is that stored row, with the id and the timestamps
    the engine gave it, read from the row the INSERT itself returned: the
    INSERT is the only statement of the call. *)
Theorem create_returns_the_inserted_row create w :
  snd (fst (CreateRepository classify create w)) = None ->
  exists row,
    fst (fst (CreateRepository classify create w)) = Some row
    /\ rows (repo (snd (CreateRepository classify create w)))
       = (rows (repo w) ++ [row])%list
    /\ CreatorId row = cCreatorId create
    /\ UpdaterId row = cCreatorId create
    /\ ID row = seq (repo w) + 1
    /\ CreatedTs row = clock w
    /\ UpdatedTs row = clock w
    /\ VCSId row = cVCSId create
    /\ ProjectId row = cProjectId create
    /\ Name row = cName create
    /\ FullPath row = cFullPath create
    /\ WebURL row = cWebURL create
    /\ BaseDirectory row = cBaseDirectory create
    /\ BranchFilter row = cBranchFilter create
    /\ ExternalId row = cExternalId create
    /\ WebhookId row = cWebhookId create
    /\ exec_stmt (clock w) create_stmt (create_args create) (repo w)
       = Some (repo (snd (CreateRepository classify create w)),
               [encode row], 1)
    /\ calls (snd (CreateRepository classify create w))
       = (calls w ++ [CallBegin;
                      CallQuery create_stmt (create_args create);
                      CallCommit; CallRollback])%list.
Proof.
  rewrite CreateRepository_run.
  destruct (begin_err (faults w)) as [e |]; [discriminate |].
  rewrite (createRepository_run classify create _ _ (tx_begun w)).
  cbn [faults begun set_tx record_call clock].
  destruct (query_err (faults w)) as [e |]; [cbn [fst snd]; discriminate |].
  destruct (step_err (faults w)) as [e |]; [cbn [fst snd]; discriminate |].
  cbv beta iota zeta. erewrite Commit_active by reflexivity.
  cbn [faults set_tx record_call begun].
  destruct (commit_err (faults w)) as [e |]; [cbn [fst snd]; discriminate |].
  intros _. exists (created create (repo w) (clock w)).
  rewrite Rollback_world. cbn. rewrite <- !app_assoc.
  repeat split; reflexivity.
Qed.

Lemma has_id_patched patch id r : has_id id (patched patch r) = has_id id r.
Proof. reflexivity. Qed.

Lemma find_patched patch l :
  find (has_id (pID patch))
       (map (fun r => if has_id (pID patch) r then patched patch r else r) l)
  = option_map (patched patch) (find (has_id (pID patch)) l).
Proof.
  induction l as [| r l IH]; [reflexivity |].
  simpl map. simpl find.
  destruct (has_id (pID patch) r) eqn:E.
  - rewrite has_id_patched, E. reflexivity.
  - rewrite E. exact IH.
Qed.

Ltac in_clause :=
  cbn; split; intros H;
  first [ discriminate
        | solve [auto 6]
        | exfalso; solve [apply H; reflexivity]
        | exfalso; repeat (destruct H as [H | H]; [discriminate H |]);
          exact H ].

(** C1: the SET clause of a patch starts with the assignment of
    updater_id, bound to the updater id of the request; base_directory and
    then branch_filter are appended, each with its value in the argument
    list, exactly when the request supplies them; and in the entity the
    patch returns (which is the row then stored) the updater id is the
    request's, a supplied field has the supplied value, and every other
    field is the one the row had. *)
Theorem patch_overwrites_supplied_fields_only patch :
  fst (patch_clause patch)
  = ("updater_id = ?"
      :: match pBaseDirectory patch with
         | Some _ => ["base_directory = ?"]
         | None => []
         end
      ++ match pBranchFilter patch with
         | Some _ => ["branch_filter = ?"]
         | None => []
         end)%list
  /\ snd (patch_clause patch)
     = (VInt (pUpdaterId patch)
         :: match pBaseDirectory patch with
            | Some v => [VText v]
            | None => []
            end
         ++ match pBranchFilter patch with
            | Some v => [VText v]
            | None => []
            end
         ++ [VInt (pID patch)])%list
  /\ bind_set (fst (patch_clause patch)) (snd (patch_clause patch))
     = Some ((("updater_id", VInt (pUpdaterId patch))
               :: match pBaseDirectory patch with
                  | Some v => [("base_directory", VText v)]
                  | None => []
                  end
               ++ match pBranchFilter patch with
                  | Some v => [("branch_filter", VText v)]
                  | None => []
                  end)%list,
             [VInt (pID patch)])
  /\ (In "base_directory = ?" (fst (patch_clause patch))
      <-> pBaseDirectory patch <> None)
  /\ (In "branch_filter = ?" (fst (patch_clause patch))
      <-> pBranchFilter patch <> None)
  /\ (forall w work r,
       tx w = TxActive work ->
       query_err (faults w) = None ->
       step_err (faults w) = None ->
       find (has_id (pID patch)) (rows work) = Some r ->
       exists r' work',
         fst (patchRepository classify patch w) = (Some r', None)
         /\ tx (snd (patchRepository classify patch w)) = TxActive work'
         /\ find (has_id (pID patch)) (rows work') = Some r'
         /\ UpdaterId r' = pUpdaterId patch
         /\ BaseDirectory r' = match pBaseDirectory patch with
                               | Some v => v
                               | None => BaseDirectory r
                               end
         /\ BranchFilter r' = match pBranchFilter patch with
                              | Some v => v
                              | None => BranchFilter r
                              end
         /\ ID r' = ID r
         /\ CreatorId r' = CreatorId r
         /\ CreatedTs r' = CreatedTs r
         /\ UpdatedTs r' = UpdatedTs r
         /\ VCSId r' = VCSId r
         /\ ProjectId r' = ProjectId r
         /\ Name r' = Name r
         /\ FullPath r' = FullPath r
         /\ WebURL r' = WebURL r
         /\ ExternalId r' = ExternalId r
         /\ WebhookId r' = WebhookId r)
  /\ (forall w r,
        faults w = no_faults ->
        find (has_id (pID patch)) (rows (repo w)) = Some r ->
        exists r',
          fst (patchRepository classify patch (begun w)) = (Some r', None)
          /\ fst (PatchRepository classify patch w) = (Some r', None)
          /\ find (has_id (pID patch))
                  (rows (repo (snd (PatchRepository classify patch w))))
             = Some r').
Proof.
  split; [destruct patch as [id up [bd |] [bf |]]; reflexivity |].
  split; [destruct patch as [id up [bd |] [bf |]]; reflexivity |].
  split; [destruct patch as [id up [bd |] [bf |]]; reflexivity |].
  split.
  { destruct patch as [id up [bd |] [bf |]]; in_clause. }
  split.
  { destruct patch as [id up [bd |] [bf |]]; in_clause. }
  split.
  - intros w work r Htx Hq Hs Hfind.
  exists (patched patch r), (patched_table patch work).
  rewrite (patchRepository_run classify patch _ _ Htx), Hq, Hs.
  rewrite find_filter in Hfind.
  cbv zeta.
  destruct (filter (has_id (pID patch)) (rows work)) as [| r0 l] eqn:Hf;
    [discriminate |].
  injection Hfind as ->.
  split; [reflexivity |]. split; [reflexivity |].
  split.
  { unfold patched_table. cbn [rows]. rewrite find_patched, find_filter, Hf.
    reflexivity. }
  repeat split; reflexivity.
  - intros w r Hf Hfind.
    exists (patched patch r).
    rewrite PatchRepository_run,
      (patchRepository_run classify patch _ _ (tx_begun w)).
    cbn [faults begun set_tx record_call clock]. rewrite Hf.
    cbn [begin_err query_err step_err no_faults]. cbv zeta.
    rewrite find_filter in Hfind.
    destruct (filter (has_id (pID patch)) (rows (repo w))) as [| r0 l] eqn:Hl;
      [discriminate |].
    injection Hfind as ->.
    cbv beta iota. unfold Commit.
    cbn [tx faults set_tx record_call record_classified begun].
    rewrite ?Hf. cbn [commit_err no_faults]. rewrite Rollback_world.
    cbn [fst snd repo set_repo rows patched_table].
    split; [reflexivity |]. split; [reflexivity |].
    rewrite find_patched, find_filter, Hl. reflexivity.
Qed.

Lemma no_row_with_id id l :
  (forall r, In r l -> ID r <> id) -> filter (has_id id) l = [].
Proof.
  intros H. apply filter_nil_none. intros r Hr. apply Z.eqb_neq.
  exact (H r Hr).
Qed.

Lemma patched_table_no_row patch t :
  filter (has_id (pID patch)) (rows t) = [] -> patched_table patch t = t.
Proof.
  intros H. unfold patched_table.
  rewrite (map_if_none (has_id (pID patch)) (patched patch) _ H).
  apply table_eta.
Qed.

(** C3: when no row has the id of the patch, the UPDATE returns no row and
    changes none, [patchRepository] returns the not-found error that
    carries the id, and [PatchRepository] returns that error (through
    [FormatError]) and leaves the table as it was; when the UPDATE returns
    at least one row, the first one is decoded and returned, and it is the
    row now stored under the id. *)
Theorem patch_of_unknown_id_is_not_found patch :
  (forall w work,
      tx w = TxActive work ->
      query_err (faults w) = None ->
      (forall r, In r (rows work) -> ID r <> pID patch) ->
      exec_stmt (clock w) (patch_stmt patch) (snd (patch_clause patch)) work
      = Some (work, [], 0)
      /\ fst (patchRepository classify patch w)
         = (None,
            Some (BytebaseError ENOTFOUND
                    ("repository ID not found: " ++ Sprintf_d (pID patch))))
      /\ tx (snd (patchRepository classify patch w)) = TxActive work)
  /\ (forall w,
        begin_err (faults w) = None ->
        query_err (faults w) = None ->
        (forall r, In r (rows (repo w)) -> ID r <> pID patch) ->
        fst (PatchRepository classify patch w)
        = (None,
           Some (classify
                   (BytebaseError ENOTFOUND
                      ("repository ID not found: " ++ Sprintf_d (pID patch)))))
        /\ repo (snd (PatchRepository classify patch w)) = repo w
        /\ List.length (rows (repo (snd (PatchRepository classify patch w))))
           = List.length (rows (repo w)))
  /\ (forall w work work' vals rest n,
        tx w = TxActive work ->
        query_err (faults w) = None ->
        step_err (faults w) = None ->
        exec_stmt (clock w) (patch_stmt patch) (snd (patch_clause patch)) work
        = Some (work', vals :: rest, n) ->
        exists r',
          decode vals = Some r'
          /\ fst (patchRepository classify patch w) = (Some r', None)
          /\ tx (snd (patchRepository classify patch w)) = TxActive work'
          /\ find (has_id (pID patch)) (rows work') = Some r').
Proof.
  split; [| split].
  - intros w work Htx Hq Hnone.
    pose proof (no_row_with_id _ _ Hnone) as Hf.
    split.
    { unfold patch_stmt. rewrite exec_update, Hf.
      fold (patched_table patch work).
      rewrite (patched_table_no_row _ _ Hf). reflexivity. }
    rewrite (patchRepository_run classify patch _ _ Htx), Hq. cbv zeta.
    destruct (step_err (faults w)) as [e |].
    + split; [reflexivity | exact Htx].
    + rewrite Hf, (patched_table_no_row _ _ Hf). split; reflexivity.
  - intros w Hb Hq Hnone.
    pose proof (no_row_with_id _ _ Hnone) as Hf.
    rewrite PatchRepository_run, Hb.
    rewrite (patchRepository_run classify patch _ _ (tx_begun w)).
    cbn [faults begun set_tx record_call clock]. rewrite Hq.
    destruct (step_err (faults w)) as [e |].
    + rewrite Rollback_world. repeat split; reflexivity.
    + rewrite Hf. rewrite Rollback_world. repeat split; reflexivity.
  - intros w work work' vals rest n Htx Hq Hs Hexec.
    unfold patch_stmt in Hexec. rewrite exec_update in Hexec.
    injection Hexec as <- Hout _.
    rewrite (patchRepository_run classify patch _ _ Htx), Hq, Hs. cbv zeta.
    destruct (filter (has_id (pID patch)) (rows work)) as [| r l] eqn:Hf;
      [discriminate |].
    injection Hout as <- _.
    exists (patched patch r).
    split; [apply decode_encode |].
    split; [reflexivity |]. split; [reflexivity |].
    cbn [rows]. rewrite find_patched, find_filter, Hf. reflexivity.
Qed.

(** C2: [FindRepository] runs the list query of [findRepositoryList] and
    nothing else; an error of the list query is returned as it is; an
    empty list gives the not-found error whose message carries the
    predicate, with nothing logged; a list of one row gives that row, with
    nothing logged; a longer list gives its first row, without error, and
    one warning in the log.  On the table: the list is the rows the
    predicate holds for, in storage order. *)
Theorem find_one_takes_the_first_of_the_list find w :
  begin_err (faults w) = None ->
  (calls (snd (FindRepository classify Sprintf_v find w))
   = (calls w ++ [CallBegin;
                  CallQuery (find_stmt find) (snd (find_clause find));
                  CallRollback])%list)
  /\ (forall e,
        snd (fst (findRepositoryList classify find (begun w))) = Some e ->
        fst (FindRepository classify Sprintf_v find w) = (None, Some e))
  /\ (snd (fst (findRepositoryList classify find (begun w))) = None ->
      len (fst (fst (findRepositoryList classify find (begun w)))) = 0 ->
      fst (FindRepository classify Sprintf_v find w)
      = (None,
         Some (BytebaseError ENOTFOUND
                 ("repository not found: " ++ Sprintf_v find)))
      /\ warnings (snd (FindRepository classify Sprintf_v find w))
         = warnings w)
  /\ (forall r rest,
        fst (findRepositoryList classify find (begun w))
        = (Some (r :: rest), None) ->
        fst (FindRepository classify Sprintf_v find w) = (Some r, None)
        /\ warnings (snd (FindRepository classify Sprintf_v find w))
           = (warnings w
              ++ match rest with
                 | [] => []
                 | _ :: _ =>
                     [("found mulitple repositories: "
                         ++ Sprintf_d (Z.of_nat (List.length (r :: rest)))
                         ++ ", expect 1")%string]
                 end)%list)
  /\ (query_err (faults w) = None ->
      step_err (faults w) = None ->
      fst (findRepositoryList classify find (begun w))
      = (Some (filter (matches find) (rows (repo w))), None)).
Proof.
  intros Hb.
  rewrite FindRepository_run, Hb.
  rewrite (findRepositoryList_run classify find _ _ (tx_begun w)).
  cbn [faults begun set_tx record_call clock]. cbv zeta.
  destruct (query_err (faults w)) as [e |];
    [| destruct (step_err (faults w)) as [e |]].
  1, 2: rewrite Rollback_world; cbn; rewrite <- !app_assoc;
    repeat split; try discriminate; try congruence.
  destruct (filter (matches find) (rows (repo w))) as [| r [| r' rest]];
    rewrite Rollback_world;
    cbn [fst snd calls warnings set_tx record_call record_warning begun];
    rewrite <- !app_assoc;
    (split; [reflexivity |]);
    (split; [intros e He; discriminate He |]).
  - split; [intros _ _; split; reflexivity |].
    split; [intros r rest H; discriminate H | reflexivity].
  - split; [intros _ H; discriminate H |].
    split; [| reflexivity].
    intros r0 rest0 H. injection H as <- <-.
    split; [reflexivity |]. rewrite app_nil_r. reflexivity.
  - split.
    { intros _ H. exfalso. revert H. unfold len. simpl List.length. lia. }
    split; [| reflexivity].
    intros r0 rest0 H. injection H as <- <-.
    split; reflexivity.
Qed.

(** C5: [deleteRepository] runs the DELETE by id and looks at the count
    [RowsAffected] reports: zero gives the not-found error that carries
    the id, any other count gives success, one row or many alike.  When
    the driver reports the count, it is the number of rows that had the
    id, and all of them are gone; [DeleteRepository] then returns the
    not-found error (through [FormatError]) and leaves the table as it
    was when no row had the id, and otherwise succeeds with every row of
    that id removed. *)
Theorem delete_looks_at_the_affected_rows delete :
  (forall w work,
      tx w = TxActive work ->
      query_err (faults w) = None ->
      step_err (faults w) = None ->
      exists result w',
        ExecContext delete_stmt [VInt (dID delete)] w = (inr result, w')
        /\ deleteRepository classify delete w
           = (if fst (RowsAffected result) =? 0
              then Some (BytebaseError ENOTFOUND
                           ("repository ID not found: "
                              ++ Sprintf_d (dID delete)))
              else None,
              w')
        /\ tx w' = TxActive (deleted_table (dID delete) work)
        /\ (affected_err (faults w) = None ->
            fst (RowsAffected result)
            = Z.of_nat (List.length
                          (filter (has_id (dID delete)) (rows work))))
        /\ filter (has_id (dID delete))
                  (rows (deleted_table (dID delete) work)) = [])
  /\ (forall w,
        faults w = no_faults ->
        fst (DeleteRepository classify delete w)
        = match filter (has_id (dID delete)) (rows (repo w)) with
          | [] =>
              Some (classify
                      (BytebaseError ENOTFOUND
                         ("repository ID not found: "
                            ++ Sprintf_d (dID delete))))
          | _ :: _ => None
          end
        /\ repo (snd (DeleteRepository classify delete w))
           = match filter (has_id (dID delete)) (rows (repo w)) with
             | [] => repo w
             | _ :: _ => deleted_table (dID delete) (repo w)
             end).
Proof.
  split.
  - intros w work Htx Hq Hs.
    rewrite (deleteRepository_run classify delete _ _ Htx), Hq, Hs.
    unfold ExecContext, delete_stmt. cbn [tx record_call faults clock].
    rewrite Htx, Hq, exec_delete, Hs.
    eexists. eexists. split; [reflexivity |].
    unfold RowsAffected. cbn [changes changes_err fst snd tx set_tx].
    split.
    { destruct (affected_err (faults w)) as [e |]; [reflexivity |].
      destruct (_ =? 0); reflexivity. }
    split; [reflexivity |].
    split; [intros ->; reflexivity |].
    unfold deleted_table. cbn [rows].
    apply filter_nil_none. intros r Hr. apply filter_In in Hr.
    destruct Hr as [_ Hr]. apply negb_true_iff in Hr. exact Hr.
  - intros w Hf.
    rewrite DeleteRepository_run,
      (deleteRepository_run classify delete _ _ (tx_begun w)).
    cbn [faults begun set_tx record_call clock]. rewrite Hf.
    cbn [begin_err query_err step_err affected_err no_faults]. cbv zeta.
    destruct (filter (has_id (dID delete)) (rows (repo w))) as [| r l].
    + cbn [List.length Z.of_nat Z.eqb]. cbv beta iota.
      rewrite Rollback_world. split; reflexivity.
    + assert (Hn : (Z.of_nat (List.length (r :: l)) =? 0) = false).
      { apply Z.eqb_neq. simpl List.length. lia. }
      rewrite Hn. cbv beta iota. unfold Commit.
      cbn [tx faults set_tx record_call record_classified begun].
      rewrite ?Hf. cbn [commit_err no_faults]. rewrite Rollback_world.
      split; reflexivity.
Qed.

(** C6: the WHERE clause of a find is the always-true conjunct followed by
    one conjunct, with one argument, for the id if the request has one;
    [FindRepositoryList] returns the rows the clause holds for (all rows
    when the request has no id, no row when none matches) without error
    whenever no driver call fails, and the only errors it returns are
    driver errors passed through [FormatError]: it builds no not-found
    error. *)
Theorem find_list_never_reports_not_found find :
  fst (find_clause find)
  = ("1 = 1" :: match fID find with Some _ => ["id = ?"] | None => [] end)
  /\ snd (find_clause find)
     = match fID find with Some v => [VInt v] | None => [] end
  /\ strings_Join (fst (find_clause find)) " AND "
     = match fID find with Some _ => "1 = 1 AND id = ?" | None => "1 = 1" end
  /\ bind_where (fst (find_clause find)) (snd (find_clause find))
     = Some (CTrue :: match fID find with
                      | Some v => [CEq "id" (VInt v)]
                      | None => []
                      end, [])
  /\ (forall r, holds [CTrue] r = true)
  /\ forall w,
       (begin_err (faults w) = None ->
        query_err (faults w) = None ->
        step_err (faults w) = None ->
        fst (FindRepositoryList classify find w)
        = (Some (filter (matches find) (rows (repo w))), None)
        /\ (fID find = None ->
            fst (FindRepositoryList classify find w)
            = (Some (rows (repo w)), None))
        /\ ((forall r, In r (rows (repo w)) -> matches find r = false) ->
            fst (FindRepositoryList classify find w) = (Some [], None)))
       /\ (forall e,
             snd (fst (FindRepositoryList classify find w)) = Some e ->
             exists e0,
               e = classify e0
               /\ (begin_err (faults w) = Some e0
                   \/ query_err (faults w) = Some e0
                   \/ step_err (faults w) = Some e0)).
Proof.
  split; [destruct find as [[v |]]; reflexivity |].
  split; [destruct find as [[v |]]; reflexivity |].
  split; [destruct find as [[v |]]; reflexivity |].
  split; [destruct find as [[v |]]; reflexivity |].
  split; [reflexivity |].
  intros w. rewrite FindRepositoryList_run.
  destruct (begin_err (faults w)) as [eb |].
  { split; [discriminate |]. intros e [= <-]. exists eb. auto. }
  rewrite (findRepositoryList_run classify find _ _ (tx_begun w)).
  cbn [faults begun set_tx record_call clock]. cbv zeta.
  destruct (query_err (faults w)) as [eq |].
  { split; [discriminate |]. intros e [= <-]. exists eq. auto. }
  destruct (step_err (faults w)) as [es |].
  { split; [intros _ _ H; discriminate H |].
    intros e [= <-]. exists es. auto. }
  cbn [fst snd]. split; [| discriminate].
  intros _ _ _. split; [reflexivity |]. split.
  - intros Hid. f_equal. f_equal.
    rewrite (filter_ext_bool (matches find) (fun _ => true)).
    + induction (rows (repo w)) as [| r l IH]; simpl; [| rewrite IH];
        reflexivity.
    + intros r. unfold matches. rewrite Hid. reflexivity.
  - intros Hnone. rewrite (filter_nil_none _ _ Hnone). reflexivity.
Qed.

Ltac discipline_leaf :=
  cbv beta iota zeta;
  rewrite ?Rollback_world;
  cbn [fst snd tx repo calls set_tx set_repo record_call record_classified
       record_warning begun];
  rewrite <- ?app_assoc;
  repeat match goal with
         | |- _ /\ _ => split
         | |- _ <-> _ => split
         | |- exists c, is_statement c = true /\ _ =>
             eexists; split; [| reflexivity]; reflexivity
         end;
  intros;
  try solve [ auto | discriminate | congruence | intuition congruence ].

Ltac discipline_faults w :=
  unfold tx_discipline;
  cbn [faults begun set_tx record_call clock]; cbv zeta;
  destruct (begin_err (faults w)) as [? |]; [discipline_leaf |];
  destruct (query_err (faults w)) as [? |]; [discipline_leaf |];
  destruct (step_err (faults w)) as [? |]; [discipline_leaf |].

Lemma discipline_create create w :
  tx_discipline true w
    (snd (fst (createRepository classify create (begun w))))
    (snd (fst (CreateRepository classify create w)))
    (snd (CreateRepository classify create w)).
Proof.
  rewrite CreateRepository_run,
    (createRepository_run classify create _ _ (tx_begun w)).
  discipline_faults w.
  cbv beta iota. unfold Commit. cbn [tx faults set_tx record_call begun].
  destruct (commit_err (faults w)) as [? |]; discipline_leaf.
Qed.

Lemma discipline_find_list find w :
  tx_discipline false w
    (snd (fst (findRepositoryList classify find (begun w))))
    (snd (fst (FindRepositoryList classify find w)))
    (snd (FindRepositoryList classify find w)).
Proof.
  rewrite FindRepositoryList_run,
    (findRepositoryList_run classify find _ _ (tx_begun w)).
  discipline_faults w. discipline_leaf.
Qed.

Lemma discipline_find find w :
  tx_discipline false w
    (snd (fst (findRepositoryList classify find (begun w))))
    (snd (fst (FindRepository classify Sprintf_v find w)))
    (snd (FindRepository classify Sprintf_v find w)).
Proof.
  rewrite FindRepository_run,
    (findRepositoryList_run classify find _ _ (tx_begun w)).
  discipline_faults w.
  destruct (filter (matches find) (rows (repo w))) as [| r [| r' rest]];
    discipline_leaf.
Qed.

Lemma discipline_patch patch w :
  tx_discipline true w
    (snd (fst (patchRepository classify patch (begun w))))
    (snd (fst (PatchRepository classify patch w)))
    (snd (PatchRepository classify patch w)).
Proof.
  rewrite PatchRepository_run,
    (patchRepository_run classify patch _ _ (tx_begun w)).
  discipline_faults w.
  destruct (filter (has_id (pID patch)) (rows (repo w))) as [| r l];
    [discipline_leaf |].
  cbv beta iota. unfold Commit. cbn [tx faults set_tx record_call begun].
  destruct (commit_err (faults w)) as [? |]; discipline_leaf.
Qed.

Lemma discipline_delete delete w :
  tx_discipline true w
    (fst (deleteRepository classify delete (begun w)))
    (fst (DeleteRepository classify delete w))
    (snd (DeleteRepository classify delete w)).
Proof.
  rewrite DeleteRepository_run,
    (deleteRepository_run classify delete _ _ (tx_begun w)).
  discipline_faults w.
  destruct (affected_err (faults w)) as [? |]; [discipline_leaf |].
  destruct (_ =? 0); [discipline_leaf |].
  cbv beta iota. unfold Commit. cbn [tx faults set_tx record_call begun].
  destruct (commit_err (faults w)) as [? |]; discipline_leaf.
Qed.

(** C8: every service function keeps the discipline: its transaction is
    committed or rolled back when it returns, [Commit] is called only
    after its row function has succeeded, and an error before the commit
    leaves the transaction rolled back by the deferred [Rollback].  The
    two find functions never commit: their transaction is always rolled
    back. *)
Theorem every_transaction_ends create find patch delete w :
  tx_discipline true w
    (snd (fst (createRepository classify create (begun w))))
    (snd (fst (CreateRepository classify create w)))
    (snd (CreateRepository classify create w))
  /\ tx_discipline false w
       (snd (fst (findRepositoryList classify find (begun w))))
       (snd (fst (FindRepositoryList classify find w)))
       (snd (FindRepositoryList classify find w))
  /\ tx_discipline false w
       (snd (fst (findRepositoryList classify find (begun w))))
       (snd (fst (FindRepository classify Sprintf_v find w)))
       (snd (FindRepository classify Sprintf_v find w))
  /\ tx_discipline true w
       (snd (fst (patchRepository classify patch (begun w))))
       (snd (fst (PatchRepository classify patch w)))
       (snd (PatchRepository classify patch w))
  /\ tx_discipline true w
       (fst (deleteRepository classify delete (begun w)))
       (fst (DeleteRepository classify delete w))
       (snd (DeleteRepository classify delete w)).
Proof.
  split; [apply discipline_create |].
  split; [apply discipline_find_list |].
  split; [apply discipline_find |].
  split; [apply discipline_patch | apply discipline_delete].
Qed.

(** C9: when the cursor of the INSERT holds no row, [createRepository]
    goes on to [Scan] although [Next] has answered false; the scan fails
    with the error the cursor carries (or with [errRowsClosed]), and the
    function returns no entity and that error through [FormatError]; so
    does [CreateRepository], which rolls the transaction back. *)
Theorem create_without_a_row_is_an_error create :
  (forall w rs w1,
      QueryContext create_stmt (create_args create) w = (inr rs, w1) ->
      pending rs = [] ->
      fst (Next rs) = false
      /\ snd (Scan (snd (Next rs)) zeroRepository)
         = Some (match fail rs with Some e => e | None => errRowsClosed end)
      /\ createRepository classify create w
         = ((None,
             Some (classify (match fail rs with
                             | Some e => e
                             | None => errRowsClosed
                             end))),
            record_classified
              (match fail rs with Some e => e | None => errRowsClosed end)
              w1))
  /\ (forall w e,
        begin_err (faults w) = None ->
        query_err (faults w) = None ->
        step_err (faults w) = Some e ->
        (exists rs w1,
            QueryContext create_stmt (create_args create) (begun w)
            = (inr rs, w1)
            /\ pending rs = [])
        /\ fst (CreateRepository classify create w)
           = (None, Some (classify e))
        /\ tx (snd (CreateRepository classify create w)) = TxRolledBack
        /\ repo (snd (CreateRepository classify create w)) = repo w).
Proof.
  split.
  - intros w rs w1 Hq Hp.
    assert (Hrs : closed rs = false /\ lastcols rs = None).
    { unfold QueryContext in Hq. cbn [tx record_call faults clock] in Hq.
      destruct (tx w); try discriminate.
      destruct (query_err (faults w)); try discriminate.
      destruct (exec_stmt _ _ _ _) as [[[work' out] n] |]; try discriminate.
      destruct (step_err (faults w)); injection Hq as <- _; split; reflexivity. }
    destruct Hrs as [Hc Hl].
    assert (HN : Next rs = (false, mkRows [] (fail rs) None true (fail rs))).
    { unfold Next. rewrite Hc, Hp. reflexivity. }
    split; [rewrite HN; reflexivity |].
    split; [rewrite HN; unfold Scan; cbn; destruct (fail rs); reflexivity |].
    unfold createRepository, bind.
    change [VInt (cCreatorId create); VInt (cCreatorId create);
            VInt (cVCSId create); VInt (cProjectId create);
            VText (cName create); VText (cFullPath create);
            VText (cWebURL create); VText (cBaseDirectory create);
            VText (cBranchFilter create); VText (cExternalId create);
            VText (cWebhookId create)] with (create_args create).
    fold create_stmt. rewrite Hq, HN. unfold Scan. cbn [closed lasterr].
    destruct (fail rs); reflexivity.
  - intros w e Hb Hq Hs.
    split.
    { unfold QueryContext. cbn [tx record_call faults clock begun set_tx].
      rewrite Hq, exec_insert, Hs. eexists. eexists.
      split; reflexivity. }
    rewrite CreateRepository_run, Hb,
      (createRepository_run classify create _ _ (tx_begun w)).
    cbn [faults begun set_tx record_call clock]. rewrite Hq, Hs.
    cbv beta iota zeta. rewrite Rollback_world.
    repeat split; reflexivity.
Qed.

(** C10: when the driver cannot report the affected-row count, the error
    of [RowsAffected] is dropped and the count read as zero:
    [deleteRepository] returns the not-found error, although the DELETE
    has run and the rows with the id are gone from the transaction's
    table; [DeleteRepository] returns that error through [FormatError],
    the dropped error is never passed to [FormatError], and the deferred
    [Rollback] undoes the delete. *)
Theorem delete_drops_the_rows_affected_error delete e :
  (forall w work,
      tx w = TxActive work ->
      query_err (faults w) = None ->
      step_err (faults w) = None ->
      affected_err (faults w) = Some e ->
      (exists result w',
          ExecContext delete_stmt [VInt (dID delete)] w = (inr result, w')
          /\ RowsAffected result = (0, Some e))
      /\ fst (deleteRepository classify delete w)
         = Some (BytebaseError ENOTFOUND
                   ("repository ID not found: " ++ Sprintf_d (dID delete)))
      /\ tx (snd (deleteRepository classify delete w))
         = TxActive (deleted_table (dID delete) work)
      /\ classified (snd (deleteRepository classify delete w))
         = classified w)
  /\ (forall w,
        begin_err (faults w) = None ->
        query_err (faults w) = None ->
        step_err (faults w) = None ->
        affected_err (faults w) = Some e ->
        fst (DeleteRepository classify delete w)
        = Some (classify
                  (BytebaseError ENOTFOUND
                     ("repository ID not found: "
                        ++ Sprintf_d (dID delete))))
        /\ classified (snd (DeleteRepository classify delete w))
           = (classified w
              ++ [BytebaseError ENOTFOUND
                    ("repository ID not found: "
                       ++ Sprintf_d (dID delete))%string])%list
        /\ tx (snd (DeleteRepository classify delete w)) = TxRolledBack
        /\ repo (snd (DeleteRepository classify delete w)) = repo w).
Proof.
  split.
  - intros w work Htx Hq Hs Ha.
    split.
    { unfold ExecContext, delete_stmt. cbn [tx record_call faults clock].
      rewrite Htx, Hq, exec_delete, Hs, Ha. eexists. eexists.
      split; reflexivity. }
    rewrite (deleteRepository_run classify delete _ _ Htx), Hq, Hs, Ha.
    repeat split; reflexivity.
  - intros w Hb Hq Hs Ha.
    rewrite DeleteRepository_run, Hb,
      (deleteRepository_run classify delete _ _ (tx_begun w)).
    cbn [faults begun set_tx record_call clock]. rewrite Hq, Hs, Ha.
    cbv beta iota zeta. rewrite Rollback_world.
    repeat split; reflexivity.
Qed.

(** ** How often an error goes through [FormatError] *)

(** [CreateRepository] passes every error it returns through
    [FormatError] once: the error is a driver error, classified once. *)
Ltac once_leaf :=
  cbn; rewrite <- ?app_assoc;
  repeat match goal with |- _ /\ _ => split end;
  solve [reflexivity | auto 6].

Lemma create_classifies_once create w e :
  snd (fst (CreateRepository classify create w)) = Some e ->
  exists e0,
    e = classify e0
    /\ classified (snd (CreateRepository classify create w))
       = (classified w ++ [e0])%list
    /\ (begin_err (faults w) = Some e0 \/ query_err (faults w) = Some e0
        \/ step_err (faults w) = Some e0 \/ commit_err (faults w) = Some e0).
Proof.
  rewrite CreateRepository_run,
    (createRepository_run classify create _ _ (tx_begun w)).
  cbn [faults begun set_tx record_call clock]. cbv zeta.
  destruct (begin_err (faults w)) as [e0 |];
    [intros [= <-]; exists e0; once_leaf |].
  destruct (query_err (faults w)) as [e0 |];
    [rewrite Rollback_world; intros [= <-]; exists e0; once_leaf |].
  destruct (step_err (faults w)) as [e0 |];
    [rewrite Rollback_world; intros [= <-]; exists e0; once_leaf |].
  cbv beta iota. unfold Commit. cbn [tx faults set_tx record_call begun].
  destruct (commit_err (faults w)) as [e0 |];
    [rewrite Rollback_world; intros [= <-]; exists e0; once_leaf |].
  discriminate.
Qed.

(** [PatchRepository] passes an error of the UPDATE through [FormatError]
    twice: once in [patchRepository] (line 276) and once more on its way
    out (line 96). *)
Lemma patch_classifies_twice patch w e :
  begin_err (faults w) = None ->
  query_err (faults w) = Some e ->
  fst (PatchRepository classify patch w)
  = (None, Some (classify (classify e)))
  /\ classified (snd (PatchRepository classify patch w))
     = (classified w ++ [e; classify e])%list.
Proof.
  intros Hb Hq.
  rewrite PatchRepository_run, Hb,
    (patchRepository_run classify patch _ _ (tx_begun w)).
  cbn [faults begun set_tx record_call clock]. rewrite Hq.
  cbv beta iota zeta. rewrite Rollback_world. cbn.
  rewrite <- app_assoc. split; reflexivity.
Qed.

(** So does [DeleteRepository] with an error of the DELETE (lines 312 and
    117). *)
Lemma delete_classifies_twice delete w e :
  begin_err (faults w) = None ->
  query_err (faults w) = Some e ->
  fst (DeleteRepository classify delete w) = Some (classify (classify e))
  /\ classified (snd (DeleteRepository classify delete w))
     = (classified w ++ [e; classify e])%list.
Proof.
  intros Hb Hq.
  rewrite DeleteRepository_run, Hb,
    (deleteRepository_run classify delete _ _ (tx_begun w)).
  cbn [faults begun set_tx record_call clock]. rewrite Hq.
  cbv beta iota zeta. rewrite Rollback_world. cbn.
  rewrite <- app_assoc. split; reflexivity.
Qed.

(** An error the engine meets while it runs the UPDATE never reaches the
    caller of [PatchRepository]: [patchRepository] does not ask the cursor
    for its error (as line 246 does for the SELECT) and reports the id as
    not found. *)
Lemma patch_loses_the_step_error patch w e :
  begin_err (faults w) = None ->
  query_err (faults w) = None ->
  step_err (faults w) = Some e ->
  fst (PatchRepository classify patch w)
  = (None, Some (classify (id_not_found (pID patch))))
  /\ classified (snd (PatchRepository classify patch w))
     = (classified w ++ [id_not_found (pID patch)])%list.
Proof.
  intros Hb Hq Hs.
  rewrite PatchRepository_run, Hb,
    (patchRepository_run classify patch _ _ (tx_begun w)).
  cbn [faults begun set_tx record_call clock]. rewrite Hq, Hs.
  cbv beta iota zeta. rewrite Rollback_world. cbn.
  split; reflexivity.
Qed.

Ltac errors_leaf :=
  cbv beta iota zeta;
  rewrite ?Rollback_world;
  unfold classified_exactly_once, newly_classified;
  cbn [fst snd warnings classified set_tx set_repo record_call
       record_classified record_warning begun];
  rewrite <- ?app_assoc, ?skipn_length_app;
  repeat match goal with
         | |- _ /\ _ => split
         | |- forall _, _ => intro
         | H : Some _ = Some _ |- _ => injection H as <-
         | H : None = Some _ |- _ => discriminate H
         | H : Some _ = None |- _ => discriminate H
         | H : hd_error [] = Some _ |- _ => discriminate H
         end;
  try solve [ reflexivity
            | cbn; auto ].

Ltac errors_faults w :=
  unfold statement_fault;
  cbn [faults begun set_tx record_call clock]; cbv zeta;
  destruct (begin_err (faults w)) as [? |]; [errors_leaf |];
  destruct (query_err (faults w)) as [? |]; [errors_leaf |];
  destruct (step_err (faults w)) as [? |]; [errors_leaf |].

Lemma errors_create create w :
  (forall e0,
      statement_fault (faults w) = Some e0 ->
      classified_exactly_once classify e0
        (snd (fst (CreateRepository classify create w)))
        w (snd (CreateRepository classify create w)))
  /\ (forall e0,
        statement_fault (faults w) = None ->
        commit_err (faults w) = Some e0 ->
        classified_exactly_once classify e0
          (snd (fst (CreateRepository classify create w)))
          w (snd (CreateRepository classify create w)))
  /\ warnings (snd (CreateRepository classify create w)) = warnings w.
Proof.
  rewrite CreateRepository_run,
    (createRepository_run classify create _ _ (tx_begun w)).
  errors_faults w.
  cbv beta iota. unfold Commit. cbn [tx faults set_tx record_call begun].
  destruct (commit_err (faults w)) as [? |]; errors_leaf.
Qed.

Lemma errors_find_list find w :
  (forall e0,
      statement_fault (faults w) = Some e0 ->
      classified_exactly_once classify e0
        (snd (fst (FindRepositoryList classify find w)))
        w (snd (FindRepositoryList classify find w)))
  /\ warnings (snd (FindRepositoryList classify find w)) = warnings w.
Proof.
  rewrite FindRepositoryList_run,
    (findRepositoryList_run classify find _ _ (tx_begun w)).
  errors_faults w. errors_leaf.
Qed.

Lemma errors_find find w :
  (forall e0,
      statement_fault (faults w) = Some e0 ->
      classified_exactly_once classify e0
        (snd (fst (FindRepository classify Sprintf_v find w)))
        w (snd (FindRepository classify Sprintf_v find w)))
  /\ (warnings (snd (FindRepository classify Sprintf_v find w)) = warnings w
      \/ exists n,
           warnings (snd (FindRepository classify Sprintf_v find w))
           = (warnings w ++ [multiple_warning n])%list).
Proof.
  rewrite FindRepository_run,
    (findRepositoryList_run classify find _ _ (tx_begun w)).
  errors_faults w.
  destruct (filter (matches find) (rows (repo w))) as [| r [| r' rest]];
    errors_leaf.
  right. eexists. reflexivity.
Qed.

Lemma errors_patch patch w :
  (forall e0,
      begin_err (faults w) = Some e0 ->
      classified_exactly_once classify e0
        (snd (fst (PatchRepository classify patch w)))
        w (snd (PatchRepository classify patch w)))
  /\ (forall e0 r,
        statement_fault (faults w) = None ->
        find (has_id (pID patch)) (rows (repo w)) = Some r ->
        commit_err (faults w) = Some e0 ->
        classified_exactly_once classify e0
          (snd (fst (PatchRepository classify patch w)))
          w (snd (PatchRepository classify patch w)))
  /\ warnings (snd (PatchRepository classify patch w)) = warnings w.
Proof.
  rewrite PatchRepository_run,
    (patchRepository_run classify patch _ _ (tx_begun w)).
  errors_faults w.
  rewrite find_filter.
  destruct (filter (has_id (pID patch)) (rows (repo w))) as [| r l];
    [errors_leaf |].
  cbv beta iota. unfold Commit. cbn [tx faults set_tx record_call begun].
  destruct (commit_err (faults w)) as [? |]; errors_leaf.
Qed.

Lemma errors_delete delete w :
  (forall e0,
      begin_err (faults w) = Some e0 ->
      classified_exactly_once classify e0
        (fst (DeleteRepository classify delete w))
        w (snd (DeleteRepository classify delete w)))
  /\ (forall e0 r,
        statement_fault (faults w) = None ->
        affected_err (faults w) = None ->
        find (has_id (dID delete)) (rows (repo w)) = Some r ->
        commit_err (faults w) = Some e0 ->
        classified_exactly_once classify e0
          (fst (DeleteRepository classify delete w))
          w (snd (DeleteRepository classify delete w)))
  /\ (forall e0,
        statement_fault (faults w) = None ->
        affected_err (faults w) = Some e0 ->
        fst (DeleteRepository classify delete w)
        = Some (classify (id_not_found (dID delete)))
        /\ newly_classified w (snd (DeleteRepository classify delete w))
           = [id_not_found (dID delete)])
  /\ warnings (snd (DeleteRepository classify delete w)) = warnings w.
Proof.
  rewrite DeleteRepository_run,
    (deleteRepository_run classify delete _ _ (tx_begun w)).
  errors_faults w.
  rewrite find_filter.
  destruct (affected_err (faults w)) as [? |]; [errors_leaf |].
  destruct (filter (has_id (dID delete)) (rows (repo w))) as [| r l];
    [errors_leaf |].
  assert (Hn : (Z.of_nat (List.length (r :: l)) =? 0) = false).
  { apply Z.eqb_neq. simpl List.length. lia. }
  rewrite Hn. cbv beta iota. unfold Commit.
  cbn [tx faults set_tx record_call begun].
  destruct (commit_err (faults w)) as [? |]; errors_leaf.
Qed.

(** C7, amended: in every service function an error of [BeginTx] or of
    [Commit], and in [CreateRepository], [FindRepositoryList] and
    [FindRepository] also an error of the statement call or met while the
    statement runs, goes through [FormatError] exactly once, and what the
    caller gets is its result; nothing reaches the log but the warning of
    [FindRepository]; and the error of [RowsAffected] in
    [DeleteRepository] is outside the rule: it is dropped, the count is
    read as zero, and the caller gets the not-found error, the one error
    [FormatError] is called on. *)
Theorem storage_errors_are_classified_and_returned
    create find patch delete w :
  ((forall e0,
       statement_fault (faults w) = Some e0 ->
       classified_exactly_once classify e0
         (snd (fst (CreateRepository classify create w)))
         w (snd (CreateRepository classify create w)))
   /\ (forall e0,
         statement_fault (faults w) = None ->
         commit_err (faults w) = Some e0 ->
         classified_exactly_once classify e0
           (snd (fst (CreateRepository classify create w)))
           w (snd (CreateRepository classify create w)))
   /\ warnings (snd (CreateRepository classify create w)) = warnings w)
  /\ ((forall e0,
         statement_fault (faults w) = Some e0 ->
         classified_exactly_once classify e0
           (snd (fst (FindRepositoryList classify find w)))
           w (snd (FindRepositoryList classify find w)))
      /\ warnings (snd (FindRepositoryList classify find w)) = warnings w)
  /\ ((forall e0,
         statement_fault (faults w) = Some e0 ->
         classified_exactly_once classify e0
           (snd (fst (FindRepository classify Sprintf_v find w)))
           w (snd (FindRepository classify Sprintf_v find w)))
      /\ (warnings (snd (FindRepository classify Sprintf_v find w))
          = warnings w
          \/ exists n,
               warnings (snd (FindRepository classify Sprintf_v find w))
               = (warnings w ++ [multiple_warning n])%list))
  /\ ((forall e0,
         begin_err (faults w) = Some e0 ->
         classified_exactly_once classify e0
           (snd (fst (PatchRepository classify patch w)))
           w (snd (PatchRepository classify patch w)))
      /\ (forall e0 r,
            statement_fault (faults w) = None ->
            List.find (has_id (pID patch)) (rows (repo w)) = Some r ->
            commit_err (faults w) = Some e0 ->
            classified_exactly_once classify e0
              (snd (fst (PatchRepository classify patch w)))
              w (snd (PatchRepository classify patch w)))
      /\ warnings (snd (PatchRepository classify patch w)) = warnings w)
  /\ ((forall e0,
         begin_err (faults w) = Some e0 ->
         classified_exactly_once classify e0
           (fst (DeleteRepository classify delete w))
           w (snd (DeleteRepository classify delete w)))
      /\ (forall e0 r,
            statement_fault (faults w) = None ->
            affected_err (faults w) = None ->
            List.find (has_id (dID delete)) (rows (repo w)) = Some r ->
            commit_err (faults w) = Some e0 ->
            classified_exactly_once classify e0
              (fst (DeleteRepository classify delete w))
              w (snd (DeleteRepository classify delete w)))
      /\ (forall e0,
            statement_fault (faults w) = None ->
            affected_err (faults w) = Some e0 ->
            fst (DeleteRepository classify delete w)
            = Some (classify (id_not_found (dID delete)))
            /\ newly_classified w (snd (DeleteRepository classify delete w))
               = [id_not_found (dID delete)])
      /\ warnings (snd (DeleteRepository classify delete w)) = warnings w).
Proof.
  split; [apply errors_create |].
  split; [apply errors_find_list |].
  split; [apply errors_find |].
  split; [apply errors_patch | apply errors_delete].
Qed.

End Service.

(** * Examples *)

Example create_scenario :
  fst (CreateRepository sample_classify sample_create
         (idle (mkTable [] 0) 1000 no_faults))
  = (Some sample_row, None).
Proof. reflexivity. Qed.

Example patch_scenario :
  fst (PatchRepository sample_classify sample_patch
         (idle sample_table 1001 no_faults))
  = (Some (mkRepository 1 1 1000 2 1000 10 5 "repo-a" "org/repo-a"
             "https://git/org/repo-a" "/" "release" "123" "wh1"), None).
Proof. reflexivity. Qed.

Example patch_text_scenario :
  sql_text (patch_stmt sample_patch)
  = "UPDATE repo SET updater_id = ?, branch_filter = ? WHERE id = ? RETURNING id, creator_id, created_ts, updater_id, updated_ts, vcs_id, project_id, name, full_path, web_url, base_directory, branch_filter, external_id, webhook_id".
Proof. reflexivity. Qed.

Example set_clause_scenario :
  strings_Join (fst (patch_clause sample_patch)) ", "
  = "updater_id = ?, branch_filter = ?".
Proof. reflexivity. Qed.

Lemma patch_overwrites_supplied_fields_only_witness :
  find (has_id (pID sample_patch)) (rows sample_table) = Some sample_row
  /\ (exists r',
        fst (patchRepository sample_classify sample_patch
               (sample_open no_faults)) = (Some r', None)
        /\ UpdaterId r' = 2
        /\ BranchFilter r' = "release"
        /\ BaseDirectory r' = "/"
        /\ Name r' = "repo-a")
  /\ exists r',
       fst (PatchRepository sample_classify sample_patch
              (idle sample_table 1001 no_faults)) = (Some r', None)
       /\ find (has_id 1)
               (rows (repo (snd (PatchRepository sample_classify sample_patch
                                   (idle sample_table 1001 no_faults)))))
          = Some r'.
Proof.
  split; [reflexivity |].
  destruct (patch_overwrites_supplied_fields_only sample_classify sample_patch)
    as (_ & _ & _ & _ & _ & Hrow & Hservice).
  split.
  - destruct (Hrow (sample_open no_faults) sample_table sample_row
                eq_refl eq_refl eq_refl eq_refl)
      as (r' & work' & H1 & _ & _ & Hup & Hbd & Hbf & _ & _ & _ & _ & _ & _
          & Hnm & _).
    exists r'. repeat split; [exact H1 | exact Hup | exact Hbf | exact Hbd
                             | exact Hnm].
  - destruct (Hservice (idle sample_table 1001 no_faults) sample_row
                eq_refl eq_refl)
      as (r' & _ & Hres & Hstored).
    exists r'. split; [exact Hres | exact Hstored].
Defined.

Lemma find_one_takes_the_first_of_the_list_witness :
  begin_err (faults (idle twin_table 1003 no_faults)) = None
  /\ fst (FindRepository sample_classify sample_Sprintf_v
            (mkRepositoryFind (Some 1)) (idle twin_table 1003 no_faults))
     = (Some sample_row, None)
  /\ warnings (snd (FindRepository sample_classify sample_Sprintf_v
                      (mkRepositoryFind (Some 1))
                      (idle twin_table 1003 no_faults)))
     = ["found mulitple repositories: 2, expect 1"].
Proof.
  split; [reflexivity |].
  destruct (find_one_takes_the_first_of_the_list sample_classify
              sample_Sprintf_v (mkRepositoryFind (Some 1))
              (idle twin_table 1003 no_faults) eq_refl)
    as (_ & _ & _ & Hfirst & Hlist).
  exact (Hfirst sample_row [twin_row] (Hlist eq_refl eq_refl)).
Defined.

Lemma patch_of_unknown_id_is_not_found_witness :
  (forall r, In r (rows sample_table) -> ID r <> 7)
  /\ fst (PatchRepository sample_classify (mkRepositoryPatch 7 2 None None)
            (idle sample_table 1001 no_faults))
     = (None, Some (BytebaseError ENOTFOUND "repository ID not found: 7"))
  /\ repo (snd (PatchRepository sample_classify
                  (mkRepositoryPatch 7 2 None None)
                  (idle sample_table 1001 no_faults)))
     = sample_table.
Proof.
  assert (Hnone : forall r, In r (rows sample_table) -> ID r <> 7).
  { intros r [<- | []]. discriminate. }
  split; [exact Hnone |].
  destruct (patch_of_unknown_id_is_not_found sample_classify
              (mkRepositoryPatch 7 2 None None))
    as (_ & H & _).
  destruct (H (idle sample_table 1001 no_faults) eq_refl eq_refl Hnone)
    as (Hres & Hrepo & _).
  split; [exact Hres | exact Hrepo].
Defined.

Lemma create_returns_the_inserted_row_witness :
  snd (fst (CreateRepository sample_classify sample_create
              (idle (mkTable [] 0) 1000 no_faults))) = None
  /\ exists row,
       fst (fst (CreateRepository sample_classify sample_create
                   (idle (mkTable [] 0) 1000 no_faults))) = Some row
       /\ rows (repo (snd (CreateRepository sample_classify sample_create
                             (idle (mkTable [] 0) 1000 no_faults))))
          = [row]
       /\ CreatorId row = 1
       /\ UpdaterId row = 1
       /\ ID row = 1.
Proof.
  split; [reflexivity |].
  destruct (create_returns_the_inserted_row sample_classify sample_create
              (idle (mkTable [] 0) 1000 no_faults) eq_refl)
    as (row & Hres & Hrows & Hcr & Hup & Hid & _).
  exists row. repeat split; [exact Hres | exact Hrows | exact Hcr | exact Hup
                            | exact Hid].
Defined.

Lemma delete_looks_at_the_affected_rows_witness :
  faults (idle sample_table 1001 no_faults) = no_faults
  /\ fst (DeleteRepository sample_classify (mkRepositoryDelete 1)
            (idle sample_table 1001 no_faults)) = None
  /\ repo (snd (DeleteRepository sample_classify (mkRepositoryDelete 1)
                  (idle sample_table 1001 no_faults)))
     = mkTable [] 1
  /\ exists result w',
       ExecContext delete_stmt [VInt 1] (sample_open no_faults)
       = (inr result, w')
       /\ fst (RowsAffected result) = 1.
Proof.
  split; [reflexivity |].
  destruct (delete_looks_at_the_affected_rows sample_classify
              (mkRepositoryDelete 1))
    as (Hrow & Hservice).
  destruct (Hservice (idle sample_table 1001 no_faults) eq_refl)
    as (Hres & Hrepo).
  split; [exact Hres |].
  split; [exact Hrepo |].
  destruct (Hrow (sample_open no_faults) sample_table
              eq_refl eq_refl eq_refl)
    as (result & w' & Hexec & _ & _ & Hcount & _).
  exists result, w'. split; [exact Hexec | exact (Hcount eq_refl)].
Defined.

Lemma find_list_never_reports_not_found_witness :
  (forall r, In r (rows sample_table)
             -> matches (mkRepositoryFind (Some 7)) r = false)
  /\ fst (FindRepositoryList sample_classify (mkRepositoryFind (Some 7))
            (idle sample_table 1001 no_faults))
     = (Some [], None).
Proof.
  assert (Hnone : forall r, In r (rows sample_table)
                            -> matches (mkRepositoryFind (Some 7)) r = false).
  { intros r [<- | []]. reflexivity. }
  split; [exact Hnone |].
  destruct (find_list_never_reports_not_found sample_classify
              (mkRepositoryFind (Some 7)))
    as (_ & _ & _ & _ & _ & H).
  destruct (H (idle sample_table 1001 no_faults)) as (Hok & _).
  destruct (Hok eq_refl eq_refl eq_refl) as (_ & _ & Hempty).
  exact (Hempty Hnone).
Defined.

Lemma every_transaction_ends_witness :
  tx (snd (PatchRepository sample_classify sample_patch locked_statement))
  = TxRolledBack
  /\ repo (snd (PatchRepository sample_classify sample_patch
                  locked_statement))
     = sample_table
  /\ (tx (snd (CreateRepository sample_classify sample_create
                 (idle sample_table 1001 no_faults)))
      = TxCommitted
      <-> true = true
          /\ snd (fst (CreateRepository sample_classify sample_create
                         (idle sample_table 1001 no_faults)))
             = None).
Proof.
  destruct (every_transaction_ends sample_classify sample_Sprintf_v
              sample_create (mkRepositoryFind (Some 1)) sample_patch
              (mkRepositoryDelete 1) locked_statement)
    as (_ & _ & _ & (_ & _ & Hrow & _ & Hrepo) & _).
  destruct (Hrow ltac:(discriminate)) as (Hback & _).
  split; [exact Hback |].
  split; [exact (Hrepo Hback) |].
  destruct (every_transaction_ends sample_classify sample_Sprintf_v
              sample_create (mkRepositoryFind (Some 1)) sample_patch
              (mkRepositoryDelete 1) (idle sample_table 1001 no_faults))
    as ((_ & _ & _ & Hcommitted & _) & _).
  exact Hcommitted.
Defined.

Lemma create_without_a_row_is_an_error_witness :
  step_err (faults (idle sample_table 1001
                      (mkFaults None None (Some locked) None None)))
  = Some locked
  /\ fst (CreateRepository sample_classify sample_create
            (idle sample_table 1001
               (mkFaults None None (Some locked) None None)))
     = (None, Some locked)
  /\ repo (snd (CreateRepository sample_classify sample_create
                  (idle sample_table 1001
                     (mkFaults None None (Some locked) None None))))
     = sample_table.
Proof.
  split; [reflexivity |].
  destruct (create_without_a_row_is_an_error sample_classify sample_create)
    as (_ & H).
  destruct (H (idle sample_table 1001
                 (mkFaults None None (Some locked) None None))
              locked eq_refl eq_refl eq_refl)
    as (_ & Hres & _ & Hrepo).
  split; [exact Hres | exact Hrepo].
Defined.

Lemma delete_drops_the_rows_affected_error_witness :
  affected_err (faults (idle sample_table 1001
                          (mkFaults None None None (Some locked) None)))
  = Some locked
  /\ fst (DeleteRepository sample_classify (mkRepositoryDelete 1)
            (idle sample_table 1001
               (mkFaults None None None (Some locked) None)))
     = Some (BytebaseError ENOTFOUND "repository ID not found: 1")
  /\ repo (snd (DeleteRepository sample_classify (mkRepositoryDelete 1)
                  (idle sample_table 1001
                     (mkFaults None None None (Some locked) None))))
     = sample_table.
Proof.
  split; [reflexivity |].
  destruct (delete_drops_the_rows_affected_error sample_classify
              (mkRepositoryDelete 1) locked)
    as (_ & H).
  destruct (H (idle sample_table 1001
                 (mkFaults None None None (Some locked) None))
              eq_refl eq_refl eq_refl eq_refl)
    as (Hres & _ & _ & Hrepo).
  split; [exact Hres | exact Hrepo].
Defined.

Lemma storage_errors_are_classified_and_returned_witness :
  (statement_fault (faults locked_statement) = Some locked
   /\ classified_exactly_once sample_classify locked
        (snd (fst (CreateRepository sample_classify sample_create
                     locked_statement)))
        locked_statement
        (snd (CreateRepository sample_classify sample_create
                locked_statement)))
  /\ (commit_err (faults locked_commit) = Some locked
      /\ classified_exactly_once sample_classify locked
           (snd (fst (PatchRepository sample_classify sample_patch
                        locked_commit)))
           locked_commit
           (snd (PatchRepository sample_classify sample_patch locked_commit)))
  /\ (affected_err (faults locked_count) = Some locked
      /\ fst (DeleteRepository sample_classify (mkRepositoryDelete 1)
                locked_count)
         = Some (sample_classify (id_not_found 1))).
Proof.
  split; [split; [reflexivity |] | split; (split; [reflexivity |])].
  - destruct (storage_errors_are_classified_and_returned sample_classify
                sample_Sprintf_v sample_create (mkRepositoryFind (Some 1))
                sample_patch (mkRepositoryDelete 1) locked_statement)
      as ((Hcreate & _) & _).
    exact (Hcreate locked eq_refl).
  - destruct (storage_errors_are_classified_and_returned sample_classify
                sample_Sprintf_v sample_create (mkRepositoryFind (Some 1))
                sample_patch (mkRepositoryDelete 1) locked_commit)
      as (_ & _ & _ & (_ & Hpatch & _) & _).
    exact (Hpatch locked sample_row eq_refl eq_refl eq_refl).
  - destruct (storage_errors_are_classified_and_returned sample_classify
                sample_Sprintf_v sample_create (mkRepositoryFind (Some 1))
                sample_patch (mkRepositoryDelete 1) locked_count)
      as (_ & _ & _ & _ & (_ & _ & Hcount & _)).
    exact (proj1 (Hcount locked eq_refl eq_refl)).
Defined.

(** C7 as stated does not hold.  When the driver fails to report the
    affected rows of a DELETE, that error is never passed to [FormatError]
    and never returned: the caller gets the not-found error.  When the
    statement call of a patch or of a delete fails, or the engine fails
    while it runs the DELETE, [FormatError] is called twice, first on the
    driver's error and then on its own result.  And when the engine fails
    while it runs the UPDATE of a patch, its error is never passed to
    [FormatError]. *)
Lemma storage_errors_exactly_once_counterexample :
  (affected_err (faults locked_count) = Some locked
   /\ ~ classified_exactly_once sample_classify locked
          (fst (DeleteRepository sample_classify (mkRepositoryDelete 1)
                  locked_count))
          locked_count
          (snd (DeleteRepository sample_classify (mkRepositoryDelete 1)
                  locked_count))
   /\ fst (DeleteRepository sample_classify (mkRepositoryDelete 1)
             locked_count)
      = Some (BytebaseError ENOTFOUND "repository ID not found: 1")
   /\ newly_classified locked_count
        (snd (DeleteRepository sample_classify (mkRepositoryDelete 1)
                locked_count))
      = [BytebaseError ENOTFOUND "repository ID not found: 1"])
  /\ (query_err (faults locked_statement) = Some locked
      /\ ~ classified_exactly_once sample_classify locked
             (snd (fst (PatchRepository sample_classify sample_patch
                          locked_statement)))
             locked_statement
             (snd (PatchRepository sample_classify sample_patch
                     locked_statement))
      /\ newly_classified locked_statement
           (snd (PatchRepository sample_classify sample_patch
                   locked_statement))
         = [locked; sample_classify locked])
  /\ (~ classified_exactly_once sample_classify locked
          (fst (DeleteRepository sample_classify (mkRepositoryDelete 1)
                  locked_statement))
          locked_statement
          (snd (DeleteRepository sample_classify (mkRepositoryDelete 1)
                  locked_statement))
      /\ newly_classified locked_statement
           (snd (DeleteRepository sample_classify (mkRepositoryDelete 1)
                   locked_statement))
         = [locked; sample_classify locked])
  /\ (step_err (faults locked_step) = Some locked
      /\ ~ classified_exactly_once sample_classify locked
             (fst (DeleteRepository sample_classify (mkRepositoryDelete 1)
                     locked_step))
             locked_step
             (snd (DeleteRepository sample_classify (mkRepositoryDelete 1)
                     locked_step))
      /\ newly_classified locked_step
           (snd (DeleteRepository sample_classify (mkRepositoryDelete 1)
                   locked_step))
         = [locked; sample_classify locked])
  /\ (~ classified_exactly_once sample_classify locked
          (snd (fst (PatchRepository sample_classify sample_patch
                       locked_step)))
          locked_step
          (snd (PatchRepository sample_classify sample_patch locked_step))
      /\ newly_classified locked_step
           (snd (PatchRepository sample_classify sample_patch locked_step))
         = [BytebaseError ENOTFOUND "repository ID not found: 1"]).
Proof.
  repeat match goal with
         | |- _ /\ _ => split
         | |- ~ _ => intros [_ H]; vm_compute in H; discriminate H
         | |- _ = _ => reflexivity
         end.
Qed.

(** An error the engine meets while it runs the UPDATE of a patch is lost
    as well: the caller is told that the id, which is in the table, was
    not found ([findRepositoryList] asks its cursor for the error, line
    246; [patchRepository] does not). *)
Example patch_step_error_scenario :
  find (has_id (pID sample_patch)) (rows sample_table) = Some sample_row
  /\ fst (PatchRepository sample_classify sample_patch locked_step)
     = (None, Some (BytebaseError ENOTFOUND "repository ID not found: 1"))
  /\ classified (snd (PatchRepository sample_classify sample_patch
                        locked_step))
     = [BytebaseError ENOTFOUND "repository ID not found: 1"].
Proof. repeat split; reflexivity. Qed.

From Stdlib Require Import Permutation.

(** * More properties of the store *)

Section Outcomes.

Variable classify : error -> error.
Variable Sprintf_v : RepositoryFind -> string.

Ltac outcome_leaf :=
  cbv beta iota zeta;
  rewrite ?Rollback_world;
  cbn [fst snd tx repo calls warnings set_tx set_repo record_call
       record_classified record_warning begun];
  try solve [ left; split; [discriminate | reflexivity]
            | right; repeat split; reflexivity
            | reflexivity ].

Ltac outcome_faults w :=
  cbn [faults begun set_tx record_call clock]; cbv zeta;
  destruct (begin_err (faults w)) as [? |]; [outcome_leaf |];
  destruct (query_err (faults w)) as [? |]; [outcome_leaf |];
  destruct (step_err (faults w)) as [? |]; [outcome_leaf |].

Ltac outcome_commit w :=
  cbv beta iota; unfold Commit; cbn [tx faults set_tx record_call begun];
  destruct (commit_err (faults w)) as [? |]; outcome_leaf.

(** The two ways a call of [CreateRepository] can end. *)
Lemma CreateRepository_outcome create w :
  (snd (fst (CreateRepository classify create w)) <> None
   /\ repo (snd (CreateRepository classify create w)) = repo w)
  \/ (fst (CreateRepository classify create w)
      = (Some (created create (repo w) (clock w)), None)
      /\ repo (snd (CreateRepository classify create w))
         = created_table create (repo w) (clock w)).
Proof.
  rewrite CreateRepository_run,
    (createRepository_run classify create _ _ (tx_begun w)).
  outcome_faults w. outcome_commit w.
Qed.

(** A find never writes. *)
Lemma FindRepositoryList_table find w :
  repo (snd (FindRepositoryList classify find w)) = repo w.
Proof.
  rewrite FindRepositoryList_run,
    (findRepositoryList_run classify find _ _ (tx_begun w)).
  outcome_faults w. outcome_leaf.
Qed.

Lemma FindRepository_table find w :
  repo (snd (FindRepository classify Sprintf_v find w)) = repo w.
Proof.
  rewrite FindRepository_run,
    (findRepositoryList_run classify find _ _ (tx_begun w)).
  outcome_faults w.
  destruct (filter (matches find) (rows (repo w))) as [| r [| r' rest]];
    outcome_leaf.
Qed.

(** The two ways a call of [PatchRepository] can end. *)
Lemma PatchRepository_outcome patch w :
  (snd (fst (PatchRepository classify patch w)) <> None
   /\ repo (snd (PatchRepository classify patch w)) = repo w)
  \/ (exists r,
        List.find (has_id (pID patch)) (rows (repo w)) = Some r
        /\ fst (PatchRepository classify patch w)
           = (Some (patched patch r), None)
        /\ repo (snd (PatchRepository classify patch w))
           = patched_table patch (repo w)).
Proof.
  rewrite PatchRepository_run,
    (patchRepository_run classify patch _ _ (tx_begun w)).
  outcome_faults w.
  rewrite find_filter.
  destruct (filter (has_id (pID patch)) (rows (repo w))) as [| r l];
    [outcome_leaf |].
  cbv beta iota. unfold Commit. cbn [tx faults set_tx record_call begun].
  destruct (commit_err (faults w)) as [? |]; [outcome_leaf |].
  right. exists r. outcome_leaf. repeat split; reflexivity.
Qed.

(** The two ways a call of [DeleteRepository] can end. *)
Lemma DeleteRepository_outcome delete w :
  (fst (DeleteRepository classify delete w) <> None
   /\ repo (snd (DeleteRepository classify delete w)) = repo w)
  \/ (filter (has_id (dID delete)) (rows (repo w)) <> []
      /\ fst (DeleteRepository classify delete w) = None
      /\ repo (snd (DeleteRepository classify delete w))
         = deleted_table (dID delete) (repo w)).
Proof.
  rewrite DeleteRepository_run,
    (deleteRepository_run classify delete _ _ (tx_begun w)).
  outcome_faults w.
  destruct (affected_err (faults w)) as [? |]; [outcome_leaf |].
  destruct (filter (has_id (dID delete)) (rows (repo w))) as [| r l];
    [outcome_leaf |].
  assert (Hn : (Z.of_nat (List.length (r :: l)) =? 0) = false).
  { apply Z.eqb_neq. simpl List.length. lia. }
  rewrite Hn. cbv beta iota. unfold Commit.
  cbn [tx faults set_tx record_call begun].
  destruct (commit_err (faults w)) as [? |]; [outcome_leaf |].
  right. outcome_leaf. repeat split; [discriminate | reflexivity ..].
Qed.

(** X1: a call that returns an error has changed nothing: the table is
    the one the call found, whatever the driver did and however far the
    call got; and the two finds never change the table at all. *)
Theorem failed_calls_change_nothing create find patch delete w :
  (snd (fst (CreateRepository classify create w)) <> None ->
   repo (snd (CreateRepository classify create w)) = repo w)
  /\ (snd (fst (PatchRepository classify patch w)) <> None ->
      repo (snd (PatchRepository classify patch w)) = repo w)
  /\ (fst (DeleteRepository classify delete w) <> None ->
      repo (snd (DeleteRepository classify delete w)) = repo w)
  /\ repo (snd (FindRepositoryList classify find w)) = repo w
  /\ repo (snd (FindRepository classify Sprintf_v find w)) = repo w.
Proof.
  split; [| split; [| split; [| split]]].
  - destruct (CreateRepository_outcome create w) as [[_ H] | [H _]];
      [intros _; exact H |].
    rewrite H. intros E. exfalso. apply E. reflexivity.
  - destruct (PatchRepository_outcome patch w) as [[_ H] | (r & _ & H & _)];
      [intros _; exact H |].
    rewrite H. intros E. exfalso. apply E. reflexivity.
  - destruct (DeleteRepository_outcome delete w) as [[_ H] | (_ & H & _)];
      [intros _; exact H |].
    rewrite H. intros E. exfalso. apply E. reflexivity.
  - apply FindRepositoryList_table.
  - apply FindRepository_table.
Qed.

Lemma map_ID_patched patch l :
  map ID (map (fun r => if has_id (pID patch) r then patched patch r else r) l)
  = map ID l.
Proof.
  rewrite map_map. apply map_ext. intros r.
  destruct (has_id (pID patch) r); reflexivity.
Qed.

Lemma same_unpatched_columns_refl r : same_unpatched_columns r r.
Proof. repeat split. Qed.

Lemma same_unpatched_columns_patched patch r :
  same_unpatched_columns r (patched patch r).
Proof. repeat split. Qed.

(** X2: whatever happens, a call of [PatchRepository] leaves the table
    with the same rows in the same order, row for row equal in every
    column but updater_id, base_directory and branch_filter, and a row
    whose id is not the patch's is left exactly as it was. *)
Theorem patch_touches_only_its_rows patch w :
  Forall2 (fun r r' => same_unpatched_columns r r'
                       /\ (ID r <> pID patch -> r' = r))
          (rows (repo w))
          (rows (repo (snd (PatchRepository classify patch w)))).
Proof.
  destruct (PatchRepository_outcome patch w) as [[_ H] | (r0 & _ & _ & H)];
    rewrite H.
  - induction (rows (repo w)) as [| r l IH]; constructor;
      [split; [apply same_unpatched_columns_refl | reflexivity] | exact IH].
  - unfold patched_table. cbn [rows].
    induction (rows (repo w)) as [| r l IH]; simpl; constructor;
      [| exact IH].
    destruct (has_id (pID patch) r) eqn:E.
    + split; [apply same_unpatched_columns_patched |].
      intros Hne. exfalso. apply Hne. apply Z.eqb_eq. exact E.
    + split; [apply same_unpatched_columns_refl | reflexivity].
Qed.

Lemma filter_filter_same {A} (f : A -> bool) l :
  filter f (filter f l) = filter f l.
Proof.
  induction l as [| x l IH]; simpl; [reflexivity |].
  destruct (f x) eqn:E; simpl; [rewrite E, IH |]; [reflexivity | exact IH].
Qed.

Lemma filter_negb_none {A} (f : A -> bool) l :
  filter f (filter (fun x => negb (f x)) l) = [].
Proof.
  induction l as [| x l IH]; simpl; [reflexivity |].
  destruct (f x) eqn:E; simpl; [| rewrite E]; exact IH.
Qed.

(** X3: whatever happens, a call of [DeleteRepository] keeps every row
    whose id is not the one asked for, in the order they had; when it
    succeeds no row with the id is left, and when it fails none is gone. *)
Theorem delete_touches_only_its_rows delete w :
  filter (fun r => negb (has_id (dID delete) r))
         (rows (repo (snd (DeleteRepository classify delete w))))
  = filter (fun r => negb (has_id (dID delete) r)) (rows (repo w))
  /\ (fst (DeleteRepository classify delete w) = None ->
      filter (has_id (dID delete))
             (rows (repo (snd (DeleteRepository classify delete w)))) = []
      /\ rows (repo (snd (DeleteRepository classify delete w)))
         = filter (fun r => negb (has_id (dID delete) r)) (rows (repo w)))
  /\ (fst (DeleteRepository classify delete w) <> None ->
      rows (repo (snd (DeleteRepository classify delete w)))
      = rows (repo w)).
Proof.
  destruct (DeleteRepository_outcome delete w) as [[He H] | (_ & He & H)];
    rewrite H.
  - split; [reflexivity |]. split; [| reflexivity].
    intros E. exfalso. apply He. exact E.
  - unfold deleted_table. cbn [rows].
    split; [apply (filter_filter_same (fun r => negb (has_id (dID delete) r))) |].
    split.
    + intros _. split; [apply filter_negb_none | reflexivity].
    + intros E. exfalso. apply E. exact He.
Qed.

(** X4: whatever happens, a call of [CreateRepository] leaves every
    stored row where and as it was: the table afterwards is the old one,
    or the old one with one row at its end, and the latter exactly when
    the call succeeds. *)
Theorem create_touches_no_stored_row create w :
  (snd (fst (CreateRepository classify create w)) <> None
   /\ rows (repo (snd (CreateRepository classify create w)))
      = rows (repo w))
  \/ (exists row,
        fst (CreateRepository classify create w) = (Some row, None)
        /\ rows (repo (snd (CreateRepository classify create w)))
           = (rows (repo w) ++ [row])%list).
Proof.
  destruct (CreateRepository_outcome create w) as [[He H] | [He H]].
  - left. rewrite H. split; [exact He | reflexivity].
  - right. exists (created create (repo w) (clock w)).
    rewrite H. split; [exact He | reflexivity].
Qed.

(** ** Calls that meet no driver error *)

Ltac no_faults_run Hf :=
  cbn [faults begun set_tx record_call clock]; rewrite ?Hf;
  cbn [begin_err query_err step_err affected_err commit_err no_faults];
  cbv zeta.

Ltac no_faults_commit Hf :=
  cbv beta iota; unfold Commit;
  cbn [tx faults set_tx record_call record_classified begun];
  rewrite ?Hf; cbn [commit_err no_faults]; rewrite Rollback_world;
  cbn [fst snd repo warnings set_repo set_tx record_call].

Lemma CreateRepository_no_faults create w :
  faults w = no_faults ->
  fst (CreateRepository classify create w)
  = (Some (created create (repo w) (clock w)), None)
  /\ repo (snd (CreateRepository classify create w))
     = created_table create (repo w) (clock w).
Proof.
  intros Hf.
  rewrite CreateRepository_run,
    (createRepository_run classify create _ _ (tx_begun w)).
  no_faults_run Hf. no_faults_commit Hf. split; reflexivity.
Qed.

Lemma FindRepositoryList_no_faults find w :
  faults w = no_faults ->
  fst (FindRepositoryList classify find w)
  = (Some (filter (matches find) (rows (repo w))), None).
Proof.
  intros Hf.
  rewrite FindRepositoryList_run,
    (findRepositoryList_run classify find _ _ (tx_begun w)).
  no_faults_run Hf. reflexivity.
Qed.

Lemma FindRepository_no_faults find w :
  faults w = no_faults ->
  fst (FindRepository classify Sprintf_v find w)
  = match filter (matches find) (rows (repo w)) with
    | [] => (None, Some (find_not_found Sprintf_v find))
    | r :: _ => (Some r, None)
    end
  /\ warnings (snd (FindRepository classify Sprintf_v find w))
     = (warnings w
        ++ match filter (matches find) (rows (repo w)) with
           | _ :: _ :: _ =>
               [multiple_warning
                  (Z.of_nat (List.length
                               (filter (matches find) (rows (repo w)))))]
           | _ => []
           end)%list.
Proof.
  intros Hf.
  rewrite FindRepository_run,
    (findRepositoryList_run classify find _ _ (tx_begun w)).
  no_faults_run Hf.
  destruct (filter (matches find) (rows (repo w))) as [| r [| r' rest]];
    cbv beta iota; rewrite Rollback_world;
    cbn [fst snd warnings set_tx record_call record_warning begun];
    rewrite ?app_nil_r; split; reflexivity.
Qed.

Lemma PatchRepository_no_faults patch w :
  faults w = no_faults ->
  match filter (has_id (pID patch)) (rows (repo w)) with
  | [] =>
      fst (PatchRepository classify patch w)
      = (None, Some (classify (id_not_found (pID patch))))
      /\ repo (snd (PatchRepository classify patch w)) = repo w
  | r :: _ =>
      fst (PatchRepository classify patch w) = (Some (patched patch r), None)
      /\ repo (snd (PatchRepository classify patch w))
         = patched_table patch (repo w)
  end.
Proof.
  intros Hf.
  rewrite PatchRepository_run,
    (patchRepository_run classify patch _ _ (tx_begun w)).
  no_faults_run Hf.
  destruct (filter (has_id (pID patch)) (rows (repo w))) as [| r l].
  - cbv beta iota. rewrite Rollback_world. split; reflexivity.
  - no_faults_commit Hf. split; reflexivity.
Qed.

Lemma DeleteRepository_no_faults delete w :
  faults w = no_faults ->
  match filter (has_id (dID delete)) (rows (repo w)) with
  | [] =>
      fst (DeleteRepository classify delete w)
      = Some (classify (id_not_found (dID delete)))
      /\ repo (snd (DeleteRepository classify delete w)) = repo w
  | _ :: _ =>
      fst (DeleteRepository classify delete w) = None
      /\ repo (snd (DeleteRepository classify delete w))
         = deleted_table (dID delete) (repo w)
  end.
Proof.
  intros Hf.
  rewrite DeleteRepository_run,
    (deleteRepository_run classify delete _ _ (tx_begun w)).
  no_faults_run Hf.
  destruct (filter (has_id (dID delete)) (rows (repo w))) as [| r l].
  - cbn [List.length Z.of_nat Z.eqb]. cbv beta iota.
    rewrite Rollback_world. split; reflexivity.
  - assert (Hn : (Z.of_nat (List.length (r :: l)) =? 0) = false).
    { apply Z.eqb_neq. simpl List.length. lia. }
    rewrite Hn. no_faults_commit Hf. split; reflexivity.
Qed.

Lemma faults_then_at w now : faults (then_at w now) = no_faults.
Proof. reflexivity. Qed.

(** ** Keys *)

Lemma NoDup_map_filter {A B} (g : A -> B) (f : A -> bool) l :
  NoDup (map g l) -> NoDup (map g (filter f l)).
Proof.
  induction l as [| x l IH]; simpl; [intros H; exact H |].
  intros H. inversion H as [| y ys Hnin Hnd]; subst.
  destruct (f x); [| exact (IH Hnd)].
  simpl. constructor; [| exact (IH Hnd)].
  intros Hin. apply Hnin. apply in_map_iff in Hin.
  destruct Hin as (z & Hz & Hzin). apply filter_In in Hzin.
  apply in_map_iff. exists z. split; [exact Hz | exact (proj1 Hzin)].
Qed.

Lemma Forall_filter_keep {A} (P : A -> Prop) (f : A -> bool) l :
  Forall P l -> Forall P (filter f l).
Proof.
  intros H. apply Forall_forall. intros x Hx. apply filter_In in Hx.
  exact (proj1 (Forall_forall P l) H x (proj1 Hx)).
Qed.

Lemma no_row_above_seq id t :
  Forall (fun r => ID r <= seq t) (rows t) ->
  seq t < id ->
  filter (has_id id) (rows t) = [].
Proof.
  intros Hall Hid. apply no_row_with_id. intros r Hr.
  pose proof (proj1 (Forall_forall _ _) Hall r Hr) as Hle. cbv beta in Hle.
  lia.
Qed.

Lemma well_keyed_created create t now :
  well_keyed t -> well_keyed (created_table create t now).
Proof.
  intros [Hnd Hle]. unfold well_keyed, created_table. cbn [rows seq].
  split.
  - rewrite map_app. simpl map.
    apply NoDup_app; [exact Hnd | constructor; [intros [] | constructor] |].
    intros z Hz [Hz' | []]. apply in_map_iff in Hz.
    destruct Hz as (r & Hr & Hrin).
    pose proof (proj1 (Forall_forall _ _) Hle r Hrin) as Hb. cbv beta in Hb.
    cbn [created ID] in Hz'. lia.
  - apply Forall_app. split.
    + apply Forall_forall. intros r Hr.
      pose proof (proj1 (Forall_forall _ _) Hle r Hr) as Hb. cbv beta in Hb.
      lia.
    + constructor; [cbn [created ID]; lia | constructor].
Qed.

Lemma well_keyed_patched patch t :
  well_keyed t -> well_keyed (patched_table patch t).
Proof.
  intros [Hnd Hle]. unfold well_keyed, patched_table. cbn [rows seq].
  split; [rewrite map_ID_patched; exact Hnd |].
  apply Forall_forall. intros r' Hr'. apply in_map_iff in Hr'.
  destruct Hr' as (r & Hr & Hrin).
  pose proof (proj1 (Forall_forall _ _) Hle r Hrin) as Hb. cbv beta in Hb.
  destruct (has_id (pID patch) r); subst r'; exact Hb.
Qed.

Lemma well_keyed_deleted id t :
  well_keyed t -> well_keyed (deleted_table id t).
Proof.
  intros [Hnd Hle]. unfold well_keyed, deleted_table. cbn [rows seq].
  split; [apply NoDup_map_filter; exact Hnd |].
  apply Forall_filter_keep. exact Hle.
Qed.

(** X5: every service function keeps the keys of the table in order: if
    no id is stored twice and no stored id is above the last one handed
    out, the same holds of the table the call leaves, whatever the driver
    did and whether the call succeeds or not. *)
Theorem well_keyed_is_kept create find patch delete w :
  well_keyed (repo w) ->
  well_keyed (repo (snd (CreateRepository classify create w)))
  /\ well_keyed (repo (snd (FindRepositoryList classify find w)))
  /\ well_keyed (repo (snd (FindRepository classify Sprintf_v find w)))
  /\ well_keyed (repo (snd (PatchRepository classify patch w)))
  /\ well_keyed (repo (snd (DeleteRepository classify delete w))).
Proof.
  intros Hk.
  split; [| split; [| split; [| split]]].
  - destruct (CreateRepository_outcome create w) as [[_ H] | [_ H]];
      rewrite H; [exact Hk | apply well_keyed_created; exact Hk].
  - rewrite FindRepositoryList_table. exact Hk.
  - rewrite FindRepository_table. exact Hk.
  - destruct (PatchRepository_outcome patch w) as [[_ H] | (r & _ & _ & H)];
      rewrite H; [exact Hk | apply well_keyed_patched; exact Hk].
  - destruct (DeleteRepository_outcome delete w) as [[_ H] | (_ & _ & H)];
      rewrite H; [exact Hk | apply well_keyed_deleted; exact Hk].
Qed.

Lemma filter_has_id_unique id l :
  NoDup (map ID l) ->
  filter (has_id id) l = []
  \/ exists r, filter (has_id id) l = [r].
Proof.
  induction l as [| x l IH]; simpl; [intros _; left; reflexivity |].
  intros H. inversion H as [| y ys Hnin Hnd]; subst.
  destruct (has_id id x) eqn:E; [| exact (IH Hnd)].
  right. exists x. f_equal. apply filter_nil_none. intros z Hz.
  apply Z.eqb_neq. intros Hzid. apply Hnin.
  apply Z.eqb_eq in E. apply in_map_iff. exists z.
  split; [congruence | exact Hz].
Qed.

(** X6: when no id is stored twice, [FindRepository] by id never logs a
    warning and, if no driver call fails, returns the one row with the id
    or the not-found error; the warning belongs to tables that hold an id
    twice (and to finds without an id). *)
Theorem find_by_id_is_silent_on_unique_ids id w :
  NoDup (map ID (rows (repo w))) ->
  warnings (snd (FindRepository classify Sprintf_v
                   (mkRepositoryFind (Some id)) w))
  = warnings w
  /\ (faults w = no_faults ->
      (fst (FindRepository classify Sprintf_v (mkRepositoryFind (Some id)) w)
       = (None, Some (find_not_found Sprintf_v (mkRepositoryFind (Some id))))
       /\ forall r, In r (rows (repo w)) -> ID r <> id)
      \/ exists r,
           fst (FindRepository classify Sprintf_v
                  (mkRepositoryFind (Some id)) w) = (Some r, None)
           /\ In r (rows (repo w)) /\ ID r = id
           /\ forall r', In r' (rows (repo w)) -> ID r' = id -> r' = r).
Proof.
  intros Hnd. split.
  - rewrite FindRepository_run,
      (findRepositoryList_run classify _ _ _ (tx_begun w)).
    cbn [faults begun set_tx record_call clock]. cbv zeta.
    destruct (begin_err (faults w)) as [? |]; [reflexivity |].
    destruct (query_err (faults w)) as [? |];
      [cbv beta iota; rewrite Rollback_world; reflexivity |].
    destruct (step_err (faults w)) as [? |];
      [cbv beta iota; rewrite Rollback_world; reflexivity |].
    change (filter (matches (mkRepositoryFind (Some id))) (rows (repo w)))
      with (filter (has_id id) (rows (repo w))).
    destruct (filter_has_id_unique id _ Hnd) as [H | [r H]]; rewrite H;
      cbv beta iota; rewrite Rollback_world; reflexivity.
  - intros Hf.
    destruct (FindRepository_no_faults (mkRepositoryFind (Some id)) w Hf)
      as [Hres _].
    change (filter (matches (mkRepositoryFind (Some id))) (rows (repo w)))
      with (filter (has_id id) (rows (repo w))) in Hres.
    destruct (filter_has_id_unique id _ Hnd) as [H | [r H]];
      rewrite H in Hres.
    + left. split; [exact Hres |]. intros r Hr Hid.
      assert (Hin : In r (filter (has_id id) (rows (repo w)))).
      { apply filter_In. split; [exact Hr | apply Z.eqb_eq; exact Hid]. }
      rewrite H in Hin. destruct Hin.
    + right. exists r. split; [exact Hres |].
      assert (Hin : In r (filter (has_id id) (rows (repo w)))).
      { rewrite H. left. reflexivity. }
      apply filter_In in Hin. destruct Hin as [Hin Hid].
      split; [exact Hin |]. split; [apply Z.eqb_eq; exact Hid |].
      intros r' Hr' Hid'.
      assert (Hin' : In r' (filter (has_id id) (rows (repo w)))).
      { apply filter_In. split; [exact Hr' | apply Z.eqb_eq; exact Hid']. }
      rewrite H in Hin'. destruct Hin' as [<- | []]. reflexivity.
Qed.

(** ** One call after another *)

Lemma filter_app_last {A} (f : A -> bool) l x :
  filter f l = [] -> f x = true -> filter f (l ++ [x]) = [x].
Proof.
  intros Hl Hx. rewrite filter_app, Hl. simpl. rewrite Hx. reflexivity.
Qed.

Lemma filter_matches_none l : filter (matches (mkRepositoryFind None)) l = l.
Proof. induction l as [| r l IH]; simpl; [| rewrite IH]; reflexivity. Qed.

(** X7: create, then find.  On a table whose ids are all at most the last
    one handed out, the entity [CreateRepository] returns is what
    [FindRepository] by its id returns afterwards, with nothing logged,
    and [FindRepositoryList] without predicate returns the old rows and
    it, each once, in whatever order. *)
Theorem create_then_find create w now :
  faults w = no_faults ->
  Forall (fun r => ID r <= seq (repo w)) (rows (repo w)) ->
  exists row,
    fst (CreateRepository classify create w) = (Some row, None)
    /\ fst (FindRepository classify Sprintf_v
              (mkRepositoryFind (Some (ID row)))
              (then_at (snd (CreateRepository classify create w)) now))
       = (Some row, None)
    /\ warnings (snd (FindRepository classify Sprintf_v
                        (mkRepositoryFind (Some (ID row)))
                        (then_at (snd (CreateRepository classify create w))
                                 now)))
       = []
    /\ exists found,
         fst (FindRepositoryList classify (mkRepositoryFind None)
                (then_at (snd (CreateRepository classify create w)) now))
         = (Some found, None)
         /\ Permutation found (row :: rows (repo w)).
Proof.
  intros Hf Hle.
  destruct (CreateRepository_no_faults create w Hf) as [Hres Hrepo].
  exists (created create (repo w) (clock w)). split; [exact Hres |].
  assert (Hfilter :
            filter (has_id (seq (repo w) + 1))
                   (rows (repo w) ++ [created create (repo w) (clock w)])
            = [created create (repo w) (clock w)]).
  { apply filter_app_last.
    - apply no_row_above_seq; [exact Hle | lia].
    - apply Z.eqb_eq. reflexivity. }
  destruct (FindRepository_no_faults
              (mkRepositoryFind
                 (Some (ID (created create (repo w) (clock w)))))
              (then_at (snd (CreateRepository classify create w)) now)
              (faults_then_at _ _)) as [Hfind Hwarn].
  rewrite Hfind, Hwarn.
  rewrite (FindRepositoryList_no_faults (mkRepositoryFind None)
             (then_at (snd (CreateRepository classify create w)) now)
             (faults_then_at _ _)).
  unfold then_at. cbn [repo idle warnings]. rewrite Hrepo.
  unfold created_table. cbn [rows].
  change (filter (matches (mkRepositoryFind
                             (Some (ID (created create (repo w) (clock w))))))
                 (rows (repo w) ++ [created create (repo w) (clock w)]))
    with (filter (has_id (seq (repo w) + 1))
                 (rows (repo w) ++ [created create (repo w) (clock w)])).
  rewrite Hfilter. split; [reflexivity |]. split; [reflexivity |].
  rewrite filter_matches_none. eexists. split; [reflexivity |].
  apply Permutation_sym, Permutation_cons_append.
Qed.

(** X8: patch, then find.  The entity a successful [PatchRepository]
    returns is what [FindRepository] by the same id returns afterwards. *)
Theorem patch_then_find patch w now r' :
  fst (PatchRepository classify patch w) = (Some r', None) ->
  fst (FindRepository classify Sprintf_v (mkRepositoryFind (Some (pID patch)))
         (then_at (snd (PatchRepository classify patch w)) now))
  = (Some r', None).
Proof.
  intros Hok.
  destruct (PatchRepository_outcome patch w)
    as [[He _] | (r & Hfind & Hres & Hrepo)].
  { exfalso. apply He. rewrite Hok. reflexivity. }
  rewrite Hres in Hok. injection Hok as <-.
  destruct (FindRepository_no_faults (mkRepositoryFind (Some (pID patch)))
              (then_at (snd (PatchRepository classify patch w)) now)
              (faults_then_at _ _)) as [Hf _].
  rewrite Hf. unfold then_at. cbn [repo idle]. rewrite Hrepo.
  change (filter (matches (mkRepositoryFind (Some (pID patch))))
                 (rows (patched_table patch (repo w))))
    with (filter (has_id (pID patch)) (rows (patched_table patch (repo w)))).
  pose proof (find_patched patch (rows (repo w))) as Hp.
  rewrite Hfind, find_filter in Hp. cbn [option_map] in Hp.
  unfold patched_table. cbn [rows].
  destruct (filter (has_id (pID patch)) _) as [| x l];
    [discriminate Hp | injection Hp as ->; reflexivity].
Qed.

(** X9: delete, then anything by that id.  After a successful
    [DeleteRepository] the id is gone: [FindRepository] by it returns the
    not-found error, a second [DeleteRepository] and a [PatchRepository]
    of it return the classified not-found error, and none of the three
    changes the table. *)
Theorem delete_then_not_found delete patch w now :
  fst (DeleteRepository classify delete w) = None ->
  pID patch = dID delete ->
  fst (FindRepository classify Sprintf_v (mkRepositoryFind (Some (dID delete)))
         (then_at (snd (DeleteRepository classify delete w)) now))
  = (None,
     Some (find_not_found Sprintf_v (mkRepositoryFind (Some (dID delete)))))
  /\ fst (DeleteRepository classify delete
            (then_at (snd (DeleteRepository classify delete w)) now))
     = Some (classify (id_not_found (dID delete)))
  /\ fst (PatchRepository classify patch
            (then_at (snd (DeleteRepository classify delete w)) now))
     = (None, Some (classify (id_not_found (dID delete))))
  /\ repo (snd (DeleteRepository classify delete
                  (then_at (snd (DeleteRepository classify delete w)) now)))
     = repo (snd (DeleteRepository classify delete w))
  /\ repo (snd (PatchRepository classify patch
                  (then_at (snd (DeleteRepository classify delete w)) now)))
     = repo (snd (DeleteRepository classify delete w)).
Proof.
  intros Hok Hid.
  assert (Hnone : filter (has_id (dID delete))
                         (rows (repo (snd (DeleteRepository classify delete
                                             w)))) = []).
  { destruct (DeleteRepository_outcome delete w) as [[He _] | (_ & _ & H)];
      [exfalso; apply He; exact Hok |].
    rewrite H. apply filter_negb_none. }
  pose proof (FindRepository_no_faults (mkRepositoryFind (Some (dID delete)))
                (then_at (snd (DeleteRepository classify delete w)) now)
                (faults_then_at _ _)) as [Hf _].
  pose proof (DeleteRepository_no_faults delete
                (then_at (snd (DeleteRepository classify delete w)) now)
                (faults_then_at _ _)) as Hd.
  pose proof (PatchRepository_no_faults patch
                (then_at (snd (DeleteRepository classify delete w)) now)
                (faults_then_at _ _)) as Hp.
  rewrite Hid in Hp.
  change (filter (matches (mkRepositoryFind (Some (dID delete))))
                 (rows (repo (then_at
                                (snd (DeleteRepository classify delete w))
                                now))))
    with (filter (has_id (dID delete))
                 (rows (repo (snd (DeleteRepository classify delete w)))))
    in Hf.
  change (repo (then_at (snd (DeleteRepository classify delete w)) now))
    with (repo (snd (DeleteRepository classify delete w))) in Hd, Hp.
  rewrite Hnone in Hf, Hd, Hp.
  destruct Hd as [Hd1 Hd2]. destruct Hp as [Hp1 Hp2].
  repeat split; assumption.
Qed.

Lemma patched_patched patch r : patched patch (patched patch r) = patched patch r.
Proof. destruct patch as [id up [bd |] [bf |]]; reflexivity. Qed.

Lemma patched_table_twice patch t :
  patched_table patch (patched_table patch t) = patched_table patch t.
Proof.
  unfold patched_table. cbn [rows seq]. f_equal.
  rewrite map_map. apply map_ext. intros r.
  destruct (has_id (pID patch) r) eqn:E.
  - rewrite has_id_patched, E. apply patched_patched.
  - rewrite E. reflexivity.
Qed.

Lemma PatchRepository_table_no_faults patch w :
  faults w = no_faults ->
  repo (snd (PatchRepository classify patch w)) = patched_table patch (repo w).
Proof.
  intros Hf. pose proof (PatchRepository_no_faults patch w Hf) as H.
  destruct (filter (has_id (pID patch)) (rows (repo w))) as [| r l] eqn:E.
  - destruct H as [_ H]. rewrite H. symmetry.
    apply patched_table_no_row. exact E.
  - exact (proj2 H).
Qed.

(** X10: the same patch twice.  After a successful [PatchRepository] a
    second call with the same patch returns the same entity and leaves
    the table as the first call left it. *)
Theorem patch_twice_is_patch_once patch w now r' :
  fst (PatchRepository classify patch w) = (Some r', None) ->
  fst (PatchRepository classify patch
         (then_at (snd (PatchRepository classify patch w)) now))
  = (Some r', None)
  /\ repo (snd (PatchRepository classify patch
                  (then_at (snd (PatchRepository classify patch w)) now)))
     = repo (snd (PatchRepository classify patch w)).
Proof.
  intros Hok.
  destruct (PatchRepository_outcome patch w)
    as [[He _] | (r & Hfind & Hres & Hrepo)].
  { exfalso. apply He. rewrite Hok. reflexivity. }
  rewrite Hres in Hok. injection Hok as <-.
  split.
  - pose proof (PatchRepository_no_faults patch
                  (then_at (snd (PatchRepository classify patch w)) now)
                  (faults_then_at _ _)) as H.
    change (repo (then_at (snd (PatchRepository classify patch w)) now))
      with (repo (snd (PatchRepository classify patch w))) in H.
    rewrite Hrepo in H.
    pose proof (find_patched patch (rows (repo w))) as Hp.
    rewrite Hfind, find_filter in Hp. cbn [option_map] in Hp.
    unfold patched_table in H. cbn [rows] in H.
    destruct (filter (has_id (pID patch)) _) as [| x l];
      [discriminate Hp |].
    injection Hp as ->. destruct H as [H _]. rewrite H.
    rewrite patched_patched. reflexivity.
  - rewrite (PatchRepository_table_no_faults patch _ (faults_then_at _ _)).
    change (repo (then_at (snd (PatchRepository classify patch w)) now))
      with (repo (snd (PatchRepository classify patch w))).
    rewrite Hrepo. apply patched_table_twice.
Qed.

Lemma patched_table_commute p1 p2 t :
  pID p1 <> pID p2 ->
  patched_table p1 (patched_table p2 t) = patched_table p2 (patched_table p1 t).
Proof.
  intros Hne. unfold patched_table. cbn [rows seq]. f_equal.
  rewrite !map_map. apply map_ext. intros r.
  destruct (has_id (pID p1) r) eqn:E1, (has_id (pID p2) r) eqn:E2;
    rewrite ?has_id_patched, ?E1, ?E2; try reflexivity.
  exfalso. apply Hne. apply Z.eqb_eq in E1, E2. congruence.
Qed.

Lemma filter_has_id_patched_other p id l :
  pID p <> id ->
  filter (has_id id)
         (map (fun r => if has_id (pID p) r then patched p r else r) l)
  = filter (has_id id) l.
Proof.
  intros Hne. induction l as [| r l IH]; [reflexivity |].
  simpl. destruct (has_id (pID p) r) eqn:E1.
  - rewrite has_id_patched.
    assert (E2 : has_id id r = false).
    { apply Z.eqb_neq. apply Z.eqb_eq in E1. congruence. }
    rewrite E2. exact IH.
  - destruct (has_id id r); [f_equal |]; exact IH.
Qed.

(** X11: patches of different ids do not see each other.  When no driver
    call fails, two patches with different ids leave the same table in
    either order, and each returns what it returns when run alone. *)
Theorem patches_of_different_ids_commute p1 p2 w n1 n2 :
  faults w = no_faults ->
  pID p1 <> pID p2 ->
  repo (snd (PatchRepository classify p2
               (then_at (snd (PatchRepository classify p1 w)) n1)))
  = repo (snd (PatchRepository classify p1
                 (then_at (snd (PatchRepository classify p2 w)) n2)))
  /\ fst (PatchRepository classify p2
            (then_at (snd (PatchRepository classify p1 w)) n1))
     = fst (PatchRepository classify p2 w).
Proof.
  intros Hf Hne.
  rewrite !(PatchRepository_table_no_faults _ _ (faults_then_at _ _)).
  change (repo (then_at (snd (PatchRepository classify p1 w)) n1))
    with (repo (snd (PatchRepository classify p1 w))).
  change (repo (then_at (snd (PatchRepository classify p2 w)) n2))
    with (repo (snd (PatchRepository classify p2 w))).
  rewrite !(PatchRepository_table_no_faults _ _ Hf).
  split; [symmetry; apply patched_table_commute; exact Hne |].
  pose proof (PatchRepository_no_faults p2
                (then_at (snd (PatchRepository classify p1 w)) n1)
                (faults_then_at _ _)) as H1.
  pose proof (PatchRepository_no_faults p2 w Hf) as H2.
  change (repo (then_at (snd (PatchRepository classify p1 w)) n1))
    with (repo (snd (PatchRepository classify p1 w))) in H1.
  rewrite (PatchRepository_table_no_faults _ _ Hf) in H1.
  unfold patched_table at 1 in H1. cbn [rows] in H1.
  rewrite (filter_has_id_patched_other p1 (pID p2) _ Hne) in H1.
  destruct (filter (has_id (pID p2)) (rows (repo w))) as [| r l].
  - rewrite (proj1 H1), (proj1 H2). reflexivity.
  - rewrite (proj1 H1), (proj1 H2). reflexivity.
Qed.

(** X12: create, then delete.  On a table whose ids are all at most the
    last one handed out, deleting the entity just created succeeds and
    gives back the rows the table had before the create. *)
Theorem create_then_delete create w now :
  faults w = no_faults ->
  Forall (fun r => ID r <= seq (repo w)) (rows (repo w)) ->
  exists row,
    fst (CreateRepository classify create w) = (Some row, None)
    /\ fst (DeleteRepository classify (mkRepositoryDelete (ID row))
              (then_at (snd (CreateRepository classify create w)) now))
       = None
    /\ rows (repo (snd (DeleteRepository classify
                          (mkRepositoryDelete (ID row))
                          (then_at (snd (CreateRepository classify create w))
                                   now))))
       = rows (repo w).
Proof.
  intros Hf Hle.
  destruct (CreateRepository_no_faults create w Hf) as [Hres Hrepo].
  exists (created create (repo w) (clock w)). split; [exact Hres |].
  pose proof (DeleteRepository_no_faults
                (mkRepositoryDelete (ID (created create (repo w) (clock w))))
                (then_at (snd (CreateRepository classify create w)) now)
                (faults_then_at _ _)) as H.
  change (repo (then_at (snd (CreateRepository classify create w)) now))
    with (repo (snd (CreateRepository classify create w))) in H.
  rewrite Hrepo in H. unfold created_table at 1 in H. cbn [rows dID] in H.
  change (ID (created create (repo w) (clock w))) with (seq (repo w) + 1)
    in H |- *.
  assert (Hnone : filter (has_id (seq (repo w) + 1)) (rows (repo w)) = []).
  { apply no_row_above_seq; [exact Hle | lia]. }
  rewrite (filter_app_last _ _ _ Hnone) in H by (apply Z.eqb_eq; reflexivity).
  destruct H as [H1 H2]. split; [exact H1 |].
  rewrite H2. unfold deleted_table, created_table. cbn [rows].
  rewrite filter_app. simpl.
  assert (E : has_id (seq (repo w) + 1) (created create (repo w) (clock w))
              = true) by (apply Z.eqb_eq; reflexivity).
  rewrite E. simpl. rewrite app_nil_r.
  clear - Hnone. induction (rows (repo w)) as [| r l IH]; [reflexivity |].
  simpl in *. destruct (has_id (seq (repo w) + 1) r); [discriminate |].
  simpl. f_equal. apply IH. exact Hnone.
Qed.

End Outcomes.

(** ** The statement texts and the cursor rows *)

(** X13: placeholders and arguments stay aligned.  In the text of the
    SELECT and of the UPDATE, which the store assembles from the fields a
    request supplies, the number of placeholders is the number of
    arguments the store binds, whatever the request. *)
Theorem placeholders_match_arguments find patch :
  count_placeholders (sql_text (find_stmt find))
  = List.length (snd (find_clause find))
  /\ count_placeholders (sql_text (patch_stmt patch))
     = List.length (snd (patch_clause patch)).
Proof.
  split.
  - destruct find as [[v |]]; reflexivity.
  - destruct patch as [id up [bd |] [bf |]]; reflexivity.
Qed.

(** X14: no value of a request ever enters a statement text: two patches
    that supply the same optional fields, and two finds that both have or
    both lack an id, send the same text whatever values they carry. *)
Theorem statement_text_holds_no_value :
  (forall p p',
      patch_shape p = patch_shape p' ->
      sql_text (patch_stmt p) = sql_text (patch_stmt p'))
  /\ (forall f f',
        (fID f = None <-> fID f' = None) ->
        sql_text (find_stmt f) = sql_text (find_stmt f')).
Proof.
  split.
  - intros [id up [bd |] [bf |]] [id' up' [bd' |] [bf' |]] H;
      try discriminate H; reflexivity.
  - intros [[v |]] [[v' |]] [H1 H2]; try reflexivity.
    + discriminate (H2 eq_refl).
    + discriminate (H1 eq_refl).
Qed.

Lemma decode_only_encoded vals r : decode vals = Some r -> vals = encode r.
Proof.
  unfold decode.
  repeat (destruct vals as [| [? | ?] vals]; try discriminate).
  intros [= <-]. reflexivity.
Qed.

(** X15: the column list of every SELECT and RETURNING and the
    destinations of every [Scan] agree: a stored row read through
    [repo_columns] scans back to itself, nothing else scans to it, and
    the first [Next] and [Scan] on a cursor over stored rows give the
    first of them without error, whatever the destination held. *)
Theorem scan_reads_back_the_stored_row r l vals dest f :
  (project repo_columns r = Some vals -> decode vals = Some r)
  /\ (decode vals = Some r <-> vals = encode r)
  /\ fst (Next (mkRows (project_all repo_columns (r :: l)) f None false None))
     = true
  /\ Scan (snd (Next (mkRows (project_all repo_columns (r :: l)) f None
                        false None))) dest
     = (r, None).
Proof.
  split; [| split; [| split]].
  - rewrite project_repo_columns. intros [= <-]. apply decode_encode.
  - split; [apply decode_only_encoded | intros ->; apply decode_encode].
  - rewrite project_all_repo_columns. reflexivity.
  - rewrite project_all_repo_columns. unfold Next, Scan. cbn.
    destruct r; reflexivity.
Qed.

(** * Properties of the inbox view *)

Module InboxFacts.
Import Inbox.

Lemma sorting_loop list : forall c,
  readList (state (fold_left sort_step list c))
  = (readList (state c) ++ filter is_read list)%list
  /\ unreadList (state (fold_left sort_step list c))
     = (unreadList (state c) ++ filter is_unread list)%list
  /\ selectedIndex (state (fold_left sort_step list c))
     = selectedIndex (state c)
  /\ routeHash (fold_left sort_step list c) = routeHash c
  /\ dispatched (fold_left sort_step list c) = dispatched c.
Proof.
  induction list as [| item list IH]; intros c.
  - cbn. rewrite !app_nil_r. repeat split.
  - cbn [fold_left filter].
    destruct (IH (sort_step c item)) as (H1 & H2 & H3 & H4 & H5).
    rewrite H1, H2, H3, H4, H5. unfold sort_step.
    destruct (is_read item) eqn:Er.
    + assert (Eu : is_unread item = false).
      { unfold is_read, is_unread in *. apply String.eqb_eq in Er.
        rewrite Er. reflexivity. }
      rewrite Eu. cbn. rewrite <- app_assoc. repeat split.
    + destruct (is_unread item) eqn:Eu; cbn; rewrite <- ?app_assoc;
        repeat split.
Qed.

Lemma three_way_split {A} (f g : A -> bool) l :
  (forall x, f x = true -> g x = false) ->
  Permutation
    (filter f l ++ filter g l ++ filter (fun x => negb (f x || g x)) l) l.
Proof.
  intros Hfg. induction l as [| x l IH]; [constructor |].
  simpl. destruct (f x) eqn:Ef.
  - rewrite (Hfg x Ef). simpl. constructor. exact IH.
  - destruct (g x) eqn:Eg; simpl.
    + apply Permutation_sym. apply Permutation_cons_app.
      apply Permutation_sym. exact IH.
    + apply Permutation_sym.
      rewrite app_assoc. apply Permutation_cons_app.
      rewrite <- app_assoc. apply Permutation_sym. exact IH.
Qed.

(** X16: when the store answers, the component forgets its two lists
    and sorts the answer: the read list is the items of status READ and
    the unread list those of status UNREAD, each in the order of the
    answer; an item of any other status is in neither; nothing else of
    the component changes. *)
Theorem fetched_inboxes_are_sorted_by_status list c :
  readList (state (inboxListFetched list c)) = filter is_read list
  /\ unreadList (state (inboxListFetched list c)) = filter is_unread list
  /\ Permutation
       (readList (state (inboxListFetched list c))
        ++ unreadList (state (inboxListFetched list c))
        ++ filter (fun item => negb (is_read item || is_unread item)) list)
       list
  /\ selectedIndex (state (inboxListFetched list c))
     = selectedIndex (state c)
  /\ routeHash (inboxListFetched list c) = routeHash c
  /\ dispatched (inboxListFetched list c) = dispatched c.
Proof.
  change (inboxListFetched list c)
    with (fold_left sort_step list (set_unreadList [] (set_readList [] c))).
  destruct (sorting_loop list (set_unreadList [] (set_readList [] c)))
    as (H1 & H2 & H3 & H4 & H5).
  rewrite H1, H2, H3, H4, H5. cbn.
  repeat split. apply three_way_split.
  intros x Hx. unfold is_read, is_unread in *.
  apply String.eqb_eq in Hx. rewrite Hx. reflexivity.
Qed.

Lemma two_way_split {A} (f : A -> bool) l :
  Permutation (filter (fun x => negb (f x)) l ++ filter f l) l.
Proof.
  induction l as [| x l IH]; [constructor |].
  simpl. destruct (f x); simpl.
  - apply Permutation_sym. apply Permutation_cons_app.
    apply Permutation_sym. exact IH.
  - constructor. exact IH.
Qed.

Lemma effective_issue c l :
  effectiveInboxList (set_selectedIndex ISSUE_TAB c) l
  = filter (fun x => negb (is_member x)) l.
Proof.
  unfold effectiveInboxList. apply filter_ext_bool. intros x. cbn.
  fold (is_member x). destruct (is_member x); reflexivity.
Qed.

Lemma effective_member c l :
  effectiveInboxList (set_selectedIndex MEMBER_TAB c) l = filter is_member l.
Proof.
  unfold effectiveInboxList. apply filter_ext_bool. intros x. cbn.
  fold (is_member x). destruct (is_member x); reflexivity.
Qed.

(** X17: the two tabs split the inbox: every item of a list is shown
    under exactly one of the issue tab and the member tab, the member tab
    showing the items whose action type starts with bb.member.; under any
    other index nothing is hidden; and filtering twice is filtering
    once. *)
Theorem tabs_split_the_inbox c l :
  Permutation
    (effectiveInboxList (set_selectedIndex ISSUE_TAB c) l
     ++ effectiveInboxList (set_selectedIndex MEMBER_TAB c) l) l
  /\ (forall x,
        In x (effectiveInboxList (set_selectedIndex ISSUE_TAB c) l) ->
        ~ In x (effectiveInboxList (set_selectedIndex MEMBER_TAB c) l))
  /\ (forall x,
        In x (effectiveInboxList (set_selectedIndex MEMBER_TAB c) l)
        <-> In x l /\ prefix "bb.member." (actionType (activity x)) = true)
  /\ (forall i,
        i <> ISSUE_TAB -> i <> MEMBER_TAB ->
        effectiveInboxList (set_selectedIndex i c) l = l)
  /\ effectiveInboxList c (effectiveInboxList c l) = effectiveInboxList c l.
Proof.
  rewrite effective_issue, effective_member.
  split; [apply two_way_split |].
  split.
  { intros x H1 H2. apply filter_In in H1, H2.
    destruct H1 as [_ H1], H2 as [_ H2]. rewrite H2 in H1. discriminate. }
  split; [intros x; apply filter_In |].
  split.
  - intros i H0 H1. unfold effectiveInboxList. cbn.
    apply Z.eqb_neq in H0, H1. rewrite H0, H1. cbn.
    induction l as [| x l IH]; simpl; [| rewrite IH]; reflexivity.
  - unfold effectiveInboxList. apply filter_filter_same.
Qed.

Lemma tab_at_cases i tab :
  tab_at i = Some tab ->
  (i = 0 /\ tab = mkTabItem "Issue" "issue")
  \/ (i = 1 /\ tab = mkTabItem "Member" "member").
Proof.
  unfold tab_at. destruct (i <? 0) eqn:E; [discriminate |].
  apply Z.ltb_ge in E.
  destruct (Z.to_nat i) as [| [| n]] eqn:En; cbn; intros H;
    try (injection H as <-).
  - left. split; [lia | reflexivity].
  - right. split; [lia | reflexivity].
  - destruct n; discriminate H.
Qed.

Lemma component_eta c :
  mkComponent
    (mkLocalState (selectedIndex (state c)) (readList (state c))
       (unreadList (state c)))
    (routeHash c) (dispatched c) = c.
Proof. destruct c as [[i r u] h d]. reflexivity. Qed.

Lemma selectTabOnHash_nonempty c a h :
  routeHash c = String a h ->
  selectTabOnHash c
  = if String.eqb "issue" h then selectTab 0 c
    else if String.eqb "member" h then selectTab 1 c
         else (c, false).
Proof.
  intros Eh. unfold selectTabOnHash. rewrite Eh.
  cbn -[String.eqb selectTab]. rewrite Eh. cbn [slice1]. reflexivity.
Qed.

(** X18: the tab follows the route.  [selectTabOnHash] never throws;
    with no hash it selects the issue tab and writes its hash; with the
    hash of a tab behind any one character it selects that tab and writes
    its hash behind a number sign; with any other hash it changes
    nothing.  So a tab selected with [selectTab] is selected again when
    the route is read back, and nothing moves. *)
Theorem select_tab_on_hash_follows_the_route c :
  snd (selectTabOnHash c) = false
  /\ (routeHash c = EmptyString ->
      fst (selectTabOnHash c)
      = set_routeHash "#issue" (set_selectedIndex ISSUE_TAB c))
  /\ (forall i tab,
        routeHash c <> EmptyString ->
        tab_at i = Some tab ->
        slice1 (routeHash c) = hash tab ->
        fst (selectTabOnHash c)
        = set_routeHash ("#" ++ hash tab) (set_selectedIndex i c))
  /\ (routeHash c <> EmptyString ->
      (forall i tab, tab_at i = Some tab -> slice1 (routeHash c) <> hash tab) ->
      fst (selectTabOnHash c) = c)
  /\ (forall i tab,
        tab_at i = Some tab ->
        selectTab i c
        = (set_routeHash ("#" ++ hash tab) (set_selectedIndex i c), false)
        /\ tab_matches_route (fst (selectTab i c))
        /\ selectTabOnHash (fst (selectTab i c)) = (fst (selectTab i c), false)).
Proof.
  split; [| split; [| split; [| split]]].
  - destruct (routeHash c) as [| a h] eqn:Eh.
    + unfold selectTabOnHash. rewrite Eh. reflexivity.
    + rewrite (selectTabOnHash_nonempty c a h Eh).
      destruct (String.eqb "issue" h); [reflexivity |].
      destruct (String.eqb "member" h); reflexivity.
  - intros Eh. unfold selectTabOnHash. rewrite Eh. reflexivity.
  - intros i tab Hne Htab Hslice.
    destruct (routeHash c) as [| a h] eqn:Eh; [contradiction |].
    rewrite (selectTabOnHash_nonempty c a h Eh).
    cbn [slice1] in Hslice.
    destruct (tab_at_cases i tab Htab) as [[-> ->] | [-> ->]];
      cbn [hash] in Hslice; subst h; reflexivity.
  - intros Hne Hnone.
    destruct (routeHash c) as [| a h] eqn:Eh; [contradiction |].
    rewrite (selectTabOnHash_nonempty c a h Eh).
    destruct (String.eqb "issue" h) eqn:E0.
    { exfalso. apply String.eqb_eq in E0.
      apply (Hnone 0 (mkTabItem "Issue" "issue") eq_refl).
      cbn [slice1 hash]. symmetry. exact E0. }
    destruct (String.eqb "member" h) eqn:E1.
    { exfalso. apply String.eqb_eq in E1.
      apply (Hnone 1 (mkTabItem "Member" "member") eq_refl).
      cbn [slice1 hash]. symmetry. exact E1. }
    reflexivity.
  - intros i tab Htab.
    destruct (tab_at_cases i tab Htab) as [[-> ->] | [-> ->]].
    + split; [reflexivity |]. split; [| reflexivity].
      exists (mkTabItem "Issue" "issue"). split; reflexivity.
    + split; [reflexivity |]. split; [| reflexivity].
      exists (mkTabItem "Member" "member"). split; reflexivity.
Qed.

Lemma patches_sent l : forall c,
  let c' :=
    fold_left (fun c item => dispatch (PatchInbox (id item) "READ") c) l c in
  state c' = state c
  /\ routeHash c' = routeHash c
  /\ dispatched c'
     = (dispatched c ++ map (fun item => PatchInbox (id item) "READ") l)%list.
Proof.
  induction l as [| item l IH]; intros c; cbv zeta.
  - cbn. rewrite app_nil_r. repeat split.
  - cbn [fold_left map].
    destruct (IH (dispatch (PatchInbox (id item) "READ") c)) as (H1 & H2 & H3).
    cbv zeta in H1, H2, H3. rewrite H1, H2, H3. cbn.
    rewrite <- app_assoc. repeat split.
Qed.

Lemma callbacks_run userId answered : forall c k,
  snd (inboxesPatched userId answered (c, k))
  = k - Z.of_nat (List.length answered)
  /\ readList (state (fst (inboxesPatched userId answered (c, k))))
     = (readList (state c) ++ answered)%list
  /\ unreadList (state (fst (inboxesPatched userId answered (c, k))))
     = unreadList (state c)
  /\ selectedIndex (state (fst (inboxesPatched userId answered (c, k))))
     = selectedIndex (state c)
  /\ routeHash (fst (inboxesPatched userId answered (c, k))) = routeHash c
  /\ dispatched (fst (inboxesPatched userId answered (c, k)))
     = (dispatched c
        ++ if (1 <=? k) && (k <=? Z.of_nat (List.length answered))
           then [FetchInboxSummaryByUser userId]
           else [])%list.
Proof.
  induction answered as [| item rest IH]; intros c k.
  - cbn [inboxesPatched fold_left fst snd List.length Z.of_nat].
    rewrite !app_nil_r.
    assert (E : (1 <=? k) && (k <=? 0) = false).
    { destruct (1 <=? k) eqn:E1; [| reflexivity].
      apply Z.leb_le in E1. apply Z.leb_gt. lia. }
    rewrite E, app_nil_r. repeat split. lia.
  - unfold inboxesPatched. cbn [fold_left].
    fold (inboxesPatched userId rest (inboxPatched userId item (c, k))).
    unfold inboxPatched at 1 2 3 4 5 6.
    destruct (k - 1 =? 0) eqn:Ek.
    + apply Z.eqb_eq in Ek.
      destruct (IH (set_readList
                      (readList (state (dispatch
                                          (FetchInboxSummaryByUser userId) c))
                       ++ [item])
                      (dispatch (FetchInboxSummaryByUser userId) c))
                   (k - 1))
        as (H1 & H2 & H3 & H4 & H5 & H6).
      rewrite H1, H2, H3, H4, H5, H6. cbn.
      assert (E1 : (1 <=? k - 1) = false) by (apply Z.leb_gt; lia).
      assert (E2 : (1 <=? k) = true) by (apply Z.leb_le; lia).
      assert (E3 : (k <=? Z.pos (Pos.of_succ_nat (List.length rest))) = true)
        by (apply Z.leb_le; lia).
      rewrite E1, E2, E3. cbn. rewrite <- !app_assoc, app_nil_r.
      repeat split. lia.
    + apply Z.eqb_neq in Ek.
      destruct (IH (set_readList (readList (state c) ++ [item]) c) (k - 1))
        as (H1 & H2 & H3 & H4 & H5 & H6).
      rewrite H1, H2, H3, H4, H5, H6. cbn.
      assert (E : (1 <=? k - 1) && (k - 1 <=? Z.of_nat (List.length rest))
                  = (1 <=? k)
                    && (k <=? Z.pos (Pos.of_succ_nat (List.length rest)))).
      { destruct (1 <=? k - 1) eqn:A1, (1 <=? k) eqn:A2;
          destruct (k - 1 <=? Z.of_nat (List.length rest)) eqn:B1,
                   (k <=? Z.pos (Pos.of_succ_nat (List.length rest))) eqn:B2;
          try reflexivity;
          rewrite ?Z.leb_le, ?Z.leb_gt in *; lia. }
      rewrite E, <- !app_assoc. repeat split. lia.
Qed.

(** X19: marking all as read.  The call sends one patch per unread item,
    in order, and empties the unread list at once.  Each answer moves its
    item, as it is, to the end of the read list.  The summary is fetched
    once, by the answer that comes last, and not before; with no unread
    item nothing is sent and nothing is fetched.  When every patch has
    been answered the read list holds exactly the old read and unread
    items. *)
Theorem mark_all_as_read_fetches_the_summary_once userId c answered :
  unreadList (state (fst (markAllAsRead c))) = []
  /\ readList (state (fst (markAllAsRead c))) = readList (state c)
  /\ dispatched (fst (markAllAsRead c))
     = (dispatched c
        ++ map (fun item => PatchInbox (id item) "READ")
               (unreadList (state c)))%list
  /\ readList (state (fst (inboxesPatched userId answered (markAllAsRead c))))
     = (readList (state c) ++ answered)%list
  /\ unreadList
       (state (fst (inboxesPatched userId answered (markAllAsRead c))))
     = []
  /\ ((List.length answered < List.length (unreadList (state c)))%nat ->
      dispatched (fst (inboxesPatched userId answered (markAllAsRead c)))
      = dispatched (fst (markAllAsRead c)))
  /\ (List.length answered = List.length (unreadList (state c)) ->
      unreadList (state c) <> [] ->
      dispatched (fst (inboxesPatched userId answered (markAllAsRead c)))
      = (dispatched (fst (markAllAsRead c))
         ++ [FetchInboxSummaryByUser userId])%list)
  /\ (unreadList (state c) = [] ->
      dispatched (fst (inboxesPatched userId answered (markAllAsRead c)))
      = dispatched c)
  /\ (Permutation answered (unreadList (state c)) ->
      Permutation
        (readList
           (state (fst (inboxesPatched userId answered (markAllAsRead c)))))
        (readList (state c) ++ unreadList (state c))).
Proof.
  unfold markAllAsRead.
  destruct (patches_sent (unreadList (state c)) c) as (P1 & P2 & P3).
  cbv zeta in P1, P2, P3.
  set (c1 := fold_left
               (fun c item => dispatch (PatchInbox (id item) "READ") c)
               (unreadList (state c)) c) in *.
  destruct (callbacks_run userId answered (set_unreadList [] c1)
              (Z.of_nat (List.length (unreadList (state c)))))
    as (H1 & H2 & H3 & H4 & H5 & H6).
  cbn [fst snd]. rewrite H2, H3, H6.
  cbn [set_unreadList state readList unreadList dispatched].
  rewrite P1, P3.
  split; [reflexivity |]. split; [reflexivity |]. split; [reflexivity |].
  split; [reflexivity |]. split; [reflexivity |].
  split; [| split; [| split]].
  - intros Hlt.
    assert (E : (1 <=? Z.of_nat (List.length (unreadList (state c))))
                && (Z.of_nat (List.length (unreadList (state c)))
                    <=? Z.of_nat (List.length answered)) = false).
    { apply andb_false_iff. right. apply Z.leb_gt. lia. }
    rewrite E, app_nil_r. reflexivity.
  - intros Heq Hne.
    assert (E : (1 <=? Z.of_nat (List.length (unreadList (state c))))
                && (Z.of_nat (List.length (unreadList (state c)))
                    <=? Z.of_nat (List.length answered)) = true).
    { apply andb_true_iff. split; apply Z.leb_le; [| lia].
      destruct (unreadList (state c)); [contradiction | simpl List.length; lia]. }
    rewrite E. reflexivity.
  - intros Hnil. rewrite Hnil. cbn. rewrite !app_nil_r. reflexivity.
  - intros Hperm. apply Permutation_app_head. exact Hperm.
Qed.

End InboxFacts.

(** * Properties of the database request template *)

Module TemplateFacts.
Import DatabaseRequestTemplate.

Lemma payload_get_set_same key value p :
  payload_get key (payload_set key value p) = Some value.
Proof. unfold payload_set. cbn. rewrite String.eqb_refl. reflexivity. Qed.

Lemma payload_get_filter_other key other p :
  key <> other ->
  payload_get key (filter (fun kv => negb (String.eqb (fst kv) other)) p)
  = payload_get key p.
Proof.
  intros Hne. induction p as [| [k v] p IH]; [reflexivity |].
  cbn. destruct (String.eqb k other) eqn:Eo; cbn.
  - apply String.eqb_eq in Eo. subst k.
    assert (E : String.eqb other key = false).
    { apply String.eqb_neq. intros H. apply Hne. symmetry. exact H. }
    rewrite E. exact IH.
  - destruct (String.eqb k key); [reflexivity | exact IH].
Qed.

Lemma payload_get_set_other key other value p :
  key <> other ->
  payload_get key (payload_set other value p) = payload_get key p.
Proof.
  intros Hne. unfold payload_set. cbn.
  assert (E : String.eqb other key = false).
  { apply String.eqb_neq. intros H. apply Hne. symmetry. exact H. }
  rewrite E. apply payload_get_filter_other. exact Hne.
Qed.

Lemma last_of_snoc {A} (l : list A) x : last_of (l ++ [x]) = Some x.
Proof.
  unfold last_of. rewrite length_app. cbn [List.length].
  assert (E : Z.of_nat (List.length l + 1) - 1 = Z.of_nat (List.length l))
    by lia.
  rewrite E.
  assert (E' : (Z.of_nat (List.length l) <? 0) = false)
    by (apply Z.ltb_ge; lia).
  rewrite E', Nat2Z.id, nth_error_app2 by lia.
  rewrite Nat.sub_diag. reflexivity.
Qed.

(** X20: the defaults of a new request.  Whatever the context, the task
    [buildTask] returns is created by the current user and carries a new,
    read-only database whose name the DB name field reports as empty, so
    the request is incomplete until a name is typed.  When the two field
    ids differ, the environment of the task is the id of the last
    environment of the context, and the task has none when the context
    has no environment. *)
Theorem new_request_defaults ENVIRONMENT DATABASE ctx :
  creatorId (buildTask ENVIRONMENT DATABASE ctx) = currentUserId ctx
  /\ (exists d,
        payload_get DATABASE (payload (buildTask ENVIRONMENT DATABASE ctx))
        = Some (PDatabase d)
        /\ isNew d = true /\ readOnly d = true
        /\ database_isEmpty d = true)
  /\ (ENVIRONMENT <> DATABASE ->
      (environmentList ctx = [] ->
       payload_get ENVIRONMENT
         (payload (buildTask ENVIRONMENT DATABASE ctx)) = None)
      /\ (forall l env,
            environmentList ctx = (l ++ [env])%list ->
            payload_get ENVIRONMENT
              (payload (buildTask ENVIRONMENT DATABASE ctx))
            = Some (PEnvironment (environmentId env)))).
Proof.
  split; [reflexivity |].
  split.
  { eexists. unfold buildTask. cbn [payload].
    rewrite payload_get_set_same. repeat split. }
  intros Hne. unfold buildTask. cbn [payload].
  rewrite (payload_get_set_other _ _ _ _ Hne).
  split.
  - intros ->. reflexivity.
  - intros l env ->. rewrite last_of_snoc.
    assert (E : (0 <? Z.of_nat (List.length (l ++ [env]))) = true).
    { apply Z.ltb_lt. rewrite length_app. cbn [List.length]. lia. }
    rewrite E. apply payload_get_set_same.
Qed.

Lemma trimStart_empty s : trimStart s = [] <-> all_white_space s = true.
Proof.
  induction s as [| c s IH]; [split; reflexivity |].
  cbn [trimStart all_white_space].
  destruct (is_white_space c); cbn [andb]; [exact IH |].
  split; discriminate.
Qed.

Lemma trimEnd_empty s : trimEnd s = [] <-> all_white_space s = true.
Proof.
  induction s as [| c s IH]; [split; reflexivity |].
  cbn [trimEnd all_white_space]. destruct (trimEnd s) eqn:E.
  - destruct (is_white_space c); cbn [andb].
    + split; [intros _; apply IH; reflexivity | reflexivity].
    + split; discriminate.
  - split; [discriminate |].
    intros H. apply andb_true_iff in H. destruct H as [_ H].
    apply IH in H. discriminate H.
Qed.

Lemma trimStart_not_blank s :
  trimStart s <> [] -> all_white_space (trimStart s) = false.
Proof.
  induction s as [| c s IH]; [intros H; contradiction |].
  cbn [trimStart]. destruct (is_white_space c) eqn:E; [exact IH |].
  intros _. cbn [all_white_space]. rewrite E. reflexivity.
Qed.

Lemma trim_empty s : trim s = [] <-> all_white_space s = true.
Proof.
  unfold trim. rewrite trimEnd_empty. split.
  - intros H. apply trimStart_empty.
    destruct (trimStart s) eqn:E; [reflexivity |].
    assert (Hne : trimStart s <> []) by (rewrite E; discriminate).
    apply trimStart_not_blank in Hne. rewrite E in Hne. congruence.
  - intros H. apply trimStart_empty in H. rewrite H. reflexivity.
Qed.

(** X21: the output field is empty exactly when it is blank: its
    [isEmpty] answers true for [undefined] and [null] and for a string
    made only of the code units [trim] strips (the empty string among
    them), and false for any string with one other code unit, wherever
    it stands. *)
Theorem output_is_empty_iff_blank value :
  output_isEmpty value = true
  <-> value = None \/ exists s, value = Some s /\ all_white_space s = true.
Proof.
  unfold output_isEmpty, isEmpty. destruct value as [s |].
  - split.
    + intros H. right. exists s. split; [reflexivity |].
      apply trim_empty. apply Nat.eqb_eq in H.
      destruct (trim s); [reflexivity | discriminate H].
    + intros [H | (s' & [= <-] & H)]; [discriminate |].
      apply trim_empty in H. rewrite H. reflexivity.
  - split; [intros _; left; reflexivity | reflexivity].
Qed.

End TemplateFacts.

(** * More examples *)

Lemma failed_calls_change_nothing_witness :
  snd (fst (PatchRepository sample_classify sample_patch locked_statement))
  <> None
  /\ repo (snd (PatchRepository sample_classify sample_patch locked_statement))
     = sample_table.
Proof.
  assert (H : snd (fst (PatchRepository sample_classify sample_patch
                          locked_statement)) <> None) by discriminate.
  destruct (failed_calls_change_nothing sample_classify sample_Sprintf_v
              sample_create (mkRepositoryFind None) sample_patch
              (mkRepositoryDelete 1) locked_statement)
    as (_ & Hpatch & _).
  split; [exact H | exact (Hpatch H)].
Defined.

Lemma patch_touches_only_its_rows_witness :
  Forall2 (fun r r' => same_unpatched_columns r r'
                       /\ (ID r <> pID sample_patch -> r' = r))
          (rows (repo at_rest))
          (rows (repo (snd (PatchRepository sample_classify sample_patch
                              at_rest)))).
Proof. exact (patch_touches_only_its_rows sample_classify sample_patch at_rest). Defined.

Lemma delete_touches_only_its_rows_witness :
  fst (DeleteRepository sample_classify (mkRepositoryDelete 1) at_rest) = None
  /\ rows (repo (snd (DeleteRepository sample_classify (mkRepositoryDelete 1)
                        at_rest)))
     = [second_row].
Proof.
  assert (H : fst (DeleteRepository sample_classify (mkRepositoryDelete 1)
                     at_rest) = None) by reflexivity.
  destruct (delete_touches_only_its_rows sample_classify
              (mkRepositoryDelete 1) at_rest)
    as (_ & Hok & _).
  split; [exact H | exact (proj2 (Hok H))].
Defined.

Lemma well_keyed_two_row_table : well_keyed two_row_table.
Proof.
  split.
  - cbn. repeat constructor; cbn; intuition discriminate.
  - cbn. repeat constructor; cbn; lia.
Defined.

Lemma well_keyed_is_kept_witness :
  well_keyed (repo at_rest)
  /\ well_keyed (repo (snd (CreateRepository sample_classify sample_create
                              at_rest)))
  /\ well_keyed (repo (snd (DeleteRepository sample_classify
                              (mkRepositoryDelete 1) at_rest))).
Proof.
  split; [exact well_keyed_two_row_table |].
  destruct (well_keyed_is_kept sample_classify sample_Sprintf_v sample_create
              (mkRepositoryFind None) sample_patch (mkRepositoryDelete 1)
              at_rest well_keyed_two_row_table)
    as (Hc & _ & _ & _ & Hd).
  split; [exact Hc | exact Hd].
Defined.

Lemma find_by_id_is_silent_on_unique_ids_witness :
  NoDup (map ID (rows (repo at_rest)))
  /\ warnings (snd (FindRepository sample_classify sample_Sprintf_v
                      (mkRepositoryFind (Some 2)) at_rest))
     = warnings at_rest.
Proof.
  split; [exact (proj1 well_keyed_two_row_table) |].
  exact (proj1 (find_by_id_is_silent_on_unique_ids sample_classify
                  sample_Sprintf_v 2 at_rest
                  (proj1 well_keyed_two_row_table))).
Defined.

Lemma create_then_find_witness :
  Forall (fun r => ID r <= seq (repo at_rest)) (rows (repo at_rest))
  /\ exists row,
       fst (CreateRepository sample_classify sample_create at_rest)
       = (Some row, None)
       /\ fst (FindRepository sample_classify sample_Sprintf_v
                 (mkRepositoryFind (Some (ID row)))
                 (then_at (snd (CreateRepository sample_classify sample_create
                                  at_rest)) 1004))
          = (Some row, None).
Proof.
  split; [exact (proj2 well_keyed_two_row_table) |].
  destruct (create_then_find sample_classify sample_Sprintf_v sample_create
              at_rest 1004 eq_refl (proj2 well_keyed_two_row_table))
    as (row & Hc & Hf & _).
  exists row. split; [exact Hc | exact Hf].
Defined.

Lemma patch_then_find_witness :
  fst (PatchRepository sample_classify second_patch at_rest)
  = (Some (patched second_patch second_row), None)
  /\ fst (FindRepository sample_classify sample_Sprintf_v
            (mkRepositoryFind (Some 2))
            (then_at (snd (PatchRepository sample_classify second_patch
                             at_rest)) 1004))
     = (Some (patched second_patch second_row), None).
Proof.
  assert (H : fst (PatchRepository sample_classify second_patch at_rest)
              = (Some (patched second_patch second_row), None))
    by reflexivity.
  split; [exact H |].
  exact (patch_then_find sample_classify sample_Sprintf_v second_patch
           at_rest 1004 _ H).
Defined.

Lemma delete_then_not_found_witness :
  fst (DeleteRepository sample_classify (mkRepositoryDelete 1) at_rest) = None
  /\ fst (DeleteRepository sample_classify (mkRepositoryDelete 1)
            (then_at (snd (DeleteRepository sample_classify
                             (mkRepositoryDelete 1) at_rest)) 1004))
     = Some (BytebaseError ENOTFOUND "repository ID not found: 1").
Proof.
  assert (H : fst (DeleteRepository sample_classify (mkRepositoryDelete 1)
                     at_rest) = None) by reflexivity.
  split; [exact H |].
  destruct (delete_then_not_found sample_classify sample_Sprintf_v
              (mkRepositoryDelete 1) sample_patch at_rest 1004 H eq_refl)
    as (_ & Hd & _).
  exact Hd.
Defined.

Lemma patch_twice_is_patch_once_witness :
  fst (PatchRepository sample_classify second_patch at_rest)
  = (Some (patched second_patch second_row), None)
  /\ repo (snd (PatchRepository sample_classify second_patch
                  (then_at (snd (PatchRepository sample_classify second_patch
                                   at_rest)) 1004)))
     = repo (snd (PatchRepository sample_classify second_patch at_rest)).
Proof.
  assert (H : fst (PatchRepository sample_classify second_patch at_rest)
              = (Some (patched second_patch second_row), None))
    by reflexivity.
  split; [exact H |].
  exact (proj2 (patch_twice_is_patch_once sample_classify second_patch
                  at_rest 1004 _ H)).
Defined.

Lemma patches_of_different_ids_commute_witness :
  pID sample_patch <> pID second_patch
  /\ repo (snd (PatchRepository sample_classify second_patch
                  (then_at (snd (PatchRepository sample_classify sample_patch
                                   at_rest)) 1004)))
     = repo (snd (PatchRepository sample_classify sample_patch
                    (then_at (snd (PatchRepository sample_classify
                                     second_patch at_rest)) 1005))).
Proof.
  assert (H : pID sample_patch <> pID second_patch) by discriminate.
  split; [exact H |].
  exact (proj1 (patches_of_different_ids_commute sample_classify sample_patch
                  second_patch at_rest 1004 1005 eq_refl H)).
Defined.

Lemma create_then_delete_witness :
  Forall (fun r => ID r <= seq (repo at_rest)) (rows (repo at_rest))
  /\ exists row,
       fst (CreateRepository sample_classify sample_create at_rest)
       = (Some row, None)
       /\ rows (repo (snd (DeleteRepository sample_classify
                             (mkRepositoryDelete (ID row))
                             (then_at (snd (CreateRepository sample_classify
                                              sample_create at_rest)) 1004))))
          = rows (repo at_rest).
Proof.
  split; [exact (proj2 well_keyed_two_row_table) |].
  destruct (create_then_delete sample_classify sample_create at_rest 1004
              eq_refl (proj2 well_keyed_two_row_table))
    as (row & Hc & _ & Hr).
  exists row. split; [exact Hc | exact Hr].
Defined.

Lemma statement_text_holds_no_value_witness :
  patch_shape sample_patch
  = patch_shape (mkRepositoryPatch 9 9 None (Some "x'; DROP TABLE repo; --"))
  /\ sql_text (patch_stmt sample_patch)
     = sql_text (patch_stmt (mkRepositoryPatch 9 9 None
                               (Some "x'; DROP TABLE repo; --"))).
Proof.
  split; [reflexivity |].
  exact (proj1 statement_text_holds_no_value sample_patch _ eq_refl).
Defined.

Lemma scan_reads_back_the_stored_row_witness :
  project repo_columns sample_row = Some (encode sample_row)
  /\ decode (encode sample_row) = Some sample_row.
Proof.
  split; [reflexivity |].
  destruct (scan_reads_back_the_stored_row sample_row [] (encode sample_row)
              zeroRepository None) as (Hback & _).
  exact (Hback eq_refl).
Defined.

Lemma tabs_split_the_inbox_witness :
  In member_item
     (Inbox.effectiveInboxList
        (Inbox.set_selectedIndex Inbox.MEMBER_TAB sample_view) sample_inbox)
  /\ ~ In member_item
         (Inbox.effectiveInboxList
            (Inbox.set_selectedIndex Inbox.ISSUE_TAB sample_view)
            sample_inbox).
Proof.
  destruct (InboxFacts.tabs_split_the_inbox sample_view sample_inbox)
    as (_ & Hnot & Hmember & _).
  assert (H : In member_item
                 (Inbox.effectiveInboxList
                    (Inbox.set_selectedIndex Inbox.MEMBER_TAB sample_view)
                    sample_inbox)).
  { apply Hmember. split; [right; left; reflexivity | reflexivity]. }
  split; [exact H |].
  intros Hissue. exact (Hnot member_item Hissue H).
Defined.

Lemma select_tab_on_hash_follows_the_route_witness :
  Inbox.tab_at 1 = Some (Inbox.mkTabItem "Member" "member")
  /\ Inbox.selectTabOnHash (fst (Inbox.selectTab 1 sample_view))
     = (fst (Inbox.selectTab 1 sample_view), false).
Proof.
  split; [reflexivity |].
  destruct (InboxFacts.select_tab_on_hash_follows_the_route sample_view)
    as (_ & _ & _ & _ & Hround).
  destruct (Hround 1 (Inbox.mkTabItem "Member" "member") eq_refl)
    as (_ & _ & H).
  exact H.
Defined.

Lemma mark_all_as_read_fetches_the_summary_once_witness :
  List.length [stale_item; issue_item]
  = List.length (Inbox.unreadList (Inbox.state sample_view))
  /\ Inbox.dispatched
       (fst (Inbox.inboxesPatched "100" [stale_item; issue_item]
               (Inbox.markAllAsRead sample_view)))
     = [Inbox.PatchInbox "11" "READ"; Inbox.PatchInbox "13" "READ";
        Inbox.FetchInboxSummaryByUser "100"].
Proof.
  split; [reflexivity |].
  destruct (InboxFacts.mark_all_as_read_fetches_the_summary_once "100"
              sample_view [stale_item; issue_item])
    as (_ & _ & _ & _ & _ & _ & Hall & _).
  exact (Hall eq_refl ltac:(discriminate)).
Defined.

Lemma new_request_defaults_witness :
  "5" <> "6"
  /\ DatabaseRequestTemplate.payload_get "5"
       (DatabaseRequestTemplate.payload
          (DatabaseRequestTemplate.buildTask "5" "6" sample_context))
     = Some (DatabaseRequestTemplate.PEnvironment
               (DatabaseRequestTemplate.JString
                  (DatabaseRequestTemplate.lit "prod"))).
Proof.
  assert (H : "5" <> "6") by discriminate.
  split; [exact H |].
  destruct (TemplateFacts.new_request_defaults "5" "6" sample_context)
    as (_ & _ & Henv).
  destruct (Henv H) as (_ & Hlast).
  exact (Hlast [DatabaseRequestTemplate.mkEnvironment
                  (DatabaseRequestTemplate.JString
                     (DatabaseRequestTemplate.lit "dev"))]
               (DatabaseRequestTemplate.mkEnvironment
                  (DatabaseRequestTemplate.JString
                     (DatabaseRequestTemplate.lit "prod"))) eq_refl).
Defined.

Lemma output_is_empty_iff_blank_witness :
  DatabaseRequestTemplate.all_white_space blank_output = true
  /\ DatabaseRequestTemplate.output_isEmpty (Some blank_output) = true.
Proof.
  split; [reflexivity |].
  apply (proj2 (TemplateFacts.output_is_empty_iff_blank (Some blank_output))).
  right. exists blank_output. split; reflexivity.
Defined.
